(** * Sheets Agent for QuickBooks: intent normalisation, report retrieval
      and sheet formatting, embedded from the Apps Script sources.

    The development follows the source files:
    - [Js]        the JSON values and the language primitives the code relies on;
    - [JsDate]    the calendar arithmetic behind [Date] and [Utilities.formatDate];
    - [Runtime]   what the script takes from its host (clock, time zone, built-ins);
    - [OpenAI]    OpenAIService.js ([validateAndNormalizeIntent], [generateExplanation]);
    - [Utils]     Utils.js ([formatReportData], [formatQueryData], [formatDataForSheet],
                  the column normalisation of [writeToSheet]);
    - [Qbo]       the QuickBooks service ([makeApiCall], [callQuickBooksApi],
                  [getReport], [getProfitAndLossReport] and its fallback strategies);
    - [QboMore]   the request URL of [makeApiCall] and [getDirectSimplePLReport];
    - [Diagnostics] [runQBDiagnostic];
    - [Settings]  the property stores behind the credentials, the OpenAI key
                  and [resetAllAuth];
    - [SheetData] [objectToSheetData] and the values of [updateSheetRange];
    - [ReportShape] observations on the report formatters;
    - [Sheets]    the spreadsheet service, [getOrCreateSheet], [writeToSheet];
    - [Ranges]    [updateSheetRange], [writeDataToRange];
    - [Scenarios], [MoreScenarios] concrete hosts, worlds and inputs.

    Calls to [console] write to the execution transcript only and are left
    out; [logAction] is kept, as a trace.  Line numbers refer to the source
    file of the module at hand.  All definitions come first; the properties
    follow in the second half. *)

From Stdlib Require Import ZArith String Ascii List Bool Lia DecimalString.
From stdpp Require Import base strings gmap list.

Set Warnings "-register-all".

Local Open Scope string_scope.
Local Open Scope list_scope.
Local Open Scope Z_scope.

(* ===================================================================== *)
(** ** JSON values and language primitives                                *)
(* ===================================================================== *)

Module Js.

(** A value as [JSON.parse] produces it, plus [undefined] and built-in
    function objects.  Numbers are the integral ones; the fields of an object
    are listed in enumeration order. *)
Inductive jsval : Type :=
| JUndefined
| JNull
| JBool (b : bool)
| JNum (z : Z)
| JStr (s : string)
| JArr (elems : list jsval)
| JObj (fields : list (string * jsval))
| JFun (name : string).

(** ToBoolean. *)
Definition truthy (v : jsval) : bool :=
  match v with
  | JUndefined | JNull => false
  | JBool b => b
  | JNum z => negb (z =? 0)
  | JStr s => negb (String.eqb s "")
  | JArr _ | JObj _ | JFun _ => true
  end.

(** [a || b] *)
Definition or_else (a b : jsval) : jsval := if truthy a then a else b.

Definition isArray (v : jsval) : bool :=
  match v with JArr _ => true | _ => false end.

(** [typeof v === 'object' && v !== null && !Array.isArray(v)] *)
Definition isPlainObject (v : jsval) : bool :=
  match v with JObj _ => true | _ => false end.

Definition Z_to_string (z : Z) : string := NilZero.string_of_int (Z.to_int z).

(** [Array.prototype.join] glue. *)
Fixpoint join (sep : string) (l : list string) : string :=
  match l with
  | [] => ""
  | [x] => x
  | x :: r => x +:+ sep +:+ join sep r
  end.

(** ToString, as used by [+] on strings and by template literals. *)
Fixpoint toStr (v : jsval) : string :=
  match v with
  | JUndefined => "undefined"
  | JNull => "null"
  | JBool true => "true"
  | JBool false => "false"
  | JNum z => Z_to_string z
  | JStr s => s
  | JArr l =>
      join ","
        ((fix each (l : list jsval) : list string :=
            match l with
            | [] => []
            | x :: r =>
                match x with
                | JUndefined | JNull => ""
                | _ => toStr x
                end :: each r
            end) l)
  | JObj _ => "[object Object]"
  | JFun name => "function " +:+ name +:+ "() { [native code] }"
  end.

(** The double-quote character, as a string. *)
Definition dquote : string := String (ascii_of_nat 34) EmptyString.

(** [String.prototype.includes] *)
Fixpoint includes (s sub : string) : bool :=
  if String.prefix sub s then true
  else match s with
       | EmptyString => false
       | String _ r => includes r sub
       end.

(** [String.prototype.startsWith] *)
Definition startsWith (s p : string) : bool := String.prefix p s.

(** [s.split(sep)] for a one-character separator. *)
Fixpoint split (sep : ascii) (s : string) : list string :=
  match s with
  | EmptyString => [""]
  | String c r =>
      if Ascii.eqb c sep then "" :: split sep r
      else match split sep r with
           | [] => [String c ""]
           | h :: t => String c h :: t
           end
  end.


(** Own property of an object, by name. *)
Fixpoint assoc (k : string) (fs : list (string * jsval)) : option jsval :=
  match fs with
  | [] => None
  | (k', v) :: r => if String.eqb k k' then Some v else assoc k r
  end.

(** A string-valued field that may be absent ([undefined]). *)
Definition truthy_str (o : option string) : bool :=
  match o with
  | Some s => negb (String.eqb s "")
  | None => false
  end.

(** [o || d] on such a field. *)
Definition or_str (o : option string) (d : string) : string :=
  match o with
  | Some s => if String.eqb s "" then d else s
  | None => d
  end.

(** [o === lit] *)
Definition str_is (o : option string) (lit : string) : bool :=
  match o with
  | Some s => String.eqb s lit
  | None => false
  end.

(** Such a field as a value. *)
Definition optStr (o : option string) : jsval :=
  match o with
  | Some s => JStr s
  | None => JUndefined
  end.

(** ToString of such a field inside a template literal. *)
Definition tpl (o : option string) : string :=
  match o with
  | Some s => s
  | None => "undefined"
  end.

(** An exception value: an [Error] object with its name and message. *)
Record JsError : Type := mkError {
  ename : string;
  message : string
}.

Definition Error (msg : string) : JsError := mkError "Error" msg.
Definition TypeError (msg : string) : JsError := mkError "TypeError" msg.

(** [error.toString()] *)
Definition errToString (e : JsError) : string :=
  if String.eqb (message e) "" then ename e
  else ename e +:+ ": " +:+ message e.

(** A call either returns a value or throws. *)
Inductive result (A : Type) : Type :=
| Ok (a : A)
| Throw (e : JsError).

Arguments Ok {A} a.
Arguments Throw {A} e.

(** The own enumerable properties of a value, in [for..in] order: the fields
    of an object, the indices of an array or of a string. *)
Fixpoint indexed (i : nat) (l : list jsval) : list (string * jsval) :=
  match l with
  | [] => []
  | x :: r => (Z_to_string (Z.of_nat i), x) :: indexed (S i) r
  end.

Fixpoint chars (s : string) : list jsval :=
  match s with
  | EmptyString => []
  | String c r => JStr (String c "") :: chars r
  end.

Definition ownEntries (v : jsval) : list (string * jsval) :=
  match v with
  | JObj fs => fs
  | JArr l => indexed 0 l
  | JStr s => indexed 0 (chars s)
  | _ => []
  end.

(** [v[k]] for a value that is neither [null] nor [undefined]: an own
    property, the [length] of an array or string, or else what the prototype
    chain supplies ([inherited], [JUndefined] when it has no such member). *)
Definition getProp (inherited : jsval -> string -> jsval) (v : jsval) (k : string)
  : jsval :=
  match assoc k (ownEntries v) with
  | Some x => x
  | None =>
      match v with
      | JArr l => if String.eqb k "length" then JNum (Z.of_nat (length l))
                  else inherited v k
      | JStr s => if String.eqb k "length" then JNum (Z.of_nat (String.length s))
                  else inherited v k
      | _ => inherited v k
      end
  end.

End Js.

(* ===================================================================== *)
(** ** Calendar arithmetic of [Date] and [Utilities.formatDate]           *)
(* ===================================================================== *)

Module JsDate.

Definition msPerDay : Z := 86400000.
Definition msPerMinute : Z := 60000.

(** Day number (days since 1970-01-01) of a proleptic Gregorian date;
    [m] is 1-based. *)
Definition days_from_civil (y m d : Z) : Z :=
  let y' := if m <=? 2 then y - 1 else y in
  let era := y' / 400 in
  let yoe := y' - era * 400 in
  let mp := if m >? 2 then m - 3 else m + 9 in
  let doy := (153 * mp + 2) / 5 + d - 1 in
  let doe := yoe * 365 + yoe / 4 - yoe / 100 + doy in
  era * 146097 + doe - 719468.

(** Year, month (1-based) and day of month of a day number. *)
Definition civil_from_days (z : Z) : Z * Z * Z :=
  let z := z + 719468 in
  let era := z / 146097 in
  let doe := z - era * 146097 in
  let yoe := (doe - doe / 1460 + doe / 36524 - doe / 146096) / 365 in
  let y := yoe + era * 400 in
  let doy := doe - (365 * yoe + yoe / 4 - yoe / 100) in
  let mp := (5 * doy + 2) / 153 in
  let d := doy - (153 * mp + 2) / 5 + 1 in
  let m := if mp <? 10 then mp + 3 else mp - 9 in
  (if m <=? 2 then y + 1 else y, m, d).

(** ECMAScript [Day(t)]: the day number of a time value in milliseconds. *)
Definition Day (t : Z) : Z := t / msPerDay.

(** A time value shifted to the script's time zone, [tz] minutes east of GMT. *)
Definition LocalTime (tz t : Z) : Z := t + tz * msPerMinute.

(** [date.getFullYear()] *)
Definition getFullYear (tz t : Z) : Z :=
  let '(y, _, _) := civil_from_days (Day (LocalTime tz t)) in y.

(** [date.getMonth()], 0-based. *)
Definition getMonth (tz t : Z) : Z :=
  let '(_, m, _) := civil_from_days (Day (LocalTime tz t)) in m - 1.

(** ECMAScript [MakeDay(year, month, date)]: the month may lie outside
    0..11 and the date outside the month; both carry over. *)
Definition MakeDay (year month date : Z) : Z :=
  let ym := year + month / 12 in
  let mn := month mod 12 in
  days_from_civil ym (mn + 1) 1 + date - 1.

(** [new Date(year, month, date)]: midnight of that day in the script's
    time zone, as a time value. *)
Definition newDate (tz year month date : Z) : Z :=
  MakeDay year month date * msPerDay - tz * msPerMinute.

(** Left-pad a decimal numeral with zeros to [w] digits. *)
Fixpoint zeros (n : nat) : string :=
  match n with
  | O => ""
  | S k => String "0" (zeros k)
  end.

Definition pad (w : nat) (z : Z) : string :=
  let s := Js.Z_to_string z in
  zeros (w - String.length s) +:+ s.

(** A date written [yyyy-MM-dd]. *)
Definition formatYMD (y m d : Z) : string :=
  pad 4 y +:+ "-" +:+ pad 2 m +:+ "-" +:+ pad 2 d.

(** A day number written [yyyy-MM-dd]. *)
Definition formatDay (day : Z) : string :=
  let '(y, m, d) := civil_from_days day in formatYMD y m d.

(** [Utilities.formatDate(date, 'GMT', 'yyyy-MM-dd')] *)
Definition formatDate_GMT (t : Z) : string := formatDay (Day t).

(** [date.toISOString()] *)
Definition toISOString (t : Z) : string :=
  let ms := t mod msPerDay in
  formatDate_GMT t +:+ "T" +:+ pad 2 (ms / 3600000) +:+ ":"
  +:+ pad 2 ((ms / 60000) mod 60) +:+ ":" +:+ pad 2 ((ms / 1000) mod 60)
  +:+ "." +:+ pad 3 (ms mod 1000) +:+ "Z".

(** *** The calendar, checked over one cycle of 400 years *)

(** The month before month [m] of year [y]. *)
Definition prevMonth (y m : Z) : Z * Z :=
  if m =? 1 then (y - 1, 12) else (y, m - 1).

(** The month after. *)
Definition nextMonth (y m : Z) : Z * Z :=
  if m =? 12 then (y + 1, 1) else (y, m + 1).

(** The first of a month is read back as such; the day before it is the
    last day, 28 to 31, of the month before, and the day before that one is
    the day before the last. *)
Definition month_ok (y m : Z) : bool :=
  let first := days_from_civil y m 1 in
  let '(y0, m0, d0) := civil_from_days first in
  let '(y1, m1, d1) := civil_from_days (first - 1) in
  let '(y2, m2, d2) := civil_from_days (first - 2) in
  let '(py, pm) := prevMonth y m in
  (y0 =? y) && (m0 =? m) && (d0 =? 1)
  && (y1 =? py) && (m1 =? pm) && (28 <=? d1) && (d1 <=? 31)
  && (y2 =? py) && (m2 =? pm) && (d2 =? d1 - 1).

Definition months_ok : bool :=
  forallb (fun y => forallb (fun m => month_ok (Z.of_nat y) (Z.of_nat m)) (seq 1 12))
    (seq 0 400).

End JsDate.

(* ===================================================================== *)
(** ** The Apps Script runtime, as far as the code reads it               *)
(* ===================================================================== *)

Module Runtime.
Import Js.

(** What the script takes from its host and its built-in library:
    - [now]: the clock, [new Date()], in milliseconds since the epoch;
    - [tzOffsetMinutes]: the script's time zone, as a fixed offset in minutes
      east of GMT;
    - [parseDate]: [new Date(text)], [None] for an invalid date;
    - [sheetNameFromQuery]: the first capture group of the sheet-name
      pattern of line 225 on a query (the word sheet, an optional named, then
      an optionally quoted run of letters, digits and spaces);
    - [inherited]: the members a value takes from its prototype chain;
    - [encodeURIComponent], [JSON_stringify]: the functions of these names;
    - [number] with [parseFloat], [+], [-] and [toFixed(2)]: floating-point
      arithmetic;
    - [positive]: the comparison [> 0] on a value that is not a number. *)
Record Host : Type := mkHost {
  now : Z;
  tzOffsetMinutes : Z;
  parseDate : string -> option Z;
  sheetNameFromQuery : string -> option string;
  inherited : jsval -> string -> jsval;
  encodeURIComponent : string -> string;
  JSON_stringify : jsval -> string;
  number : Type;
  zero : number;
  plus : number -> number -> number;
  minus : number -> number -> number;
  parseFloat : jsval -> number;
  toFixed2 : number -> string;
  positive : jsval -> bool
}.

End Runtime.

(* ===================================================================== *)
(** ** OpenAIService.js: the intent normaliser                            *)
(* ===================================================================== *)

Module OpenAI.
Import Js Runtime.

(** The intent object parsed from the model's reply, with the fields of the
    schema given in the system prompt.  [None] is an absent field. *)
Record Intent : Type := mkIntent {
  type : option string;
  action : option string;
  entity : option string;
  filters : option (gmap string jsval);
  parameters : option (gmap string jsval);
  text : option string;
  qboApiCall : option string;
  qboMethod : option string;
  qboData : option jsval;
  sheetsApiCall : option string;
  destination : option string;
  explanation : option string
}.

(** Assignment to one field. *)
Definition set_type (v : option string) (i : Intent) : Intent :=
  match i with
  | mkIntent _ ac en fi pa te qb qm qd sh de ex =>
      mkIntent v ac en fi pa te qb qm qd sh de ex
  end.

Definition set_action (v : option string) (i : Intent) : Intent :=
  match i with
  | mkIntent ty _ en fi pa te qb qm qd sh de ex =>
      mkIntent ty v en fi pa te qb qm qd sh de ex
  end.

Definition set_entity (v : option string) (i : Intent) : Intent :=
  match i with
  | mkIntent ty ac _ fi pa te qb qm qd sh de ex =>
      mkIntent ty ac v fi pa te qb qm qd sh de ex
  end.

Definition set_filters (v : option (gmap string jsval)) (i : Intent) : Intent :=
  match i with
  | mkIntent ty ac en _ pa te qb qm qd sh de ex =>
      mkIntent ty ac en v pa te qb qm qd sh de ex
  end.

Definition set_parameters (v : option (gmap string jsval)) (i : Intent) : Intent :=
  match i with
  | mkIntent ty ac en fi _ te qb qm qd sh de ex =>
      mkIntent ty ac en fi v te qb qm qd sh de ex
  end.

Definition set_text (v : option string) (i : Intent) : Intent :=
  match i with
  | mkIntent ty ac en fi pa _ qb qm qd sh de ex =>
      mkIntent ty ac en fi pa v qb qm qd sh de ex
  end.

Definition set_qboApiCall (v : option string) (i : Intent) : Intent :=
  match i with
  | mkIntent ty ac en fi pa te _ qm qd sh de ex =>
      mkIntent ty ac en fi pa te v qm qd sh de ex
  end.

Definition set_sheetsApiCall (v : option string) (i : Intent) : Intent :=
  match i with
  | mkIntent ty ac en fi pa te qb qm qd _ de ex =>
      mkIntent ty ac en fi pa te qb qm qd v de ex
  end.

Definition set_explanation (v : option string) (i : Intent) : Intent :=
  match i with
  | mkIntent ty ac en fi pa te qb qm qd sh de _ =>
      mkIntent ty ac en fi pa te qb qm qd sh de v
  end.

(** [intent.filters.k] and [intent.parameters.k] once the object exists. *)
Definition prop (m : gmap string jsval) (k : string) : jsval :=
  default JUndefined (m !! k).

Definition filter_of (i : Intent) (k : string) : jsval :=
  prop (default ∅ (filters i)) k.

Definition parameter_of (i : Intent) (k : string) : jsval :=
  prop (default ∅ (parameters i)) k.

Definition set_filter (k : string) (v : jsval) (i : Intent) : Intent :=
  set_filters (Some (<[k := v]> (default ∅ (filters i)))) i.

Definition set_parameter (k : string) (v : jsval) (i : Intent) : Intent :=
  set_parameters (Some (<[k := v]> (default ∅ (parameters i)))) i.

(** [generateExplanation], lines 244-294.  Reading a property of an absent
    [filters] or [parameters] throws inside the [try]; the [catch] answers
    with the fixed sentence. *)
Definition generateExplanation (intent : Intent) : string :=
  let fallthrough := "Process the request: " +:+ tpl (text intent) in
  let caught := "Process the user query" in
  let dest :=
    if truthy_str (destination intent)
    then " and place it in " +:+ tpl (destination intent) else "" in
  if str_is (type intent) "fetch" then
    if str_is (action intent) "report" then
      match filters intent with
      | None => caught
      | Some f =>
          let dateRange :=
            if truthy (prop f "startDate") && truthy (prop f "endDate")
            then " from " +:+ toStr (prop f "startDate") +:+ " to "
                 +:+ toStr (prop f "endDate")
            else "" in
          "Fetch the " +:+ tpl (entity intent) +:+ " report" +:+ dateRange +:+ dest
      end
    else if str_is (action intent) "query" || str_is (action intent) "entity" then
      "Fetch " +:+ or_str (entity intent) "data" +:+ " from QuickBooks" +:+ dest
    else fallthrough
  else if str_is (type intent) "create" then
    if str_is (action intent) "createSheet" then
      match parameters intent with
      | None => caught
      | Some p =>
          "Create a new sheet named " +:+ dquote +:+
          toStr (or_else (prop p "name") (JStr "new sheet")) +:+ dquote
      end
    else fallthrough
  else if str_is (type intent) "modify" then
    if str_is (action intent) "addRow" then
      match parameters intent with
      | None => caught
      | Some p =>
          "Add a new row to " +:+
          toStr (or_else (prop p "sheetName") (JStr "the active sheet"))
      end
    else if str_is (action intent) "clearRange" then
      match parameters intent with
      | None => caught
      | Some p =>
          "Clear " +:+ toStr (or_else (prop p "range") (JStr "the specified range"))
          +:+ " in " +:+
          toStr (or_else (prop p "sheetName") (JStr "the active sheet"))
      end
    else fallthrough
  else if str_is (type intent) "custom" then
    "Execute a custom operation using " +:+
    (if truthy_str (qboApiCall intent) then "QuickBooks API" else "") +:+
    (if truthy_str (qboApiCall intent) && truthy_str (sheetsApiCall intent)
     then " and " else "") +:+
    (if truthy_str (sheetsApiCall intent) then "Google Sheets API" else "")
  else if str_is (type intent) "help" then
    "Provide help information about available commands"
  else if str_is (type intent) "diagnostic" then
    "Run diagnostic tests on the QuickBooks connection"
  else fallthrough.

(** Lines 180-187: required fields and the original query. *)
Definition ensureRequired (originalQuery : string) (intent : Intent) : Intent :=
  mkIntent
    (Some (or_str (type intent) "unknown"))
    (Some (or_str (action intent) ""))
    (Some (or_str (entity intent) ""))
    (Some (default ∅ (filters intent)))
    (Some (default ∅ (parameters intent)))
    (Some originalQuery)
    (qboApiCall intent) (qboMethod intent) (qboData intent)
    (sheetsApiCall intent) (destination intent) (explanation intent).

(** Lines 190-203: the current month as the default date range. *)
Definition defaultDates (h : Host) (intent : Intent) : Intent :=
  if (str_is (type intent) "fetch" && str_is (action intent) "report")
     && negb (truthy (filter_of intent "startDate"))
     && negb (truthy (filter_of intent "endDate"))
  then
    let tz := tzOffsetMinutes h in
    let today := now h in
    let firstDay :=
      JsDate.newDate tz (JsDate.getFullYear tz today) (JsDate.getMonth tz today) 1 in
    let lastDay :=
      JsDate.newDate tz (JsDate.getFullYear tz today) (JsDate.getMonth tz today + 1) 0 in
    let intent := set_filter "startDate" (JStr (JsDate.formatDate_GMT firstDay)) intent in
    let intent := set_filter "endDate" (JStr (JsDate.formatDate_GMT lastDay)) intent in
    set_parameter "usedDefaultDates" (JBool true) intent
  else intent.

(** Lines 206-208: a leading slash on the API path. *)
Definition formatApiCall (intent : Intent) : Intent :=
  if truthy_str (qboApiCall intent)
     && negb (startsWith (tpl (qboApiCall intent)) "/")
  then set_qboApiCall (Some ("/" +:+ tpl (qboApiCall intent))) intent
  else intent.

(** Lines 211-213: an API call without a type makes the intent custom. *)
Definition promoteCustom (intent : Intent) : Intent :=
  if (truthy_str (qboApiCall intent) || truthy_str (sheetsApiCall intent))
     && str_is (type intent) "unknown"
  then set_type (Some "custom") intent
  else intent.

(** Lines 216-219: a destination without a sheets call is a range update. *)
Definition inferUpdate (intent : Intent) : Intent :=
  if truthy_str (destination intent) && negb (truthy_str (sheetsApiCall intent))
  then
    let intent := set_sheetsApiCall (Some "updateRange") intent in
    set_parameter "range" (JStr (tpl (destination intent))) intent
  else intent.

(** Lines 222-228: a name for the sheet to create. *)
Definition defaultSheetName (h : Host) (originalQuery : string) (intent : Intent)
  : Intent :=
  if str_is (action intent) "createSheet"
     && negb (truthy (parameter_of intent "name"))
  then
    let possibleName :=
      if truthy_str (entity intent) then entity intent
      else sheetNameFromQuery h originalQuery in
    set_parameter "name" (JStr (or_str possibleName "New Sheet")) intent
  else intent.

(** Lines 231-233: the explanation. *)
Definition fillExplanation (intent : Intent) : Intent :=
  if negb (truthy_str (explanation intent))
  then set_explanation (Some (generateExplanation intent)) intent
  else intent.

(** [validateAndNormalizeIntent], lines 178-236.  The function updates the
    object it is given and returns it; the steps run in source order. *)
Definition validateAndNormalizeIntent (h : Host) (intent : Intent)
  (originalQuery : string) : Intent :=
  let intent := ensureRequired originalQuery intent in
  let intent := defaultDates h intent in
  let intent := formatApiCall intent in
  let intent := promoteCustom intent in
  let intent := inferUpdate intent in
  let intent := defaultSheetName h originalQuery intent in
  fillExplanation intent.

(** Whether a date filter is set. *)
Definition dateSet (i : Intent) (k : string) : bool := truthy (filter_of i k).

(** The one situation in which a second pass still finds something to do:
    the type is still unknown although a sheets call is now present. *)
Definition awaitsPromotion (i : Intent) : bool :=
  str_is (type i) "unknown" && truthy_str (sheetsApiCall i).

(** What each step of the normaliser looks for, found absent: on an intent
    of which all seven hold, no step except, possibly, the promotion to a
    custom intent has anything left to do. *)
Definition Required (originalQuery : string) (i : Intent) : Prop :=
  Some (or_str (type i) "unknown") = type i
  /\ Some (or_str (action i) "") = action i
  /\ Some (or_str (entity i) "") = entity i
  /\ Some (default ∅ (filters i)) = filters i
  /\ Some (default ∅ (parameters i)) = parameters i
  /\ text i = Some originalQuery.

Definition datesSettled (i : Intent) : Prop :=
  (str_is (type i) "fetch" && str_is (action i) "report")
  && negb (truthy (filter_of i "startDate"))
  && negb (truthy (filter_of i "endDate")) = false.

Definition apiCallSettled (i : Intent) : Prop :=
  truthy_str (qboApiCall i) && negb (startsWith (tpl (qboApiCall i)) "/") = false.

Definition customSettled (i : Intent) : Prop :=
  str_is (type i) "unknown" = true -> truthy_str (qboApiCall i) = false.

Definition updateSettled (i : Intent) : Prop :=
  truthy_str (destination i) && negb (truthy_str (sheetsApiCall i)) = false.

Definition sheetNameSettled (i : Intent) : Prop :=
  str_is (action i) "createSheet" && negb (truthy (parameter_of i "name")) = false.

Definition explained (i : Intent) : Prop :=
  negb (truthy_str (explanation i)) = false.

Record Settled (originalQuery : string) (i : Intent) : Prop := mkSettled {
  settled_required : Required originalQuery i;
  settled_dates : datesSettled i;
  settled_apiCall : apiCallSettled i;
  settled_custom : customSettled i;
  settled_update : updateSettled i;
  settled_sheetName : sheetNameSettled i;
  settled_explanation : explained i
}.

End OpenAI.

(* ===================================================================== *)
(** ** Utils.js: report and query formatting                              *)
(* ===================================================================== *)

Module Utils.
Import Js Runtime.

(** A cell of a report row: [{ value: ... }]. *)
Record Cell : Type := mkCell { value : jsval }.

(** A row of a report response.  [None] is an absent property; [Header] and
    [Summary] hold the [ColData] of the object when it has one, [Rows] holds
    [Rows.Row].  An entry of a row array may be [null]. *)
Inductive Row : Type :=
| mkRow (type : option string)
        (Header : option (option (list Cell)))
        (Rows : option (option (list (option Row))))
        (ColData : option (list Cell))
        (Summary : option (option (list Cell))).

Definition type (r : Row) : option string :=
  match r with mkRow t _ _ _ _ => t end.
Definition Header (r : Row) : option (option (list Cell)) :=
  match r with mkRow _ h _ _ _ => h end.
Definition Rows (r : Row) : option (option (list (option Row))) :=
  match r with mkRow _ _ rs _ _ => rs end.
Definition ColData (r : Row) : option (list Cell) :=
  match r with mkRow _ _ _ c _ => c end.
Definition Summary (r : Row) : option (option (list Cell)) :=
  match r with mkRow _ _ _ _ s => s end.

Record Column : Type := mkColumn {
  ColTitle : option string;
  ColType : option string
}.

(** A report response: [Header.ReportName], [Columns.Column], [Rows.Row]. *)
Record Report : Type := mkReport {
  ReportName : option (option string);
  Columns : option (option (list Column));
  ReportRows : option (option (list (option Row)))
}.

(** [col.value || ''] *)
Definition cellOr (c : Cell) : jsval := or_else (value c) (JStr "").

(** [while (values.length < n) values.push('')] *)
Definition padTo (n : nat) (values : list jsval) : list jsval :=
  values ++ replicate (n - length values) (JStr "").

(** [for (i = 0; i < n; i++) out.push(i < data.length ? (data[i].value || '') : '')] *)
Definition fitTo (n : nat) (data : list Cell) : list jsval :=
  map (fun i => match nth_error data i with
                | Some c => cellOr c
                | None => JStr ""
                end) (seq 0 n).

(** The first cell of a section header, or the word Section. *)
Definition sectionHeaderValue (r : Row) : jsval :=
  match Header r with
  | Some (Some (c :: _)) => value c
  | _ => JStr "Section"
  end.

(** One iteration of [rows.forEach] in [formatReportData], lines 154-220:
    the rows it pushes.  A [null] entry has no [type] to read. *)
Definition formatReportRow (isBasicReport : bool) (n : nat) (row : option Row)
  : result (list (list jsval)) :=
  match row with
  | None => Throw (TypeError "Cannot read properties of null (reading 'type')")
  | Some r =>
      if str_is (type r) "Section" then
        if isBasicReport then Ok [[sectionHeaderValue r; JStr ""]]
        else Ok [sectionHeaderValue r :: replicate (n - 1) (JStr "")]
      else if str_is (type r) "Data" then
        let rowData := default [] (ColData r) in
        if isBasicReport then
          match rowData with
          | c0 :: c1 :: _ => Ok [[cellOr c0; cellOr c1]]
          | [c0] => Ok [[cellOr c0; JStr ""]]
          | [] => Ok [[JStr ""; JStr ""]]
          end
        else Ok [fitTo n rowData]
      else
        match Summary r with
        | Some s =>
            let summaryData := default [] s in
            if isBasicReport then
              let summaryValue :=
                match summaryData with c :: _ => value c | [] => JStr "Total" end in
              let amountValue :=
                match summaryData with _ :: c :: _ => value c | _ => JStr "" end in
              Ok [[summaryValue; amountValue]]
            else Ok [fitTo n summaryData]
        | None => Ok []
        end
  end.

Fixpoint forEachRow (f : option Row -> result (list (list jsval)))
  (rows : list (option Row)) : result (list (list jsval)) :=
  match rows with
  | [] => Ok []
  | r :: rest =>
      match f r with
      | Throw e => Throw e
      | Ok out =>
          match forEachRow f rest with
          | Throw e => Throw e
          | Ok more => Ok (out ++ more)
          end
      end
  end.

(** [formatReportData], lines 129-223. *)
Definition formatReportData (reportData : option Report)
  : result (list (list jsval)) :=
  match reportData with
  | Some (mkReport header columns (Some (Some rows))) =>
      let isBasicReport :=
        match header with
        | Some name =>
            str_is name "Profit and Loss (Basic)"
            || str_is name "Profit and Loss (Direct)"
            || str_is name "P&L Skeleton (API Access Limited)"
        | None => false
        end in
      let headers :=
        if isBasicReport then [JStr "Category"; JStr "Amount"]
        else match columns with
             | Some (Some cols) =>
                 map (fun col => if truthy_str (ColTitle col)
                                 then optStr (ColTitle col)
                                 else optStr (ColType col)) cols
             | _ => [JStr "Category"; JStr "Amount"]
             end in
      match forEachRow (formatReportRow isBasicReport (length headers)) rows with
      | Throw e => Throw e
      | Ok out => Ok (headers :: out)
      end
  | _ => Ok [[JStr "No data found"]]
  end.

(** [processRow] of [formatDataForSheet], lines 842-903, on a row object;
    [n] is [headers.length]. *)
Fixpoint processRowObj (n : nat) (row : Row) : list (list jsval) :=
  match Rows row with
  | Some (Some children) =>
      let sectionRows :=
        match Header row with
        | Some h => [padTo n (map cellOr (default [] h))]
        | None => []
        end in
      let childRows :=
        flat_map (fun c => match c with
                           | None => []
                           | Some r => processRowObj n r
                           end) children in
      sectionRows ++ childRows
  | _ =>
      match ColData row with
      | Some cd => [padTo n (map cellOr cd)]
      | None =>
          match Summary row with
          | Some s => [padTo n (map cellOr (default [] s))]
          | None => []
          end
      end
  end.

(** [processRow], with its guard [if (!row) return []]. *)
Definition processRow (n : nat) (row : option Row) : list (list jsval) :=
  match row with
  | None => []
  | Some r => processRowObj n r
  end.

(** [Array(n).fill('')] with its first element assigned; the assignment
    extends an empty array. *)
Definition emptyRow (n : nat) : list jsval :=
  JStr "No data available for this period" :: replicate (n - 1) (JStr "").

(** [formatDataForSheet], lines 790-945, on a report response.  A value
    with both [Rows] and [Columns] takes the report branch (lines 818-922);
    any other object falls through to the JSON representation, whose text
    [stringify] stands for. *)
Definition formatDataForSheet (stringify : Report -> string)
  (data : option Report) : list (list jsval) :=
  match data with
  | None => [[JStr "No data received"]]
  | Some d =>
      match ReportRows d, Columns d with
      | Some rowsObj, Some colsObj =>
          let headers :=
            match colsObj with
            | Some cols =>
                map (fun col =>
                       if truthy_str (ColTitle col) then optStr (ColTitle col)
                       else if truthy_str (ColType col) then optStr (ColType col)
                       else JStr "Column") cols
            | None => [JStr "Account"; JStr "Amount"]
            end in
          let rows :=
            match rowsObj with
            | Some (r :: rest) => flat_map (processRow (length headers)) (r :: rest)
            | _ => []
            end in
          let rows :=
            match rows with
            | [] => [emptyRow (length headers)]
            | _ => rows
            end in
          headers :: rows
      | _, _ => [[JStr "Data"]; [JStr (stringify d)]]
      end
  end.

(** The column normalisation of [writeToSheet], lines 305-316: every row
    after the first is padded, then cut, to the width of the first. *)
Definition normalizeColumns (data : list (list jsval)) : list (list jsval) :=
  match data with
  | [] => []
  | header :: rows =>
      let columnCount := length header in
      header ::
      map (fun row =>
             let row := padTo columnCount row in
             if (columnCount <? length row)%nat then firstn columnCount row
             else row) rows
  end.






End Utils.

(* ===================================================================== *)
(** ** The QuickBooks service: API calls and report retrieval             *)
(* ===================================================================== *)

Module Qbo.
Import Js Runtime.

(** The report parameters object. *)
Record Params : Type := mkParams {
  start_date : option string;
  end_date : option string;
  accounting_method : option string;
  columns : option string;
  minorversion : option string
}.

Definition optField (k : string) (o : option string) : list (string * jsval) :=
  match o with
  | Some s => [(k, JStr s)]
  | None => []
  end.

Definition paramsToJs (p : Params) : jsval :=
  JObj (optField "accounting_method" (accounting_method p)
        ++ optField "minorversion" (minorversion p)
        ++ optField "start_date" (start_date p)
        ++ optField "end_date" (end_date p)
        ++ optField "columns" (columns p)).

(** The content text of a response, read through [JSON.parse]: the parsed
    value, or the message of the [SyntaxError]. *)
Inductive Content : Type :=
| Json (v : jsval)
| NotJson (syntaxError : string).

Record Response : Type := mkResponse {
  code : Z;
  content : Content
}.

Record Request : Type := mkRequest {
  method : string;
  endpoint : string;
  data : option Params
}.

Inductive FetchOutcome : Type :=
| Responds (r : Response)
| FetchFails (e : JsError).

Inductive RefreshOutcome : Type :=
| Refreshed (ok : bool)
| RefreshFails (e : JsError).

Record LogEntry : Type := mkLog {
  logged_action : string;
  logged_query : string;
  logged_result : string
}.

(** The world outside the script: the OAuth service (token state and the
    outcome of each refresh, in order), the remote API (the outcome of each
    [UrlFetchApp.fetch], in order, given the request), the script property
    [QBO_COMPANY_ID], and what the run leaves behind: the number of
    [makeApiCall] invocations, the [Utilities.sleep] durations and the
    action log, newest first. *)
Record World : Type := mkWorld {
  hasAccess : bool;
  canRefresh : bool;
  refreshScript : nat -> RefreshOutcome;
  refreshCount : nat;
  fetchScript : nat -> Request -> FetchOutcome;
  fetchCount : nat;
  companyId : option string;
  apiCalls : nat;
  slept : list Z;
  actionLog : list LogEntry
}.

(** A computation of the script: it reads and updates the world and
    returns or throws. *)
Definition M (A : Type) : Type := World -> result A * World.

Definition ret {A : Type} (a : A) : M A := fun w => (Ok a, w).

Definition throw {A : Type} (e : JsError) : M A := fun w => (Throw e, w).

Definition bind {A B : Type} (m : M A) (k : A -> M B) : M B :=
  fun w =>
    match m w with
    | (Ok a, w') => k a w'
    | (Throw e, w') => (Throw e, w')
    end.

(** [try { m } catch (e) { handler e }] *)
Definition try_catch {A : Type} (m : M A) (handler : JsError -> M A) : M A :=
  fun w =>
    match m w with
    | (Ok a, w') => (Ok a, w')
    | (Throw e, w') => handler e w'
    end.

(** A pure step that may throw. *)
Definition lift {A : Type} (r : result A) : M A := fun w => (r, w).

Notation "x <- c1 ;; c2" := (bind c1 (fun x => c2))
  (at level 100, c1 at next level, right associativity).
Notation "c1 ;; c2" := (bind c1 (fun _ => c2))
  (at level 100, right associativity).

(** [logAction] of Utils.js, lines 14-39: a row appended to the log sheet.
    It has no result, and what goes wrong on the way to the sheet is caught
    there (lines 31-34). *)
Definition logAction (action query result : string) : M unit :=
  fun w =>
    (Ok tt,
     mkWorld (hasAccess w) (canRefresh w) (refreshScript w) (refreshCount w)
       (fetchScript w) (fetchCount w) (companyId w) (apiCalls w) (slept w)
       (mkLog action query result :: actionLog w)).

(** [service.hasAccess()], [service.canRefresh()], the company id. *)
Definition service_hasAccess : M bool := fun w => (Ok (hasAccess w), w).
Definition service_canRefresh : M bool := fun w => (Ok (canRefresh w), w).
Definition getCompanyId : M (option string) := fun w => (Ok (companyId w), w).

(** [service.refresh()]: a successful refresh leaves a valid token. *)
Definition service_refresh : M bool :=
  fun w =>
    let w' access :=
      mkWorld access (canRefresh w) (refreshScript w) (S (refreshCount w))
        (fetchScript w) (fetchCount w) (companyId w) (apiCalls w) (slept w)
        (actionLog w) in
    match refreshScript w (refreshCount w) with
    | Refreshed true => (Ok true, w' true)
    | Refreshed false => (Ok false, w' (hasAccess w))
    | RefreshFails e => (Throw e, w' (hasAccess w))
    end.

(** [UrlFetchApp.fetch(url, options)] *)
Definition fetch (req : Request) : M Response :=
  fun w =>
    let w' :=
      mkWorld (hasAccess w) (canRefresh w) (refreshScript w) (refreshCount w)
        (fetchScript w) (S (fetchCount w)) (companyId w) (apiCalls w) (slept w)
        (actionLog w) in
    match fetchScript w (fetchCount w) req with
    | Responds r => (Ok r, w')
    | FetchFails e => (Throw e, w')
    end.

(** [Utilities.sleep(ms)] *)
Definition sleep (ms : Z) : M unit :=
  fun w =>
    (Ok tt,
     mkWorld (hasAccess w) (canRefresh w) (refreshScript w) (refreshCount w)
       (fetchScript w) (fetchCount w) (companyId w) (apiCalls w) (ms :: slept w)
       (actionLog w)).

(** Entering [makeApiCall]. *)
Definition enterApiCall : M unit :=
  fun w =>
    (Ok tt,
     mkWorld (hasAccess w) (canRefresh w) (refreshScript w) (refreshCount w)
       (fetchScript w) (fetchCount w) (companyId w) (S (apiCalls w)) (slept w)
       (actionLog w)).

Definition authFailed : JsError :=
  Error "Authentication failed with QuickBooks API. Please reconnect.".

(** Lines 103-121 of [makeApiCall]: access, or one refresh, or an error. *)
Definition ensureAccess : M unit :=
  access <- service_hasAccess ;;
  if negb access then
    logAction "OAuth Status" "No access" "Checking if refresh possible" ;;
    can <- service_canRefresh ;;
    if can then
      logAction "OAuth Refresh" "Attempting token refresh" "Token expired" ;;
      refreshSuccess <- service_refresh ;;
      if negb refreshSuccess then
        logAction "OAuth Refresh" "Failed" "Could not refresh token" ;;
        throw (Error "QuickBooks access token expired and refresh failed. Please reconnect.")
      else logAction "OAuth Refresh" "Success" "Token refreshed successfully"
    else
      logAction "OAuth Status" "No refresh token" "Authentication required" ;;
      throw (Error "No access to QuickBooks API. Please authenticate in settings.")
  else ret tt.

(** Lines 173-200 of [makeApiCall]: the request, and on a 401 response one
    refresh and one retry of the same request. *)
Definition fetchWithRefresh (req : Request) : M Response :=
  response <- fetch req ;;
  let responseCode := code response in
  logAction "API Response" ("Status: " +:+ Z_to_string responseCode) (endpoint req) ;;
  if responseCode =? 401 then
    logAction "API Error" "Unauthorized (401)" "Token may be expired" ;;
    can <- service_canRefresh ;;
    if can then
      logAction "OAuth Refresh" "Attempting after 401"
        "Token refresh triggered by API response" ;;
      refreshed <- service_refresh ;;
      if refreshed then
        logAction "API Retry" (method req +:+ " " +:+ endpoint req)
          "Retrying after token refresh" ;;
        fetch req
      else throw authFailed
    else throw authFailed
  else ret response.

(** [makeApiCall], lines 97-212. *)
Definition makeApiCall (endpoint method : string) (data : option Params)
  : M Response :=
  enterApiCall ;;
  try_catch
    (ensureAccess ;;
     companyId <- getCompanyId ;;
     if negb (truthy_str companyId)
     then throw (Error "Company ID not set. Please configure in settings.")
     else
       logAction "API Call" (method +:+ " " +:+ endpoint) "Initiating request" ;;
       fetchWithRefresh (mkRequest method endpoint data))
    (fun error =>
       if includes (message error) "network"
       then throw (Error "Network connectivity issue when connecting to QuickBooks. Please check your internet connection.")
       else throw error).

(** Reading a property: [null] and [undefined] have none. *)
Definition readProp (h : Host) (v : jsval) (k : string) : result jsval :=
  match v with
  | JUndefined =>
      Throw (TypeError ("Cannot read properties of undefined (reading '" +:+ k +:+ "')"))
  | JNull =>
      Throw (TypeError ("Cannot read properties of null (reading '" +:+ k +:+ "')"))
  | _ => Ok (getProp (inherited h) v k)
  end.

(** [v > 0] *)
Definition gtZero (h : Host) (v : jsval) : bool :=
  match v with
  | JNum z => 0 <? z
  | JUndefined | JNull => false
  | JBool b => b
  | _ => positive h v
  end.

(** [new Error(v)]: the message is the text of [v], empty for [undefined]. *)
Definition ErrorOf (v : jsval) : JsError :=
  match v with
  | JUndefined => Error ""
  | _ => Error (toStr v)
  end.

(** [list.Error && list.Error.length > 0 ? list.Error[0].Message : 'Unknown API error'],
    with the property names given ([Error]/[Message] or [error]/[message]). *)
Definition firstFaultMessage (h : Host) (fault : jsval) (errorKey messageKey : string)
  : result string :=
  let errors := getProp (inherited h) fault errorKey in
  if truthy errors && gtZero h (getProp (inherited h) errors "length") then
    match readProp h (getProp (inherited h) errors "0") messageKey with
    | Ok m => Ok (toStr m)
    | Throw e => Throw e
    end
  else Ok "Unknown API error".

(** [callQuickBooksApi], lines 222-258. *)
Definition callQuickBooksApi (h : Host) (endpoint method : string)
  (data : option Params) : M jsval :=
  response <- makeApiCall endpoint method data ;;
  let responseCode := code response in
  if (200 <=? responseCode) && (responseCode <? 300) then
    match content response with
    | Json v => ret v
    | NotJson msg => throw (mkError "SyntaxError" msg)
    end
  else
    let plain := "QuickBooks API error: " +:+ Z_to_string responseCode in
    let error :=
      match content response with
      | NotJson _ => [("statusCode", JNum responseCode); ("message", JStr plain)]
      | Json errorResponse =>
          match readProp h errorResponse "Fault" with
          | Throw _ => [("statusCode", JNum responseCode); ("message", JStr plain)]
          | Ok fault =>
              if truthy fault then
                match readProp h (getProp (inherited h) fault "Error") "0" with
                | Throw _ =>
                    [("statusCode", JNum responseCode); ("message", JStr plain);
                     ("fault", fault)]
                | Ok first =>
                    match readProp h first "Message" with
                    | Throw _ =>
                        [("statusCode", JNum responseCode); ("message", JStr plain);
                         ("fault", fault)]
                    | Ok m =>
                        [("statusCode", JNum responseCode);
                         ("message", or_else m (JStr plain)); ("fault", fault)]
                    end
                end
              else [("statusCode", JNum responseCode); ("message", JStr plain)]
          end
      end in
    throw (Error (JSON_stringify h (JObj error))).

(** [queryQuickBooks], lines 266-268. *)
Definition queryQuickBooks (h : Host) (query : string) : M jsval :=
  callQuickBooksApi h ("query?query=" +:+ encodeURIComponent h query) "GET" None.

(** The retry loop of [getReport], lines 944-963:
    [while (retries < maxRetries)], with [remaining] iterations left. *)
Definition maxRetries : Z := 3.

Fixpoint callWithRetry (remaining : nat) (retries : Z) (endpoint : string)
  (params : Params) : M (option Response) :=
  match remaining with
  | O => ret None
  | S remaining' =>
      try_catch
        (response <- makeApiCall endpoint "GET" (Some params) ;;
         ret (Some response))
        (fun apiError =>
           let retries := retries + 1 in
           if retries >=? maxRetries then throw apiError
           else
             sleep (1000 * 2 ^ retries) ;;
             callWithRetry remaining' retries endpoint params)
  end.

(** [isAuthenticated], lines 1515-1518. *)
Definition isAuthenticated : M bool := service_hasAccess.

(** [new Date(text) > new Date()] *)
Definition isFuture (h : Host) (text : string) : bool :=
  match parseDate h text with
  | Some t => now h <? t
  | None => false
  end.

Definition cell (v : jsval) : jsval := JObj [("value", v)].

Definition sectionRow (title : string) : jsval :=
  JObj [("type", JStr "Section");
        ("Header", JObj [("ColData", JArr [cell (JStr title)])])].

Definition dataRow (a b : jsval) : jsval :=
  JObj [("type", JStr "Data"); ("ColData", JArr [cell a; cell b])].

Definition column (title type : string) : jsval :=
  JObj [("ColTitle", JStr title); ("ColType", JStr type)].

(** The empty report returned for a date range in the future, lines 1014-1070. *)
Definition futureReport (h : Host) (reportType : string) (params : Params) : jsval :=
  let year := String.substring 0 4 (tpl (start_date params)) in
  JObj [
    ("Header", JObj [
       ("ReportName", JStr reportType);
       ("Time", JStr (JsDate.toISOString (now h)));
       ("StartPeriod", optStr (start_date params));
       ("EndPeriod", optStr (end_date params));
       ("ReportBasis", JStr (or_str (accounting_method params) "Accrual"))]);
    ("Columns", JObj [
       ("Column",
        JArr (if str_is (columns params) "monthly" then
                [column "Account" "Account";
                 column ("Jan " +:+ year) "Money"; column ("Feb " +:+ year) "Money";
                 column ("Mar " +:+ year) "Money"; column ("Apr " +:+ year) "Money";
                 column ("May " +:+ year) "Money"; column ("Jun " +:+ year) "Money";
                 column ("Jul " +:+ year) "Money"; column ("Aug " +:+ year) "Money";
                 column ("Sep " +:+ year) "Money"; column ("Oct " +:+ year) "Money";
                 column ("Nov " +:+ year) "Money"; column ("Dec " +:+ year) "Money";
                 column "Total" "Money"]
              else [column "Account" "Account"; column "Amount" "Amount"]))]);
    ("Rows", JObj [
       ("Row", JArr [
          JObj [("type", JStr "Section");
                ("Header", JObj [("ColData", JArr [cell (JStr "No Data Available")])]);
                ("Rows", JObj [
                   ("Row", JArr [
                      dataRow (JStr ("No data is available for " +:+ reportType
                                     +:+ " in " +:+ year)) (JStr "");
                      dataRow (JStr "This report structure has been created to match your request")
                              (JStr "")])])]])])].

(** Lines 969-1002: the parsed report, or an error about its format; what
    the inner [try] throws is caught and re-thrown under that heading. *)
Definition parseReport (h : Host) (c : Content) : result jsval :=
  let invalid (msg : string) :=
    Throw (Error ("Invalid response format from QuickBooks: " +:+ msg)) in
  match c with
  | NotJson msg => invalid msg
  | Json data =>
      match readProp h data "fault" with
      | Throw e => invalid (message e)
      | Ok fault =>
          if truthy fault then
            match firstFaultMessage h fault "error" "message" with
            | Throw e => invalid (message e)
            | Ok detail => invalid ("QuickBooks API error: " +:+ detail)
            end
          else Ok data
      end
  end.

(** The object [getReport] returns in place of an exception, lines 1099-1105. *)
Definition systemFault (reportType : string) (error : JsError) : jsval :=
  JObj [("type", JStr "SystemFault");
        ("Error", JStr (errToString error));
        ("message",
         JStr ("Failed to retrieve " +:+ reportType +:+ " report from QuickBooks. "
               +:+ "This may be due to API permissions, authentication issues, or QuickBooks service availability."));
        ("resolution",
         JStr "Please try reconnecting to QuickBooks, check your permissions, or try again later.")].

(** Lines 921-941 of [getReport]: the parameters it fills in. *)
Definition withDefaults (h : Host) (reportType : string) (params : Params) : Params :=
  let tz := tzOffsetMinutes h in
  let firstDayOfYear := JsDate.newDate tz (JsDate.getFullYear tz (now h)) 0 1 in
  mkParams
    (if negb (truthy_str (start_date params))
     then Some (JsDate.formatDate_GMT firstDayOfYear) else start_date params)
    (if negb (truthy_str (end_date params))
     then Some (JsDate.formatDate_GMT (now h)) else end_date params)
    (if negb (truthy_str (accounting_method params))
     then Some "Accrual" else accounting_method params)
    (if String.eqb reportType "ProfitAndLoss" && negb (truthy_str (columns params))
     then Some "monthly" else columns params)
    (minorversion params).

(** Lines 965-1092 of [getReport]: what becomes of the response. *)
Definition readResponse (h : Host) (reportType : string) (params : Params)
  (response : option Response) : M jsval :=
  let failed (code : string) : M jsval :=
    throw (Error ("QuickBooks API call failed with status: " +:+ code)) in
  match response with
  | None => failed "No response"
  | Some r =>
      if code r =? 200 then lift (parseReport h (content r))
      else if (code r =? 400)
              && ((truthy_str (start_date params)
                   && isFuture h (tpl (start_date params)))
                  || (truthy_str (end_date params)
                      && isFuture h (tpl (end_date params))))
      then ret (futureReport h reportType params)
      else failed (Z_to_string (code r))
  end.

(** The [try] block of [getReport], lines 910-1092. *)
Definition fetchReport (h : Host) (reportType : string) (params : Params) : M jsval :=
  authenticated <- isAuthenticated ;;
  if negb authenticated
  then throw (Error "Not authenticated with QuickBooks. Please reconnect.")
  else
    let endpoint := "reports/" +:+ reportType in
    let params := withDefaults h reportType params in
    response <- callWithRetry (Z.to_nat maxRetries) 0 endpoint params ;;
    readResponse h reportType params response.

(** [getReport], lines 908-1113. *)
Definition getReport (h : Host) (reportType : string) (params : Params) : M jsval :=
  try_catch (fetchReport h reportType params)
    (fun error => ret (systemFault reportType error)).

(** The rows [forEach] pushes for a list of accounts, lines 1283-1293 and
    1304-1314. *)
Fixpoint accountRows (h : Host) (accounts : list jsval) : result (list jsval) :=
  match accounts with
  | [] => Ok []
  | account :: rest =>
      match readProp h account "Name", readProp h account "CurrentBalance" with
      | Ok name, Ok balance =>
          match accountRows h rest with
          | Ok rows => Ok (dataRow name (or_else balance (JNum 0)) :: rows)
          | Throw e => Throw e
          end
      | Throw e, _ => Throw e
      | _, Throw e => Throw e
      end
  end.

Definition notAFunction (what : string) : JsError :=
  TypeError (what +:+ " is not a function").

Definition accountSection (h : Host) (response : jsval) (what : string)
  : result (list jsval) :=
  match readProp h response "QueryResponse" with
  | Throw e => Throw e
  | Ok qr =>
      if truthy qr && truthy (getProp (inherited h) qr "Account") then
        match getProp (inherited h) qr "Account" with
        | JArr accounts => accountRows h accounts
        | _ => Throw (notAFunction (what +:+ ".QueryResponse.Account.forEach"))
        end
      else Ok []
  end.

Definition twoColumnReport (name : string) (time : list (string * jsval))
  (firstColumn : string) (params : Params) (rows : list jsval) : jsval :=
  JObj [
    ("Header", JObj ([("ReportName", JStr name)] ++ time ++
                     [("StartPeriod", optStr (start_date params));
                      ("EndPeriod", optStr (end_date params))]));
    ("Columns", JObj [("Column", JArr [column firstColumn "Account";
                                       column "Amount" "Amount"])]);
    ("Rows", JObj [("Row", JArr rows)])].

(** [getAlternativeProfitAndLossReport], lines 1244-1321. *)
Definition getAlternativeProfitAndLossReport (h : Host) (params : Params) : M jsval :=
  logAction "P&L Alternative" "Using query approach"
    (JSON_stringify h (paramsToJs params)) ;;
  let time := [("Time", JStr (JsDate.toISOString (now h)))] in
  try_catch
    (incomeAccounts <-
       queryQuickBooks h
         "SELECT * FROM Account WHERE AccountType = 'Income' OR AccountType = 'Revenue'" ;;
     expenseAccounts <-
       queryQuickBooks h "SELECT * FROM Account WHERE AccountType = 'Expense'" ;;
     income <- lift (accountSection h incomeAccounts "incomeAccounts") ;;
     expenses <- lift (accountSection h expenseAccounts "expenseAccounts") ;;
     ret (twoColumnReport "Profit and Loss" time "Account" params
            ([sectionRow "Income"] ++ income ++ [sectionRow "Expenses"] ++ expenses)))
    (fun error =>
       logAction "Alternative P&L Error" "Query approach failed" (message error) ;;
       throw (Error ("Unable to retrieve P&L data using alternative method: "
                     +:+ message error))).

(** The sum a [forEach] over transactions accumulates, e.g. lines 328-332. *)
Fixpoint sumTotalAmt (h : Host) (transactions : list jsval) (total : number h)
  : result (number h) :=
  match transactions with
  | [] => Ok total
  | t :: rest =>
      match readProp h t "TotalAmt" with
      | Throw e => Throw e
      | Ok amount =>
          sumTotalAmt h rest
            (if truthy amount then plus h total (parseFloat h amount) else total)
      end
  end.

(** The total of the transactions of one kind in a query response, if the
    response lists any. *)
Definition transactionTotal (h : Host) (response : jsval) (entityName : string)
  : result (option (number h)) :=
  match readProp h response "QueryResponse" with
  | Throw e => Throw e
  | Ok qr =>
      if truthy qr && truthy (getProp (inherited h) qr entityName) then
        match getProp (inherited h) qr entityName with
        | JArr transactions =>
            match sumTotalAmt h transactions (zero h) with
            | Ok total => Ok (Some total)
            | Throw e => Throw e
            end
        | _ => Throw (notAFunction "forEach")
        end
      else Ok None
  end.

(** The running state of one half of the basic report: the rows pushed so
    far, the total and the success flag. *)
Record Tally (h : Host) : Type := mkTally {
  rows : list jsval;
  total : number h;
  success : bool
}.

Arguments mkTally {h} rows total success.
Arguments rows {h} t.
Arguments total {h} t.
Arguments success {h} t.

(** One of the six query attempts of [getBasicTransactionPLReport]
    (lines 320-350, 354-385, 389-419, 455-485, 489-520, 524-554): they differ
    in the transaction kind, the label of the row and the log entry. *)
Definition tryTransactions (h : Host) (entityName rowLabel logCategory logMessage : string)
  (params : Params) (tally : Tally h) : M (Tally h) :=
  try_catch
    (response <-
       queryQuickBooks h
         ("SELECT TotalAmt FROM " +:+ entityName +:+ " WHERE TxnDate >= '"
          +:+ tpl (start_date params) +:+ "' AND TxnDate <= '"
          +:+ tpl (end_date params) +:+ "' MAXRESULTS 1000") ;;
     found <- lift (transactionTotal h response entityName) ;;
     match found with
     | Some sum =>
         ret (mkTally
                (rows tally ++ [dataRow (JStr rowLabel) (JStr (toFixed2 h sum))])
                (plus h (total tally) sum) true)
     | None => ret tally
     end)
    (fun error => logAction logCategory logMessage (message error) ;; ret tally).

(** A further attempt is made only while none has succeeded. *)
Definition unlessDone {h : Host} (attempt : Tally h -> M (Tally h)) (tally : Tally h)
  : M (Tally h) :=
  if negb (success tally) then attempt tally else ret tally.

(** The closing row of a half: the total, or a note that nothing was found. *)
Definition closeTally {h : Host} (totalLabel noneLabel : string) (tally : Tally h)
  : list jsval :=
  if negb (success tally)
  then rows tally ++ [dataRow (JStr noneLabel) (JStr "0.00")]
  else rows tally ++ [dataRow (JStr totalLabel) (JStr (toFixed2 h (total tally)))].

(** The structure returned when the transaction approach itself fails,
    lines 599-633. *)
Definition minimalReport (params : Params) : jsval :=
  twoColumnReport "Profit and Loss (Minimal)" [] "Category" params
    [sectionRow "Data Unavailable";
     dataRow (JStr "Unable to access transaction data") (JStr "");
     dataRow (JStr "Please check your QuickBooks permissions") (JStr "")].

(** [getBasicTransactionPLReport], lines 277-635. *)
Definition getBasicTransactionPLReport (h : Host) (params : Params) : M jsval :=
  logAction "P&L Minimal Fallback" "Using transactions approach"
    (JSON_stringify h (paramsToJs params)) ;;
  try_catch
    (let time := [("Time", JStr (JsDate.toISOString (now h)))] in
     income <-
       tryTransactions h "Invoice" "Invoice Revenue" "P&L Income" "Invoice query failed"
         params (mkTally [sectionRow "Income"] (zero h) false) ;;
     income <-
       unlessDone (tryTransactions h "SalesReceipt" "Sales Revenue" "P&L Income"
                     "Sales query failed" params) income ;;
     income <-
       unlessDone (tryTransactions h "Deposit" "Deposits" "P&L Income"
                     "Deposit query failed" params) income ;;
     expenses <-
       tryTransactions h "Bill" "Bills" "P&L Expenses" "Bill query failed"
         params (mkTally [sectionRow "Expenses"] (zero h) false) ;;
     expenses <-
       unlessDone (tryTransactions h "Purchase" "Purchases" "P&L Expenses"
                     "Purchase query failed" params) expenses ;;
     expenses <-
       unlessDone (tryTransactions h "Expense" "Expenses" "P&L Expenses"
                     "Expense query failed" params) expenses ;;
     ret (twoColumnReport "Profit and Loss (Basic)" time "Category" params
            (closeTally "Total Income" "No income data available" income
             ++ closeTally "Total Expenses" "No expense data available" expenses
             ++ [sectionRow "Net Income";
                 dataRow (JStr "Net Income")
                   (JStr (toFixed2 h (minus h (total income) (total expenses))))])))
    (fun error =>
       logAction "Basic P&L Error" "Transaction approach failed" (message error) ;;
       ret (minimalReport params)).

(** Lines 1127-1143: a date parameter in [YYYY-MM-DD] form; an invalid date
    makes [toISOString] throw, and the parameter stays as it was. *)
Definition normalizeDate (h : Host) (date : option string) : option string :=
  if truthy_str date then
    match parseDate h (tpl date) with
    | Some t => Some (hd "" (split "T" (JsDate.toISOString t)))
    | None => date
    end
  else date.

Definition normalizeDates (h : Host) (params : Params) : Params :=
  mkParams (normalizeDate h (start_date params)) (normalizeDate h (end_date params))
    (accounting_method params) (columns params) (minorversion params).

(** [typeof v === 'object'] *)
Definition typeofObject (v : jsval) : bool :=
  match v with
  | JNull | JArr _ | JObj _ => true
  | _ => false
  end.

Definition yesNo (v : jsval) : string := if truthy v then "Yes" else "No".

(** Whether the response carries a row collection ([Rows.Row]). *)
Definition rowsPresent (h : Host) (report : jsval) : bool :=
  truthy (getProp (inherited h) report "Rows")
  && truthy (getProp (inherited h) (getProp (inherited h) report "Rows") "Row").

(** The parameters sent to the report endpoint, lines 1145-1157. *)
Definition formattedParams (params : Params) : Params :=
  mkParams
    (if truthy_str (start_date params) then start_date params else None)
    (if truthy_str (end_date params) then end_date params else None)
    (Some "Accrual")
    (if str_is (columns params) "monthly" then Some "monthly" else None)
    (Some "65").

(** Line 1166: the object [getReport] returns for a failure. *)
Definition isSystemFault (h : Host) (reportResponse : jsval) : bool :=
  truthy reportResponse
  && match getProp (inherited h) reportResponse "type" with
     | JStr t => String.eqb t "SystemFault"
     | _ => false
     end.

(** Line 1183: [reportResponse.Fault || reportResponse.fault]. *)
Definition faultOf (h : Host) (reportResponse : jsval) : jsval :=
  or_else (getProp (inherited h) reportResponse "Fault")
          (getProp (inherited h) reportResponse "fault").

(** The text of the structure check, lines 1172-1174. *)
Definition structureCheck (header rows : jsval) : string :=
  "Has Header: " +:+ yesNo header +:+ ", Has Rows: " +:+ yesNo rows.

(** The direct strategy, lines 1145-1195 of [getProfitAndLossReport]: the
    report endpoint, then the checks on what it returned. *)
Definition directReport (h : Host) (params : Params) : M jsval :=
  reportResponse <- getReport h "ProfitAndLoss" (formattedParams params) ;;
  (if isSystemFault h reportResponse then
     let message := getProp (inherited h) reportResponse "message" in
     logAction "P&L Error" "Got SystemFault from getReport" (toStr message) ;;
     throw (ErrorOf message)
   else ret tt) ;;
  header <- lift (readProp h reportResponse "Header") ;;
  rows <- lift (readProp h reportResponse "Rows") ;;
  logAction "P&L Response" "Structure check" (structureCheck header rows) ;;
  if negb (truthy reportResponse) || negb (typeofObject reportResponse)
  then throw (Error "Invalid response format from QuickBooks API")
  else
    if truthy (faultOf h reportResponse) then
      detail <- lift (firstFaultMessage h (faultOf h reportResponse) "Error" "Message") ;;
      throw (Error ("QuickBooks API error: " +:+ detail))
    else if negb (rowsPresent h reportResponse) then
      logAction "P&L Fallback" "Missing expected structure"
        "Falling back to alternative" ;;
      getAlternativeProfitAndLossReport h params
    else ret reportResponse.

Definition authenticationError : JsError :=
  Error "QuickBooks authentication error. Please reconnect to QuickBooks in settings.".

Definition permissionError : JsError :=
  Error "QuickBooks permission error. Your account may not have access to P&L reports.".

Definition allMethodsFailed : JsError :=
  Error ("Failed to retrieve ProfitAndLoss report: All available methods failed. "
         +:+ "Check your QuickBooks permissions and account access.").

(** The two checks of the [catch] block, lines 1201-1205 and 1210-1214. *)
Definition isAuthenticationError (error : JsError) : bool :=
  includes (message error) "authentication"
  || includes (message error) "authorized"
  || includes (message error) "token"
  || includes (message error) "OAuth".

Definition isPermissionError (error : JsError) : bool :=
  includes (message error) "permission"
  || includes (message error) "access"
  || includes (message error) "insufficient"
  || includes (message error) "denied".

(** Lines 1219-1233: the alternative report, then the basic one. *)
Definition fallbackReport (h : Host) (params : Params) (error : JsError) : M jsval :=
  try_catch
    (logAction "P&L Fallback" "Trying alternative approach" (message error) ;;
     getAlternativeProfitAndLossReport h params)
    (fun fallbackError =>
       logAction "P&L Fallback" "Trying basic transaction approach"
         (message fallbackError) ;;
       try_catch (getBasicTransactionPLReport h params)
         (fun basicError =>
            logAction "P&L All Methods Failed" "No available methods worked"
              (message basicError) ;;
            throw allMethodsFailed)).

(** The [catch] block of [getProfitAndLossReport], lines 1196-1234. *)
Definition onDirectFailure (h : Host) (params : Params) (error : JsError) : M jsval :=
  logAction "P&L Error" "API call failed" (errToString error) ;;
  if isAuthenticationError error then throw authenticationError
  else if isPermissionError error then throw permissionError
  else fallbackReport h params error.

(** [getProfitAndLossReport], lines 1121-1235.  The dates are rewritten in
    the caller's object, so the [catch] block sees them too. *)
Definition getProfitAndLossReport (h : Host) (params : Params) : M jsval :=
  let original := params in
  let params := normalizeDates h params in
  try_catch
    (logAction "P&L Request" "Standard API approach"
       (JSON_stringify h (paramsToJs original)) ;;
     directReport h params)
    (onDirectFailure h params).



(** *** Observations on a run *)

(** What a scripted outcome means to the caller of [fetch]. *)
Definition outcome (o : FetchOutcome) : result Response :=
  match o with
  | Responds r => Ok r
  | FetchFails e => Throw e
  end.

Definition is401 (o : FetchOutcome) : bool :=
  match o with
  | Responds r => code r =? 401
  | FetchFails _ => false
  end.

(** The next refresh is possible and succeeds. *)
Definition refreshGranted (w : World) : bool :=
  canRefresh w
  && match refreshScript w (refreshCount w) with
     | Refreshed true => true
     | _ => false
     end.


(** A computation leaves an observation of the world as it was. *)
Definition preserves {X A : Type} (f : World -> X) (m : M A) : Prop :=
  forall w, f (snd (m w)) = f w.

(** A computation raises a counter by at least [lo] and at most [hi]. *)
Definition grows {A : Type} (f : World -> nat) (lo hi : nat) (m : M A) : Prop :=
  forall w, (f w + lo <= f (snd (m w)) <= f w + hi)%nat.

(** What a computation can end in: a value satisfying [P] or an exception
    satisfying [Q]. *)
Definition outcomes {A : Type} (m : M A) (P : A -> Prop) (Q : JsError -> Prop)
  : Prop :=
  forall w, match fst (m w) with
            | Ok a => P a
            | Throw e => Q e
            end.

(** The sleeps before the attempts after the first, newest first:
    1000 * 2^k milliseconds before attempt k + 1. *)
Definition backoff (attempts : nat) : list Z :=
  rev (map (fun k => 1000 * 2 ^ Z.of_nat k) (seq 1 (attempts - 1))).


(** A world in which the token is valid, the company id is set and every
    request is answered by [answer]. *)
Definition serving (answer : Request -> FetchOutcome) : World :=
  mkWorld true true (fun _ => Refreshed true) 0 (fun _ => answer) 0
    (Some "123145") 0 [] [].

(** A host with integer arithmetic and no inherited members. *)
Definition plainHost (now tz : Z) : Host :=
  mkHost now tz (fun _ => None) (fun _ => None) (fun _ _ => JUndefined)
    (fun s => s) toStr Z 0 Z.add Z.sub
    (fun v => match v with JNum z => z | _ => 0 end)
    (fun z => Z_to_string z +:+ ".00") (fun _ => false).

End Qbo.

(* ===================================================================== *)
(** ** The QuickBooks service, continued                                  *)
(* ===================================================================== *)

Module QboMore.
Import Js Runtime Qbo.

(** A computation returns, whatever the world, and raises a counter by at
    least [lo] and at most [hi] on the way. *)
Definition completes {A : Type} (f : World -> nat) (lo hi : nat) (m : M A) : Prop :=
  forall w, (exists a, fst (m w) = Ok a)
            /\ (f w + lo <= f (snd (m w)) <= f w + hi)%nat.

(** *** The URL of a request, lines 130-152 of [makeApiCall] *)

Definition BASE_URL : string := "https://quickbooks.api.intuit.com/v3/company/".

(** A string without the character [c]. *)
Fixpoint lacks (c : ascii) (s : string) : bool :=
  match s with
  | EmptyString => true
  | String a r => negb (Ascii.eqb a c) && lacks c r
  end.

(** [key + '=' + encodeURIComponent(data[key])] *)
Definition queryParam (h : Host) (kv : string * jsval) : string :=
  fst kv +:+ "=" +:+ encodeURIComponent h (toStr (snd kv)).

(** Lines 137-151: the parameters of a GET request go into the query
    string, after the one the URL has already.  Of the pieces between
    question marks the first two are read. *)
Definition addQuery (h : Host) (url : string) (data : list (string * jsval)) : string :=
  let parts := split "?" url in
  let basePath := hd "" parts in
  let existingQuery := nth_error parts 1 in
  let queryParams :=
    (if truthy_str existingQuery then [tpl existingQuery] else [])
    ++ map (queryParam h) data in
  basePath +:+ "?" +:+ join "&" queryParams.

(** Lines 130-152.  [data] lists the properties of the data object in
    enumeration order; [None] is no data. *)
Definition requestUrl (h : Host) (companyId endpoint method : string)
  (data : option (list (string * jsval))) : string :=
  let baseUrl := BASE_URL +:+ companyId +:+ "/" in
  let url := baseUrl +:+ endpoint in
  match data with
  | Some entries => if String.eqb method "GET" then addQuery h url entries else url
  | None => url
  end.

(** *** [getDirectSimplePLReport], lines 644-899 *)










End QboMore.

(* ===================================================================== *)
(** ** The connection diagnostic                                          *)
(* ===================================================================== *)

Module Diagnostics.
Import Js Runtime Qbo.

(** [runQBDiagnostic], lines 1328-1508 of the service. *)

(** The object the diagnostic fills in and returns.  [details] lists the
    properties in the order they are assigned. *)
Record Diagnostic : Type := mkDiagnostic {
  success : jsval;
  message : string;
  details : list (string * jsval);
  detailedErrors : list string
}.

Definition diagnosticResults : Diagnostic := mkDiagnostic (JBool false) "" [] [].

Definition with_message (m : string) (d : Diagnostic) : Diagnostic :=
  mkDiagnostic (success d) m (details d) (detailedErrors d).

Definition with_detail (k : string) (v : jsval) (d : Diagnostic) : Diagnostic :=
  mkDiagnostic (success d) (message d) (details d ++ [(k, v)]) (detailedErrors d).

Definition with_error (e : string) (d : Diagnostic) : Diagnostic :=
  mkDiagnostic (success d) (message d) (details d) (detailedErrors d ++ [e]).

(** [a && b] *)
Definition and_then (a b : jsval) : jsval := if truthy a then b else a.

(** What a failed test leaves in the object, e.g. lines 1367-1373. *)
Definition failedTest (k label : string) (error : JsError) (d : Diagnostic)
  : Diagnostic :=
  with_error (label +:+ errToString error)
    (with_detail k (JObj [("success", JBool false);
                          ("error", JStr (errToString error))]) d).

(** Step 3, lines 1361-1373. *)
Definition companyInfoTest (h : Host) (companyId : string) (d : Diagnostic)
  : M Diagnostic :=
  try_catch
    (companyInfo <- callQuickBooksApi h ("companyinfo/" +:+ companyId) "GET" None ;;
     info <- lift (readProp h companyInfo "CompanyInfo") ;;
     let name :=
       if truthy info then getProp (inherited h) info "CompanyName"
       else JStr "Unknown" in
     ret (with_detail "companyInfo" (JObj [("success", JBool true); ("name", name)]) d))
    (fun companyError =>
       ret (failedTest "companyInfo" "Company info query failed: " companyError d)).

(** Step 4, lines 1376-1390. *)
Definition customerQueryTest (h : Host) (d : Diagnostic) : M Diagnostic :=
  try_catch
    (customerQuery <-
       callQuickBooksApi h "query?query=SELECT * FROM Customer MAXRESULTS 1" "GET" None ;;
     response <- lift (readProp h customerQuery "QueryResponse") ;;
     let customers := getProp (inherited h) response "Customer" in
     let hasData :=
       and_then response
         (and_then customers
            (JBool (gtZero h (getProp (inherited h) customers "length")))) in
     ret (with_detail "customerQuery"
            (JObj [("success", JBool true); ("hasData", hasData)]) d))
    (fun queryError =>
       ret (failedTest "customerQuery" "Customer query failed: " queryError d)).

(** The structure of a report response, lines 1398-1410. *)
Definition hasValidStructure (h : Host) (reportResponse : jsval) : jsval :=
  let rows := getProp (inherited h) reportResponse "Rows" in
  and_then reportResponse
    (and_then (getProp (inherited h) reportResponse "Header")
       (and_then rows (getProp (inherited h) rows "Row"))).

Definition structureOf (h : Host) (reportResponse : jsval) : jsval :=
  let header := and_then reportResponse (getProp (inherited h) reportResponse "Header") in
  let rows := and_then reportResponse (getProp (inherited h) reportResponse "Rows") in
  let row := and_then rows (getProp (inherited h) rows "Row") in
  JObj [("hasHeader", JBool (truthy header));
        ("hasRows", JBool (truthy rows));
        ("rowCount", if truthy row then getProp (inherited h) row "length" else JNum 0)].

(** Steps 5 and 6, lines 1393-1423 and 1426-1455: they differ in the
    endpoint, the property and the texts. *)
Definition reportTest (h : Host) (endpoint k logCategory logQuery label : string)
  (d : Diagnostic) : M Diagnostic :=
  try_catch
    (reportResponse <- callQuickBooksApi h endpoint "GET" None ;;
     let d := with_detail k
                (JObj [("success", hasValidStructure h reportResponse);
                       ("structure", structureOf h reportResponse)]) d in
     logAction logCategory logQuery (JSON_stringify h (structureOf h reportResponse)) ;;
     ret d)
    (fun reportError => ret (failedTest k label reportError d)).

(** [details.k && details.k.success] for a test that has run. *)
Definition testSuccess (d : Diagnostic) (k : string) : jsval :=
  match assoc k (details d) with
  | Some test => and_then test (default JUndefined (assoc "success" (ownEntries test)))
  | None => JUndefined
  end.

Definition testName (d : Diagnostic) : jsval :=
  match assoc "companyInfo" (details d) with
  | Some test => default JUndefined (assoc "name" (ownEntries test))
  | None => JUndefined
  end.

(** Lines 1458-1500: the verdict and the message. *)
Definition conclude (d : Diagnostic) : Diagnostic :=
  let companySuccess := testSuccess d "companyInfo" in
  let querySuccess := testSuccess d "customerQuery" in
  let reportSuccess := testSuccess d "reportTest" in
  let plSuccess := testSuccess d "plTest" in
  let ok := and_then companySuccess querySuccess in
  let text :=
    if truthy ok then
      "QuickBooks connection is working. "
      +:+ (if truthy companySuccess
           then "Connected to company: " +:+ toStr (testName d) +:+ ". " else "")
      +:+ (if truthy reportSuccess then "Report API is accessible. "
           else "WARNING: Report API access failed - this may affect financial reports. ")
      +:+ (if truthy plSuccess then "P&L reports are accessible."
           else "WARNING: P&L reports may not work correctly - check user permissions in QuickBooks.")
    else
      "QuickBooks connection test failed. "
      +:+ (if negb (truthy companySuccess)
           then "Could not access company information. " else "")
      +:+ (if negb (truthy querySuccess) then "Could not query customer data. " else "")
      +:+ (if negb (truthy reportSuccess) then "Could not access report data. " else "")
      +:+ "Please check your QuickBooks connection and permissions." in
  mkDiagnostic ok text (details d) (detailedErrors d).

(** The outer [catch], lines 1503-1507, on the object as it stands. *)
Definition guarded (d : Diagnostic) (m : M Diagnostic) : M Diagnostic :=
  try_catch m
    (fun error =>
       ret (with_error (errToString error)
              (with_message ("Diagnostic test failed: " +:+ Js.message error) d))).

(** [runQBDiagnostic], lines 1328-1508.  The object is updated as the steps
    go; the outer [catch] completes it as it is when a step throws. *)
Definition runQBDiagnostic (h : Host) : M Diagnostic :=
  let d := diagnosticResults in
  guarded d
    (hasAccess <- service_hasAccess ;;
     let d := with_detail "oauth" (JObj [("hasAccess", JBool hasAccess)]) d in
     guarded d
       (if negb hasAccess then
          ret (with_message
                 "QuickBooks OAuth connection failed. Please reconnect by clicking the settings icon and using the Connect button."
                 d)
        else
          companyId <- getCompanyId ;;
          if negb (truthy_str companyId) then
            ret (with_message "Company ID not set. Please configure in settings." d)
          else
            let d := with_detail "companyId" (optStr companyId) d in
            d <- companyInfoTest h (tpl companyId) d ;;
            d <- customerQueryTest h d ;;
            d <- reportTest h "reports/BalanceSheet?minorversion=65" "reportTest"
                   "Report Structure" "Balance Sheet Test" "Report query failed: " d ;;
            d <- reportTest h "reports/ProfitAndLoss?minorversion=65" "plTest"
                   "P&L Structure" "P&L Test" "P&L query failed: " d ;;
            ret (conclude d))).

(** *** Observations on a diagnostic *)

(** How a test ended: with the entry it wrote, or with an exception. *)
Inductive TestOutcome : Type :=
| Passed (entry : jsval)
| Failed (error : JsError).

(** What the test leaves in the object. *)
Definition record (k label : string) (o : TestOutcome) (d : Diagnostic) : Diagnostic :=
  match o with
  | Passed entry => with_detail k entry d
  | Failed error => failedTest k label error d
  end.

(** The entry of a test that went through carries a success value. *)
Definition reportsSuccess (o : TestOutcome) : Prop :=
  match o with
  | Passed entry => exists verdict rest, entry = JObj (("success", verdict) :: rest)
  | Failed _ => True
  end.

(** The same, where success means that the call returned. *)
Definition succeeded (o : TestOutcome) : Prop :=
  match o with
  | Passed entry => exists rest, entry = JObj (("success", JBool true) :: rest)
  | Failed _ => True
  end.


End Diagnostics.

(* ===================================================================== *)
(** ** Settings: credentials and keys in the property stores              *)
(* ===================================================================== *)

Module Settings.
Import Js Runtime.

(** The script properties and the user properties, and the services
    around them.  Every call to a property store, to the OAuth service or to
    the action log may fail: [faults] gives, for each such call in order, the
    exception it raises, if any.  [resetToken] is what [service.reset()] does
    to the user properties. *)
Record Store : Type := mkStore {
  scriptProps : gmap string string;
  userProps : gmap string string;
  faults : nat -> option JsError;
  calls : nat;
  resetToken : gmap string string -> gmap string string;
  actionLog : list (string * string * string)
}.

(** A computation on the stores: it returns or throws. *)
Definition S (A : Type) : Type := Store -> result A * Store.

Definition ret {A : Type} (a : A) : S A := fun s => (Ok a, s).

Definition bind {A B : Type} (m : S A) (k : A -> S B) : S B :=
  fun s =>
    match m s with
    | (Ok a, s') => k a s'
    | (Throw e, s') => (Throw e, s')
    end.

Definition try_catch {A : Type} (m : S A) (handler : JsError -> S A) : S A :=
  fun s =>
    match m s with
    | (Ok a, s') => (Ok a, s')
    | (Throw e, s') => handler e s'
    end.

Notation "x <- c1 ;; c2" := (bind c1 (fun x => c2))
  (at level 100, c1 at next level, right associativity).
Notation "c1 ;; c2" := (bind c1 (fun _ => c2))
  (at level 100, right associativity).

(** A call to one of the services: it fails as [faults] has it, or takes
    effect. *)
Definition hostCall {A : Type} (effect : Store -> A * Store) : S A :=
  fun s =>
    let s1 := mkStore (scriptProps s) (userProps s) (faults s) (Datatypes.S (calls s))
                (resetToken s) (actionLog s) in
    match faults s (calls s) with
    | Some e => (Throw e, s1)
    | None => let (a, s2) := effect s1 in (Ok a, s2)
    end.

Definition onScript (f : gmap string string -> gmap string string) (s : Store) : Store :=
  mkStore (f (scriptProps s)) (userProps s) (faults s) (calls s) (resetToken s)
    (actionLog s).

Definition onUser (f : gmap string string -> gmap string string) (s : Store) : Store :=
  mkStore (scriptProps s) (f (userProps s)) (faults s) (calls s) (resetToken s)
    (actionLog s).

(** [PropertiesService.getScriptProperties()] and [getUserProperties()] *)
Definition getScriptProperties : S unit := hostCall (fun s => (tt, s)).
Definition getUserProperties : S unit := hostCall (fun s => (tt, s)).

(** The methods of the script properties. *)
Definition getProperty (k : string) : S (option string) :=
  hostCall (fun s => (scriptProps s !! k, s)).

Definition setProperty (k v : string) : S unit :=
  hostCall (fun s => (tt, onScript (insert k v) s)).

Definition deleteAllProperties : S unit :=
  hostCall (fun s => (tt, onScript (fun _ => ∅) s)).

(** [userProps.deleteProperty(k)] *)
Definition deleteUserProperty (k : string) : S unit :=
  hostCall (fun s => (tt, onUser (delete k) s)).

(** [getOAuthService()] and [service.reset()] *)
Definition getOAuthService : S unit := hostCall (fun s => (tt, s)).
Definition service_reset : S unit :=
  hostCall (fun s => (tt, onUser (resetToken s) s)).

(** [logAction(action, query, result)] *)
Definition logAction (action query result : string) : S unit :=
  hostCall (fun s =>
    (tt, mkStore (scriptProps s) (userProps s) (faults s) (calls s) (resetToken s)
           ((action, query, result) :: actionLog s))).

(** The object most of these functions return. *)
Record Status : Type := mkStatus {
  success : bool;
  error : option string;
  message : option string
}.

Definition succeeded : Status := mkStatus true None None.
Definition failed (e : string) : Status := mkStatus false (Some e) None.

(** [getOpenAIApiKey], OpenAIService.js lines 19-22. *)
Definition getOpenAIApiKey : S string :=
  getScriptProperties ;;
  key <- getProperty "OPENAI_API_KEY" ;;
  ret (or_str key "").

(** [saveOpenAIApiKey], OpenAIService.js lines 30-41. *)
Definition saveOpenAIApiKey (apiKey : string) : S Status :=
  try_catch
    (getScriptProperties ;;
     setProperty "OPENAI_API_KEY" apiKey ;;
     ret succeeded)
    (fun error => ret (failed (errToString error))).

(** [saveOpenAISettings], Code.js lines 268-291.  The settings object may
    be missing, and so may its [apiKey]. *)
Definition saveOpenAISettings (openaiSettings : option (option string)) : S Status :=
  try_catch
    (match openaiSettings with
     | Some apiKey =>
         if negb (truthy_str apiKey) then ret (failed "API key is required")
         else saveOpenAIApiKey (tpl apiKey)
     | None => ret (failed "API key is required")
     end)
    (fun error => ret (failed (errToString error))).

(** [getOpenAISettings], Code.js lines 298-315: whether a key is there,
    and the error, if any. *)
Definition getOpenAISettings : S (bool * option string) :=
  try_catch
    (apiKey <- getOpenAIApiKey ;;
     ret (negb (String.eqb apiKey ""), None))
    (fun error => ret (false, Some (errToString error))).

(** The credentials object of the settings dialog. *)
Record Credentials : Type := mkCredentials {
  clientId : string;
  clientSecret : string;
  companyId : string
}.

(** [saveCredentials], lines 55-73 of the service. *)
Definition saveCredentials (credentials : Credentials) : S Status :=
  try_catch
    (getScriptProperties ;;
     setProperty "QBO_CLIENT_ID" (clientId credentials) ;;
     setProperty "QBO_CLIENT_SECRET" (clientSecret credentials) ;;
     (if negb (String.eqb (companyId credentials) "")
      then setProperty "QBO_COMPANY_ID" (companyId credentials)
      else ret tt) ;;
     ret succeeded)
    (fun error => ret (failed (errToString error))).

(** [getCredentials], lines 80-87 of the service. *)
Definition getCredentials : S Credentials :=
  getScriptProperties ;;
  id <- getProperty "QBO_CLIENT_ID" ;;
  secret <- getProperty "QBO_CLIENT_SECRET" ;;
  company <- getProperty "QBO_COMPANY_ID" ;;
  ret (mkCredentials (or_str id "") (or_str secret "") (or_str company "")).

(** [if (v) scriptProps.setProperty(k, v)] *)
Definition restore (k : string) (v : option string) : S unit :=
  if truthy_str v then setProperty k (tpl v) else ret tt.

(** [resetAllAuth], Code.js lines 157-202. *)
Definition resetAllAuth : S Status :=
  try_catch
    (getUserProperties ;;
     getScriptProperties ;;
     deleteUserProperty "oauth2.quickbooks" ;;
     deleteUserProperty "oauth2.quickbooks.refresh" ;;
     deleteUserProperty "oauth2.quickbooks.id_token" ;;
     deleteUserProperty "oauth2.quickbooks.last_code" ;;
     deleteUserProperty "oauth2.quickbooks.access_token" ;;
     deleteUserProperty "oauth2.quickbooks.expires_in" ;;
     deleteUserProperty "oauth2.quickbooks.issued_at" ;;
     getOAuthService ;;
     service_reset ;;
     clientId <- getProperty "QBO_CLIENT_ID" ;;
     clientSecret <- getProperty "QBO_CLIENT_SECRET" ;;
     companyId <- getProperty "QBO_COMPANY_ID" ;;
     deleteAllProperties ;;
     restore "QBO_CLIENT_ID" clientId ;;
     restore "QBO_CLIENT_SECRET" clientSecret ;;
     restore "QBO_COMPANY_ID" companyId ;;
     logAction "Auth Reset" "Complete OAuth reset" "All tokens cleared" ;;
     ret (mkStatus true None
            (Some "Authorization completely reset. Please reconnect to QuickBooks by clicking the Connect button in settings.")))
    (fun error => ret (failed (errToString error))).

(** [logoutQuickBooks], Code.js lines 97-115. *)
Definition logoutQuickBooks : S Status :=
  try_catch
    (getOAuthService ;;
     service_reset ;;
     getUserProperties ;;
     deleteUserProperty "oauth2.quickbooks" ;;
     ret (mkStatus true None
            (Some "Successfully disconnected from QuickBooks. Please reconnect to grant the necessary permissions.")))
    (fun error => ret (failed (errToString error))).

(** *** Observations *)

(** What [getCredentials] reads from script properties [m]. *)
Definition credentialsOf (m : gmap string string) : Credentials :=
  mkCredentials (or_str (m !! "QBO_CLIENT_ID") "")
    (or_str (m !! "QBO_CLIENT_SECRET") "")
    (or_str (m !! "QBO_COMPANY_ID") "").

(** The three properties a reset keeps. *)
Definition kept (k : string) : bool :=
  String.eqb k "QBO_CLIENT_ID" || String.eqb k "QBO_CLIENT_SECRET"
  || String.eqb k "QBO_COMPANY_ID".

(** A property that is set and not empty. *)
Definition nonEmpty (v : option string) : option string :=
  if truthy_str v then v else None.

(** A store on which no call fails. *)
Definition reliable (s : Store) : Prop := forall n, faults s n = None.

End Settings.

(* ===================================================================== *)
(** ** Utils.js: values for a range                                       *)
(* ===================================================================== *)

Module SheetData.
Import Js Runtime.

(** [Object.keys(v)]: there are none to ask of [null] and [undefined]. *)
Definition objectKeys (v : jsval) : result (list string) :=
  match v with
  | JUndefined | JNull => Throw (TypeError "Cannot convert undefined or null to object")
  | _ => Ok (map fst (ownEntries v))
  end.

(** [item[header]] *)
Definition itemProp (h : Host) (item : jsval) (header : string) : result jsval :=
  match item with
  | JUndefined =>
      Throw (TypeError ("Cannot read properties of undefined (reading '"
                        +:+ header +:+ "')"))
  | JNull =>
      Throw (TypeError ("Cannot read properties of null (reading '"
                        +:+ header +:+ "')"))
  | _ => Ok (getProp (inherited h) item header)
  end.

(** [xs.map(f)] for an [f] that may throw. *)
Fixpoint mapM {A B : Type} (f : A -> result B) (xs : list A) : result (list B) :=
  match xs with
  | [] => Ok []
  | x :: rest =>
      match f x with
      | Throw e => Throw e
      | Ok y =>
          match mapM f rest with
          | Throw e => Throw e
          | Ok ys => Ok (y :: ys)
          end
      end
  end.

(** [headers.map(header => item[header] || '')], line 714. *)
Definition itemRow (h : Host) (headers : list string) (item : jsval) : result jsval :=
  match mapM (fun header =>
                match itemProp h item header with
                | Ok v => Ok (or_else v (JStr ""))
                | Throw e => Throw e
                end) headers with
  | Ok cells => Ok (JArr cells)
  | Throw e => Throw e
  end.

(** [typeof v === 'object'] *)
Definition typeofObject (v : jsval) : bool :=
  match v with
  | JNull | JArr _ | JObj _ => true
  | _ => false
  end.

Definition noData : list jsval := [JArr [JStr "No data"]].

(** [objectToSheetData], lines 705-729: the rows of the table. *)
Definition objectToSheetData (h : Host) (data : jsval) : result (list jsval) :=
  if negb (truthy data) then Ok noData
  else
    match data with
    | JArr [] => Ok noData
    | JArr (first :: rest) =>
        if typeofObject first && negb (isArray first) then
          match objectKeys first with
          | Throw e => Throw e
          | Ok headers =>
              match mapM (itemRow h headers) (first :: rest) with
              | Throw e => Throw e
              | Ok rows => Ok (JArr (map JStr headers) :: rows)
              end
          end
        else if isArray first then Ok (first :: rest)
        else Ok [data]
    | JObj fields =>
        let headers := map fst fields in
        Ok [JArr (map JStr headers);
            JArr (map (fun key => getProp (inherited h) data key) headers)]
    | _ => Ok [JArr [JStr (JSON_stringify h data)]]
    end.

(** The values [updateSheetRange] writes, lines 527-542. *)
Definition sheetValues (h : Host) (data : jsval) : result (list jsval) :=
  match data with
  | JArr elems =>
      match elems with
      | JArr _ :: _ => Ok elems
      | _ => Ok [data]
      end
  | _ =>
      if typeofObject data then objectToSheetData h data
      else Ok [JArr [data]]
  end.

(** [values[0].length], line 546. *)
Definition numCols (h : Host) (values : list jsval) : result jsval :=
  match values with
  | first :: _ => itemProp h first "length"
  | [] => Throw (TypeError "Cannot read properties of undefined (reading 'length')")
  end.

(** A row of [n] cells. *)
Definition rowOfWidth (n : nat) (row : jsval) : Prop :=
  exists cells, row = JArr cells /\ length cells = n.

End SheetData.

(* ===================================================================== *)
(** ** Utils.js: observations on the report formatters                    *)
(* ===================================================================== *)

Module ReportShape.
Import Js Utils.

(** A row without the rows below it. *)
Definition prune (r : Row) : Row :=
  mkRow (type r) (Header r) None (ColData r) (Summary r).

(** A report with its top-level rows pruned. *)
Definition pruned (report : Report) : Report :=
  mkReport (ReportName report) (Columns report)
    (match ReportRows report with
     | Some (Some rows) => Some (Some (map (option_map prune) rows))
     | other => other
     end).

End ReportShape.

(* ===================================================================== *)
(** ** Utils.js: getting a sheet and writing a table to it                *)
(* ===================================================================== *)

Module Sheets.
Import Js Runtime Utils.

(** A sheet, as the spreadsheet hands it out. *)
Definition Sheet : Type := nat.

(** A range of a sheet: [sheet.getRange(row, column, numRows, numColumns)]
    or [sheet.getRange(a1Notation)]. *)
Inductive Range : Type :=
| Block (sheet : Sheet) (row column numRows numColumns : jsval)
| Named (sheet : Sheet) (a1Notation : string).

(** The calls these functions make on the spreadsheet service and on
    [Utilities]. *)
Inductive Call : Type :=
| GetActiveSpreadsheet
| GetSheetByName (name : string)
| GetActiveSheet
| InsertSheet (name : option string)
| SetName (sheet : Sheet) (name : string)
| GetName (sheet : Sheet)
| Clear (sheet : Sheet)
| GetRange (range : Range)
| GetRow (range : Range)
| GetColumn (range : Range)
| GetA1Notation (range : Range)
| SetValues (range : Range) (values : list jsval)
| AutoResizeColumns (sheet : Sheet) (startColumn numColumns : Z)
| GetLastRow (sheet : Sheet)
| Sleep (ms : Z).

(** What the service answers to one call: an exception, or the value the
    call returns, read from the field that belongs to it.
    [getActiveSpreadsheet] gives a spreadsheet or [null]; [getSheetByName]
    and [getActiveSheet] give a sheet or [null]. *)
Record Reply : Type := mkReply {
  failure : option JsError;
  spreadsheet : bool;
  found : option Sheet;
  created : Sheet;
  named : string;
  lastRow : Z;
  row : Z;
  column : Z;
  a1 : string
}.

(** The service: its answer to the n-th call, whatever the call, and the
    calls made so far, oldest first. *)
Record Book : Type := mkBook {
  replies : nat -> Reply;
  asked : list Call
}.

(** A computation on the spreadsheet: it returns or throws. *)
Definition H (A : Type) : Type := Book -> result A * Book.

Definition ret {A : Type} (a : A) : H A := fun b => (Ok a, b).

Definition throw {A : Type} (e : JsError) : H A := fun b => (Throw e, b).

Definition bind {A B : Type} (m : H A) (k : A -> H B) : H B :=
  fun b =>
    match m b with
    | (Ok a, b') => k a b'
    | (Throw e, b') => (Throw e, b')
    end.

Definition try_catch {A : Type} (m : H A) (handler : JsError -> H A) : H A :=
  fun b =>
    match m b with
    | (Ok a, b') => (Ok a, b')
    | (Throw e, b') => handler e b'
    end.

(** The outcome of [m], for a [try] whose two ways out go on differently. *)
Definition attempt {A : Type} (m : H A) : H (result A) :=
  fun b => let (r, b') := m b in (Ok r, b').

Notation "x <- c1 ;; c2" := (bind c1 (fun x => c2))
  (at level 100, c1 at next level, right associativity).
Notation "c1 ;; c2" := (bind c1 (fun _ => c2))
  (at level 100, right associativity).

Definition lift {A : Type} (r : result A) : H A := fun b => (r, b).

(** One call: it is recorded, and fails or returns as the service has it. *)
Definition hostCall {A : Type} (c : Call) (read : Reply -> A) : H A :=
  fun b =>
    let reply := replies b (length (asked b)) in
    let b' := mkBook (replies b) (asked b ++ [c]) in
    match failure reply with
    | Some e => (Throw e, b')
    | None => (Ok (read reply), b')
    end.

Definition done (r : Reply) : unit := tt.

(** [getOrCreateSheet(sheetName, createIfMissing)], lines 48-102. *)
Definition getOrCreateSheet (sheetName : string) (createIfMissing : bool) : H Sheet :=
  try_catch
    (ss <- hostCall GetActiveSpreadsheet spreadsheet ;;
     if negb ss then throw (Error "Could not access active spreadsheet")
     else
       sheet <- hostCall (GetSheetByName sheetName) found ;;
       match sheet with
       | Some s => ret s
       | None =>
           if createIfMissing then
             (try_catch
                (hostCall (InsertSheet (Some sheetName)) done)
                (fun insertError =>
                   try_catch
                     (s <- hostCall (InsertSheet None) created ;;
                      hostCall (SetName s sheetName) done)
                     (fun fallbackError =>
                        throw (Error ("Failed to create sheet using both methods: "
                                      +:+ Js.message fallbackError)))) ;;
              verifySheet <- hostCall (GetSheetByName sheetName) found ;;
              match verifySheet with
              | None =>
                  throw (Error
                    "Sheet creation failed - sheet does not exist after creation attempt")
              | Some v => ret v
              end)
           else throw (Error ("Sheet " +:+ dquote +:+ sheetName +:+ dquote
                              +:+ " not found"))
       end)
    (fun error =>
       throw (Error ("Failed to get or create sheet " +:+ dquote +:+ sheetName
                     +:+ dquote +:+ ": " +:+ Js.message error))).

(** What [writeToSheet] returns. *)
Record Written : Type := mkWritten {
  success : bool;
  message : string;
  rowCount : option Z;
  columnCount : option Z
}.

Definition failed (msg : string) : Written := mkWritten false msg None None.

(** Lines 333-338: the name of the sheet is read, and read again for the
    warning, before the sheet is renamed. *)
Definition checkName (sheetName : string) (sheet : Sheet) : H unit :=
  name <- hostCall (GetName sheet) named ;;
  if negb (String.eqb name sheetName) then
    (hostCall (GetName sheet) named ;;
     hostCall (SetName sheet sheetName) done)
  else ret tt.

(** How the loop of lines 323-356 is left: with the value of [sheet], or by
    the [return] of line 347. *)
Inductive LoopEnd : Type :=
| Carry (sheet : option Sheet)
| Return (r : Written).

Definition maxCreationAttempts : nat := 3.

(** The loop of lines 323-356, entered with [sheet] null; [remaining] is
    [maxCreationAttempts - creationAttempts], taken again after the
    increment of line 343.  An exception counts as an attempt; the loop goes
    round again only while [sheet] is null, and [sheet] is assigned before
    its name is checked. *)
Fixpoint getSheetLoop (remaining : nat) (sheetName : string) : H LoopEnd :=
  match remaining with
  | O => ret (Carry None)
  | S remaining =>
      let giveUp (sheetError : JsError) : Written :=
        failed ("Failed to create sheet " +:+ dquote +:+ sheetName +:+ dquote
                +:+ " after 3 attempts: " +:+ Js.message sheetError) in
      got <- attempt (getOrCreateSheet sheetName true) ;;
      match got with
      | Throw sheetError =>
          match remaining with
          | O => ret (Return (giveUp sheetError))
          | S _ => hostCall (Sleep 500) done ;; getSheetLoop remaining sheetName
          end
      | Ok sheet =>
          checked <- attempt (checkName sheetName sheet) ;;
          match checked with
          | Throw sheetError =>
              match remaining with
              | O => ret (Return (giveUp sheetError))
              | S _ => hostCall (Sleep 500) done ;; ret (Carry (Some sheet))
              end
          | Ok _ => ret (Carry (Some sheet))
          end
      end
  end.

(** Lines 367-435, with the sheet the loop has left and the table
    [data], whose first row is [header]. *)
Definition writeRows (sheetName : string) (header : list jsval)
  (data : list (list jsval)) (clearFirst : bool) (sheet : Sheet) : H Written :=
  let numRows := Z.of_nat (length data) in
  let numCols := Z.of_nat (length header) in
  ss <- hostCall GetActiveSpreadsheet spreadsheet ;;
  (if ss then ret tt
   else throw (TypeError "Cannot read properties of null (reading 'getSheetByName')")) ;;
  existing <- hostCall (GetSheetByName sheetName) found ;;
  final <- match existing with
           | Some _ => ret (Ok sheet)
           | None => attempt (hostCall (InsertSheet (Some sheetName)) created)
           end ;;
  match final with
  | Throw finalError =>
      ret (failed ("Sheet " +:+ dquote +:+ sheetName +:+ dquote +:+
                   " couldn't be created in the spreadsheet after multiple attempts. Try a different name."))
  | Ok sheet =>
      (if clearFirst
       then try_catch (hostCall (Clear sheet) done) (fun clearError => ret tt)
       else ret tt) ;;
      try_catch
        (let range := Block sheet (JNum 1) (JNum 1) (JNum numRows) (JNum numCols) in
         hostCall (GetRange range) done ;;
         hostCall (SetValues range (map JArr data)) done ;;
         try_catch (hostCall (AutoResizeColumns sheet 1 numCols) done)
           (fun resizeError => ret tt) ;;
         hostCall (GetLastRow sheet) lastRow ;;
         ret (mkWritten true
                ("Data written to sheet " +:+ dquote +:+ sheetName +:+ dquote)
                (Some numRows) (Some numCols)))
        (fun writeError =>
           ret (failed ("Failed to write data to sheet " +:+ dquote +:+ sheetName
                        +:+ dquote +:+ ": " +:+ Js.message writeError)))
  end.

(** [writeToSheet(sheetName, data, clearFirst)], lines 294-443, for [data]
    null or a two-dimensional array. *)
Definition writeToSheet (sheetName : string) (data : option (list (list jsval)))
  (clearFirst : bool) : H Written :=
  try_catch
    (match data with
     | None | Some [] => ret (failed "No data to write")
     | Some (header :: rows) =>
         let data := normalizeColumns (header :: rows) in
         left <- getSheetLoop maxCreationAttempts sheetName ;;
         match left with
         | Return r => ret r
         | Carry None =>
             ret (failed ("Failed to create or get sheet " +:+ dquote +:+ sheetName
                          +:+ dquote +:+
                          " - sheet object is null after multiple attempts"))
         | Carry (Some sheet) => writeRows sheetName header data clearFirst sheet
         end
     end)
    (fun error => ret (failed ("Unexpected error: " +:+ Js.message error))).

(** The kinds of call. *)
Definition isSleep (c : Call) : bool :=
  match c with Sleep _ => true | _ => false end.
Definition isClear (c : Call) : bool :=
  match c with Clear _ => true | _ => false end.
Definition isSetValues (c : Call) : bool :=
  match c with SetValues _ _ => true | _ => false end.

(** The calls made while a sheet is looked up, inserted or named. *)
Definition isStructural (c : Call) : bool :=
  match c with
  | GetActiveSpreadsheet | GetSheetByName _ | InsertSheet _ | SetName _ _
  | GetName _ => true
  | _ => false
  end.

(** The calls of the loop that gets the sheet: those, and pauses of half a
    second. *)
Definition settles (c : Call) : Prop := isStructural c = true \/ c = Sleep 500.

(** [m] returns or throws as [P] has it, having made the calls [P] allows
    and no change to the answers of the service. *)
Definition makes {A : Type} (m : H A) (P : result A -> list Call -> Prop) : Prop :=
  forall b, exists new,
    snd (m b) = mkBook (replies b) (asked b ++ new) /\ P (fst (m b)) new.

(** The calls of [getOrCreateSheet]: at most six, on the structure of the
    spreadsheet; what it throws carries its own message. *)
Definition lookedUp (sheetName : string) (r : result Sheet) (new : list Call) : Prop :=
  Forall (fun c => isStructural c = true) new
  /\ (length new <= 6)%nat
  /\ match r with
     | Ok _ => True
     | Throw e =>
         exists msg, e = Error ("Failed to get or create sheet " +:+ dquote +:+
                                sheetName +:+ dquote +:+ ": " +:+ msg)
     end.

(** At most [k] pauses among the calls, of half a second each. *)
Definition pauses (k : nat) (new : list Call) : Prop :=
  exists j, (j <= k)%nat /\ List.filter isSleep new = repeat (Sleep 500) j.

(** The four calls that write a table. *)
Definition writing (sheet : Sheet) (numRows numCols : Z) (data : list (list jsval))
  : list Call :=
  let range := Block sheet (JNum 1) (JNum 1) (JNum numRows) (JNum numCols) in
  [GetRange range;
   SetValues range (map JArr data);
   AutoResizeColumns sheet 1 numCols;
   GetLastRow sheet].

End Sheets.

(* ===================================================================== *)
(** ** Utils.js: writing values to a range                                *)
(* ===================================================================== *)

Module Ranges.
Import Js Runtime Sheets.

(** What [updateSheetRange] returns. *)
Record Updated : Type := mkUpdated {
  success : bool;
  message : string;
  updatedRange : option string
}.

Definition notUpdated (msg : string) : Updated := mkUpdated false msg None.

Definition isUpper (c : ascii) : bool :=
  (65 <=? nat_of_ascii c)%nat && (nat_of_ascii c <=? 90)%nat.

Definition isDigit (c : ascii) : bool :=
  (48 <=? nat_of_ascii c)%nat && (nat_of_ascii c <=? 57)%nat.

Fixpoint allDigits (s : string) : bool :=
  match s with
  | EmptyString => true
  | String c rest => isDigit c && allDigits rest
  end.

(** After one capital letter: more of them, then digits to the end. *)
Fixpoint lettersThenDigits (s : string) : bool :=
  match s with
  | EmptyString => false
  | String c rest =>
      if isUpper c then lettersThenDigits rest
      else isDigit c && allDigits rest
  end.

(** The test of line 550 for a single cell: capital letters, then digits. *)
Definition isCellRef (range : string) : bool :=
  match range with
  | EmptyString => false
  | String c rest => isUpper c && lettersThenDigits rest
  end.

(** [sheetName] inside a template literal. *)
Definition nameOrNull (sheetName : option string) : string :=
  match sheetName with
  | Some s => s
  | None => "null"
  end.

(** [updateSheetRange(range, data, sheetName)], lines 518-576.  [sheetName]
    is [None] for null and for an argument left out. *)
Definition updateSheetRange (h : Host) (range : string) (data : jsval)
  (sheetName : option string) : H Updated :=
  try_catch
    (ss <- hostCall GetActiveSpreadsheet spreadsheet ;;
     sheet <- (if truthy_str sheetName then
                 if ss then hostCall (GetSheetByName (nameOrNull sheetName)) found
                 else throw (TypeError
                        "Cannot read properties of null (reading 'getSheetByName')")
               else
                 if ss then hostCall GetActiveSheet found
                 else throw (TypeError
                        "Cannot read properties of null (reading 'getActiveSheet')")) ;;
     match sheet with
     | None =>
         throw (Error ("Sheet " +:+ dquote +:+ nameOrNull sheetName +:+ dquote
                       +:+ " not found."))
     | Some sheet =>
         values <- lift (SheetData.sheetValues h data) ;;
         let numRows := JNum (Z.of_nat (length values)) in
         numCols <- lift (SheetData.numCols h values) ;;
         targetRange <-
           (if isCellRef range then
              (hostCall (GetRange (Named sheet range)) done ;;
               startRow <- hostCall (GetRow (Named sheet range)) row ;;
               startCol <- hostCall (GetColumn (Named sheet range)) column ;;
               let target :=
                 Block sheet (JNum startRow) (JNum startCol) numRows numCols in
               hostCall (GetRange target) done ;;
               ret target)
            else
              (hostCall (GetRange (Named sheet range)) done ;;
               ret (Named sheet range))) ;;
         hostCall (SetValues targetRange values) done ;;
         name <- hostCall (GetName sheet) named ;;
         notation <- hostCall (GetA1Notation targetRange) a1 ;;
         ret (mkUpdated true
                ("Updated range " +:+ range +:+ " in sheet " +:+ dquote +:+ name
                 +:+ dquote +:+ ".")
                (Some notation))
     end)
    (fun error => ret (notUpdated ("Failed to update range: " +:+ Js.message error))).

(** The characters at the head of [s] that are not [stop], and the rest. *)
Fixpoint span (stop : ascii) (s : string) : string * string :=
  match s with
  | EmptyString => (EmptyString, EmptyString)
  | String c rest =>
      if Ascii.eqb c stop then (EmptyString, s)
      else let (run, after) := span stop rest in (String c run, after)
  end.

(** The line terminators among the characters of a string of this model,
    which are code units below 256. *)
Definition isLineTerminator (c : ascii) : bool :=
  (nat_of_ascii c =? 10)%nat || (nat_of_ascii c =? 13)%nat.

Fixpoint noLineTerminator (s : string) : bool :=
  match s with
  | EmptyString => true
  | String c rest => negb (isLineTerminator c) && noLineTerminator rest
  end.

(** [.+$]: one character or more, to the end, none a line terminator. *)
Definition restOfLine (s : string) : bool :=
  negb (String.eqb s "") && noLineTerminator s.

Definition apostrophe : ascii := ascii_of_nat 39.
Definition bang : ascii := ascii_of_nat 33.

(** The pattern of line 677 on [rangeA1]: its first or second group, and
    its third.  The first alternative is a name between apostrophes, the
    second a run of characters up to the first exclamation mark; either is
    followed by the exclamation mark and the rest of the line. *)
Definition matchRange (rangeA1 : string) : option (string * string) :=
  let after (name rest : string) : option (string * string) :=
    if negb (String.eqb name "") && restOfLine rest then Some (name, rest)
    else None in
  let inApostrophes :=
    match rangeA1 with
    | String c inner =>
        if Ascii.eqb c apostrophe then
          let (name, tail) := span apostrophe inner in
          match tail with
          | String _ (String c' rest) =>
              if Ascii.eqb c' bang then after name rest else None
          | _ => None
          end
        else None
    | EmptyString => None
    end in
  match inApostrophes with
  | Some groups => Some groups
  | None =>
      let (name, tail) := span bang rangeA1 in
      match tail with
      | String _ rest => after name rest
      | EmptyString => None
      end
  end.

(** No character of [s] is [c]. *)
Fixpoint lacksChar (c : ascii) (s : string) : bool :=
  match s with
  | EmptyString => true
  | String c' rest => negb (Ascii.eqb c' c) && lacksChar c rest
  end.

(** [name!cells] and ['name'!cells]. *)
Definition qualified (name cells : string) : string :=
  name +:+ String bang cells.
Definition quoted (name cells : string) : string :=
  String apostrophe (name +:+ String apostrophe (String bang cells)).

(** [writeDataToRange(rangeA1, data)], lines 674-697. *)
Definition writeDataToRange (h : Host) (rangeA1 : string) (data : jsval) : H Updated :=
  try_catch
    (match matchRange rangeA1 with
     | Some (sheetName, range) => updateSheetRange h range data (Some sheetName)
     | None => updateSheetRange h rangeA1 data None
     end)
    (fun error =>
       ret (notUpdated ("Failed to write data to range: " +:+ Js.message error))).

End Ranges.

(* ===================================================================== *)
(** ** Concrete hosts, worlds and inputs used in the examples             *)
(* ===================================================================== *)

Module Scenarios.
Import Js Runtime.

(** 2024-03-15 12:00 GMT. *)
Definition midMarch2024 : Z := JsDate.days_from_civil 2024 3 15 * 86400000 + 43200000.

Definition hostAt (now tz : Z) : Host := Qbo.plainHost now tz.

(** A script in Tokyo (GMT+9) and one in New York (GMT-5, winter). *)
Definition tokyo : Host := hostAt midMarch2024 540.
Definition newYork : Host := hostAt midMarch2024 (-300).

(** A report request without dates. *)
Definition bareReportIntent : OpenAI.Intent :=
  OpenAI.mkIntent (Some "fetch") (Some "report") (Some "ProfitAndLoss") None None
    None None None None None None None.

(** A report request with a start date only. *)
Definition fromJanuaryIntent : OpenAI.Intent :=
  OpenAI.mkIntent (Some "fetch") (Some "report") (Some "ProfitAndLoss")
    (Some {[ "startDate" := JStr "2024-01-01" ]}) None None None None None None
    None None.

(** An intent that only names a destination. *)
Definition destinationOnlyIntent : OpenAI.Intent :=
  OpenAI.mkIntent None None None None None None None None None None
    (Some "Sheet1!A1") None.

(** A report with two columns and a data row of three cells. *)
Definition wideReport : Utils.Report :=
  Utils.mkReport (Some (Some "ProfitAndLoss"))
    (Some (Some [Utils.mkColumn (Some "Account") None;
                 Utils.mkColumn None (Some "Money")]))
    (Some (Some [Some (Utils.mkRow (Some "Section")
                         (Some (Some [Utils.mkCell (JStr "Income")]))
                         (Some (Some [Some (Utils.mkRow (Some "Data") None None
                                              (Some [Utils.mkCell (JStr "Sales");
                                                     Utils.mkCell (JStr "10.00");
                                                     Utils.mkCell (JStr "extra")])
                                              None)]))
                         None None)])).

(** Two customers: the first has a nested address and a list of lines, the
    second has neither. *)
Definition customers : jsval :=
  JObj [("QueryResponse",
         JObj [("Customer",
                JArr [JObj [("Id", JStr "1");
                            ("BillAddr", JObj [("City", JStr "Paris")]);
                            ("Line", JArr [JNum 1; JNum 2])];
                      JObj [("Id", JStr "2")]]);
               ("maxResults", JNum 2)])].

(** A query response listing [entities] under [key]. *)
Definition queryResponse (key : string) (entities : list jsval) : jsval :=
  JObj [("QueryResponse", JObj [(key, JArr entities)])].


Definition reportParams : Qbo.Params :=
  Qbo.mkParams (Some "2024-01-01") (Some "2024-03-31") None None None.

Definition noon : Host := hostAt midMarch2024 0.

(** The API answers every request with an empty JSON object. *)
Definition healthy : Qbo.World :=
  Qbo.serving (fun _ => Qbo.Responds (Qbo.mkResponse 200 (Qbo.Json (JObj [])))).

(** The API refuses every request: 403, with a body that is not JSON. *)
Definition forbidden : Qbo.World :=
  Qbo.serving (fun _ => Qbo.Responds (Qbo.mkResponse 403 (Qbo.NotJson "Unexpected end of JSON input"))).





(** No token and no way to refresh. *)
Definition signedOut : Qbo.World :=
  Qbo.mkWorld false false (fun _ => Qbo.Refreshed false) 0
    (fun _ _ => Qbo.Responds (Qbo.mkResponse 200 (Qbo.Json (JObj [])))) 0
    (Some "123145") 0 [] [].


End Scenarios.

(* ===================================================================== *)
(** ** Further hosts, worlds and inputs                                   *)
(* ===================================================================== *)

Module MoreScenarios.
Import Js Runtime.

(** A report request for one customer, to go to a named sheet. *)
Definition customerReportIntent : OpenAI.Intent :=
  OpenAI.mkIntent (Some "fetch") (Some "report") (Some "ProfitAndLoss")
    (Some {[ "customer" := JStr "Acme" ]})
    (Some {[ "sheetName" := JStr "Q1" ]})
    None None None None None None None.

(** A request for a new sheet, without a name. *)
Definition newSheetIntent : OpenAI.Intent :=
  OpenAI.mkIntent (Some "create") (Some "createSheet") None None None
    None None None None None None None.

(** A request with a destination and nothing said about the sheets call. *)
Definition toRangeIntent : OpenAI.Intent :=
  OpenAI.mkIntent (Some "fetch") (Some "query") (Some "Invoice") None None
    None None None None None (Some "Invoices!A1") None.

(** A request that names an API path without a slash. *)
Definition apiPathIntent : OpenAI.Intent :=
  OpenAI.mkIntent None None None None None
    None (Some "reports/BalanceSheet") None None None None None.


(** A service at its worst for a profit and loss request: the report
    arrives at the third attempt and has no rows; of the account queries the
    first is answered and the second fails, each time; no transaction query
    is answered. *)
Definition grudging : Qbo.World :=
  Qbo.mkWorld true true (fun _ => Qbo.Refreshed true) 0
    (fun n _ =>
       match n with
       | 2%nat => Qbo.Responds (Qbo.mkResponse 200 (Qbo.Json (JObj [("Header", JObj [])])))
       | 3%nat | 5%nat => Qbo.Responds (Qbo.mkResponse 200 (Qbo.Json (JObj [])))
       | _ => Qbo.FetchFails (Error "Timeout")
       end)
    0 (Some "123145") 0 [] [].


(** Property stores that work, with a company id and an OpenAI key set. *)
Definition configured : Settings.Store :=
  Settings.mkStore
    {[ "QBO_COMPANY_ID" := "123145"; "OPENAI_API_KEY" := "sk-test" ]}
    {[ "oauth2.quickbooks" := "token" ]}
    (fun _ => None) 0 (delete "oauth2.quickbooks") [].

(** A spreadsheet service that never fails: it has the sheet asked for,
    under the name Report. *)
Definition tidyBook : Sheets.Book :=
  Sheets.mkBook (fun _ => Sheets.mkReply None true (Some 7%nat) 7%nat "Report" 2 3 2 "B3:C4") [].

(** A service on which every call fails. *)
Definition deadBook : Sheets.Book :=
  Sheets.mkBook
    (fun _ => Sheets.mkReply (Some (Error "Service unavailable")) true None 0%nat "" 0
                0 0 "")
    [].

(** A service that answers every call and has no sheet. *)
Definition bareBook : Sheets.Book :=
  Sheets.mkBook (fun _ => Sheets.mkReply None true None 0%nat "" 0 0 0 "") [].

(** A table whose second row is short. *)
Definition raggedTable : list (list jsval) :=
  [[JStr "Account"; JStr "Amount"]; [JStr "Sales"]].

End MoreScenarios.

(* ===================================================================== *)
(** * Properties                                                          *)
(* ===================================================================== *)

(** ** The intent normaliser *)

Section IntentProperties.
Import Js Runtime OpenAI Scenarios.

Lemma append_nonempty (s1 s2 : string) : s2 <> "" -> s1 +:+ s2 <> "".
Proof. intros H. destruct s1; simpl; [exact H | discriminate]. Qed.

Lemma truthy_JStr (s : string) : s <> "" -> truthy (JStr s) = true.
Proof.
  intros H. simpl. destruct (String.eqb_spec s ""); [contradiction | reflexivity].
Qed.

Lemma truthy_str_Some (s : string) : s <> "" -> truthy_str (Some s) = true.
Proof.
  intros H. simpl. destruct (String.eqb_spec s ""); [contradiction | reflexivity].
Qed.

Lemma or_str_nonempty (o : option string) (d : string) :
  d <> "" -> or_str o d <> "".
Proof.
  intros Hd. destruct o as [s|]; simpl; [|exact Hd].
  destruct (String.eqb_spec s ""); congruence.
Qed.

Lemma or_str_fixed (o : option string) (d : string) :
  or_str (Some (or_str o d)) d = or_str o d.
Proof.
  destruct o as [s|]; simpl.
  - destruct (String.eqb_spec s "") as [->|Hs]; simpl.
    + destruct (String.eqb d ""); reflexivity.
    + destruct (String.eqb_spec s ""); congruence.
  - destruct (String.eqb d ""); reflexivity.
Qed.

Lemma startsWith_slash (s : string) : startsWith ("/" +:+ s) "/" = true.
Proof. unfold startsWith. destruct s; reflexivity. Qed.

Lemma str_is_inv (o : option string) (lit : string) :
  str_is o lit = true -> o = Some lit.
Proof.
  destruct o as [s|]; simpl; [|discriminate].
  intros H. apply String.eqb_eq in H. congruence.
Qed.

(** *** Dates on the GMT calendar *)

(** Midnight of a local day, read back on the GMT calendar: the same day
    west of Greenwich, the day before east of it. *)
Lemma newDate_day_west (tz y m d : Z) :
  -1440 < tz <= 0 ->
  JsDate.Day (JsDate.newDate tz y m d) = JsDate.MakeDay y m d.
Proof.
  intros Htz. unfold JsDate.Day, JsDate.newDate, JsDate.msPerDay, JsDate.msPerMinute.
  symmetry. apply Z.div_unique with (r := - tz * 60000); lia.
Qed.

Lemma newDate_day_east (tz y m d : Z) :
  0 < tz <= 1440 ->
  JsDate.Day (JsDate.newDate tz y m d) = JsDate.MakeDay y m d - 1.
Proof.
  intros Htz. unfold JsDate.Day, JsDate.newDate, JsDate.msPerDay, JsDate.msPerMinute.
  symmetry. apply Z.div_unique with (r := 86400000 - tz * 60000); lia.
Qed.

Lemma formatDay_nonempty (day : Z) : JsDate.formatDay day <> "".
Proof.
  unfold JsDate.formatDay.
  destruct (JsDate.civil_from_days day) as [[y m] d].
  apply append_nonempty. discriminate.
Qed.

Lemma formatDate_GMT_nonempty (t : Z) : JsDate.formatDate_GMT t <> "".
Proof. apply formatDay_nonempty. Qed.

(** *** The steps, one by one *)

Ltac fields :=
  unfold set_filter, set_parameter, filter_of, parameter_of in *;
  cbn [type action entity filters parameters text qboApiCall qboMethod qboData
       sheetsApiCall destination explanation default set_type set_action
       set_entity set_filters set_parameters set_text set_qboApiCall
       set_sheetsApiCall set_explanation from_option id] in *.

Ltac branch :=
  match goal with
  | |- context [if ?c then _ else _] => destruct c eqn:?
  end; fields.

Lemma generateExplanation_nonempty (i : Intent) : generateExplanation i <> "".
Proof.
  unfold generateExplanation.
  repeat match goal with
         | |- context [if ?c then _ else _] => destruct c
         | |- context [match ?o with Some _ => _ | None => _ end] => destruct o
         end; discriminate.
Qed.

Lemma ensureRequired_required (q : string) (i : Intent) :
  Required q (ensureRequired q i).
Proof.
  destruct i. unfold Required, ensureRequired. fields.
  rewrite !or_str_fixed. repeat split; reflexivity.
Qed.

Lemma defaultDates_settled (h : Host) (q : string) (i : Intent) :
  Required q i -> Required q (defaultDates h i) /\ datesSettled (defaultDates h i).
Proof.
  destruct i. unfold Required, datesSettled, defaultDates. fields.
  intros (Ht & Ha & He & Hf & Hp & Hq). branch.
  - repeat split; auto.
    unfold prop. rewrite lookup_insert_ne by discriminate. rewrite lookup_insert_eq.
    cbn [default from_option id]. rewrite truthy_JStr by apply formatDate_GMT_nonempty.
    rewrite andb_false_r. reflexivity.
  - repeat split; auto.
Qed.

Lemma formatApiCall_settled (q : string) (i : Intent) :
  Required q i -> datesSettled i ->
  Required q (formatApiCall i) /\ datesSettled (formatApiCall i)
  /\ apiCallSettled (formatApiCall i).
Proof.
  destruct i. unfold Required, datesSettled, apiCallSettled, formatApiCall. fields.
  intros (Ht & Ha & He & Hf & Hp & Hq) Hd. branch; repeat split; auto.
  cbn [tpl]. rewrite startsWith_slash. apply andb_false_r.
Qed.

Lemma promoteCustom_settled (q : string) (i : Intent) :
  Required q i -> datesSettled i -> apiCallSettled i ->
  Required q (promoteCustom i) /\ datesSettled (promoteCustom i)
  /\ apiCallSettled (promoteCustom i) /\ customSettled (promoteCustom i).
Proof.
  destruct i.
  unfold Required, datesSettled, apiCallSettled, customSettled, promoteCustom. fields.
  intros (Ht & Ha & He & Hf & Hp & Hq) Hd Hc. branch.
  - repeat split; auto. intros; discriminate.
  - repeat split; auto. intros Hu. rewrite Hu, andb_true_r in *.
    match goal with H : _ || _ = false |- _ => apply orb_false_elim in H as [H _] end.
    assumption.
Qed.

Lemma inferUpdate_settled (q : string) (i : Intent) :
  Required q i -> datesSettled i -> apiCallSettled i -> customSettled i ->
  Required q (inferUpdate i) /\ datesSettled (inferUpdate i)
  /\ apiCallSettled (inferUpdate i) /\ customSettled (inferUpdate i)
  /\ updateSettled (inferUpdate i).
Proof.
  destruct i.
  unfold Required, datesSettled, apiCallSettled, customSettled, updateSettled,
    inferUpdate. fields.
  intros (Ht & Ha & He & Hf & Hp & Hq) Hd Hc Hu. branch.
  - repeat split; auto. apply andb_false_r.
  - repeat split; auto.
Qed.

Lemma defaultSheetName_settled (h : Host) (q : string) (i : Intent) :
  Required q i -> datesSettled i -> apiCallSettled i -> customSettled i ->
  updateSettled i ->
  Required q (defaultSheetName h q i) /\ datesSettled (defaultSheetName h q i)
  /\ apiCallSettled (defaultSheetName h q i) /\ customSettled (defaultSheetName h q i)
  /\ updateSettled (defaultSheetName h q i)
  /\ sheetNameSettled (defaultSheetName h q i).
Proof.
  destruct i.
  unfold Required, datesSettled, apiCallSettled, customSettled, updateSettled,
    sheetNameSettled, defaultSheetName. fields.
  intros (Ht & Ha & He & Hf & Hp & Hq) Hd Hc Hu Hs. branch.
  - repeat split; auto.
    unfold prop. rewrite lookup_insert_eq. cbn [default from_option id].
    rewrite truthy_JStr by (apply or_str_nonempty; discriminate).
    apply andb_false_r.
  - repeat split; auto.
Qed.

Lemma fillExplanation_settled (q : string) (i : Intent) :
  Required q i -> datesSettled i -> apiCallSettled i -> customSettled i ->
  updateSettled i -> sheetNameSettled i ->
  Settled q (fillExplanation i).
Proof.
  destruct i.
  unfold Required, datesSettled, apiCallSettled, customSettled, updateSettled,
    sheetNameSettled, fillExplanation. fields.
  intros (Ht & Ha & He & Hf & Hp & Hq) Hd Hc Hu Hs Hn. branch.
  - constructor; unfold Required, datesSettled, apiCallSettled, customSettled,
      updateSettled, sheetNameSettled, explained; fields; auto.
    + repeat split; auto.
    + rewrite truthy_str_Some by apply generateExplanation_nonempty. reflexivity.
  - constructor; unfold Required, datesSettled, apiCallSettled, customSettled,
      updateSettled, sheetNameSettled, explained; fields; auto.
    repeat split; auto.
Qed.

(** Every step has done its work on a normalised intent. *)
Lemma settled_normalized (h : Host) (i : Intent) (q : string) :
  Settled q (validateAndNormalizeIntent h i q).
Proof.
  unfold validateAndNormalizeIntent.
  pose proof (ensureRequired_required q i) as H1.
  apply (defaultDates_settled h) in H1 as [H1 H2].
  destruct (formatApiCall_settled _ _ H1 H2) as (H3 & H4 & H5).
  destruct (promoteCustom_settled _ _ H3 H4 H5) as (H6 & H7 & H8 & H9).
  destruct (inferUpdate_settled _ _ H6 H7 H8 H9) as (Ha & Hb & Hc & Hd & He).
  destruct (defaultSheetName_settled h _ _ Ha Hb Hc Hd He) as (Hf & Hg & Hh & Hi & Hj & Hk).
  apply fillExplanation_settled; assumption.
Qed.

(** A settled intent passes through the normaliser unchanged, but for the
    promotion to a custom intent where that is still due. *)
Lemma settled_second_pass (h : Host) (q : string) (r : Intent) :
  Settled q r ->
  validateAndNormalizeIntent h r q =
  if awaitsPromotion r then set_type (Some "custom") r else r.
Proof.
  intros [(Ht & Ha & He & Hf & Hp & Hq) Hd Hc Hu Hs Hn Hx].
  destruct r as [ty ac en fi pa te qb qm qd sh de ex].
  unfold datesSettled, apiCallSettled, customSettled, updateSettled,
    sheetNameSettled, explained, awaitsPromotion in *. fields.
  unfold validateAndNormalizeIntent.
  assert (E1 : ensureRequired q (mkIntent ty ac en fi pa te qb qm qd sh de ex)
               = mkIntent ty ac en fi pa te qb qm qd sh de ex).
  { unfold ensureRequired. fields. rewrite Ht, Ha, He, Hf, Hp, Hq. reflexivity. }
  rewrite E1.
  unfold defaultDates. fields. rewrite Hd.
  unfold formatApiCall. fields. rewrite Hc.
  assert (E4 : promoteCustom (mkIntent ty ac en fi pa te qb qm qd sh de ex)
               = if str_is ty "unknown" && truthy_str sh
                 then mkIntent (Some "custom") ac en fi pa te qb qm qd sh de ex
                 else mkIntent ty ac en fi pa te qb qm qd sh de ex).
  { unfold promoteCustom. fields.
    destruct (str_is ty "unknown") eqn:Eu.
    - rewrite (Hu eq_refl). cbn [orb andb]. rewrite andb_true_r. reflexivity.
    - rewrite andb_false_r. reflexivity. }
  rewrite E4.
  destruct (str_is ty "unknown" && truthy_str sh).
  - unfold inferUpdate. fields. rewrite Hs.
    unfold defaultSheetName. fields. rewrite Hn.
    unfold fillExplanation. fields. rewrite Hx. reflexivity.
  - unfold inferUpdate. fields. rewrite Hs.
    unfold defaultSheetName. fields. rewrite Hn.
    unfold fillExplanation. fields. rewrite Hx. reflexivity.
Qed.

Lemma awaitsPromotion_custom (r : Intent) :
  awaitsPromotion (set_type (Some "custom") r) = false.
Proof. destruct r. reflexivity. Qed.

(** C7, as the code has it.  Normalising a normalised intent [r] gives [r]
    back, except when [r] still has type unknown and carries a sheets call
    (inferred from its destination): then the second pass changes the type, and
    only the type, to custom.  From the second pass on nothing changes. *)
Theorem normalize_twice (h : Host) (i : Intent) (q : string) :
  let r := validateAndNormalizeIntent h i q in
  validateAndNormalizeIntent h r q
  = (if awaitsPromotion r then set_type (Some "custom") r else r)
  /\ validateAndNormalizeIntent h (validateAndNormalizeIntent h r q) q
     = validateAndNormalizeIntent h r q.
Proof.
  intros r.
  pose proof (settled_normalized h i q) as Hr. fold r in Hr.
  pose proof (settled_second_pass h q r Hr) as H2.
  split; [exact H2|].
  pose proof (settled_normalized h r q) as Hr2.
  rewrite (settled_second_pass h q _ Hr2).
  rewrite H2. destruct (awaitsPromotion r) eqn:E.
  - rewrite awaitsPromotion_custom. reflexivity.
  - rewrite E. reflexivity.
Qed.

(** C7, as stated, fails: an intent that only names a destination comes out
    of the first pass with type unknown and out of the second with type
    custom. *)
Lemma normalize_not_idempotent :
  validateAndNormalizeIntent tokyo
    (validateAndNormalizeIntent tokyo destinationOnlyIntent "put it there")
    "put it there"
  <> validateAndNormalizeIntent tokyo destinationOnlyIntent "put it there".
Proof.
  intros H. apply (f_equal type) in H. vm_compute in H. discriminate.
Qed.

(** *** Default dates *)

Lemma filters_after_dates (h : Host) (q : string) (i : Intent) :
  filters (validateAndNormalizeIntent h i q)
  = filters (defaultDates h (ensureRequired q i)).
Proof.
  unfold validateAndNormalizeIntent.
  generalize (defaultDates h (ensureRequired q i)). intros j.
  unfold fillExplanation, defaultSheetName, inferUpdate, promoteCustom, formatApiCall.
  repeat match goal with
         | |- context [if ?c then _ else _] => destruct c
         end; destruct j; reflexivity.
Qed.

Lemma filter_of_normalized (h : Host) (q : string) (i : Intent) (k : string) :
  filter_of (validateAndNormalizeIntent h i q) k
  = filter_of (defaultDates h (ensureRequired q i)) k.
Proof. unfold filter_of. rewrite filters_after_dates. reflexivity. Qed.

(** C6, as the code has it.  For a report request the normaliser fills in
    both dates when both are missing and leaves them alone otherwise: with
    both or neither set on input both are set on output; with exactly one set
    on input, the output has that one, unchanged, and still lacks the other. *)
Theorem normalized_dates_paired (h : Host) (i : Intent) (q : string) :
  str_is (type i) "fetch" = true ->
  str_is (action i) "report" = true ->
  let r := validateAndNormalizeIntent h i q in
  if Bool.eqb (dateSet i "startDate") (dateSet i "endDate")
  then dateSet r "startDate" = true /\ dateSet r "endDate" = true
  else filter_of r "startDate" = filter_of i "startDate"
       /\ filter_of r "endDate" = filter_of i "endDate".
Proof.
  intros Ht Ha r. subst r. unfold dateSet.
  rewrite !filter_of_normalized.
  apply str_is_inv in Ht. apply str_is_inv in Ha.
  destruct i as [ty ac en fi pa te qb qm qd sh de ex]. cbn in Ht, Ha. subst ty ac.
  unfold defaultDates, ensureRequired. fields.
  cbn [or_str String.eqb Ascii.eqb Bool.eqb str_is andb].
  destruct (truthy (prop (default ∅ fi) "startDate")) eqn:Es;
    destruct (truthy (prop (default ∅ fi) "endDate")) eqn:Ee;
    cbn [negb andb Bool.eqb]; fields; auto.
  unfold prop.
  rewrite lookup_insert_eq, lookup_insert_ne, lookup_insert_eq by discriminate.
  cbn [default from_option id]. rewrite !truthy_JStr by apply formatDate_GMT_nonempty. auto.
Qed.

Lemma normalized_dates_paired_witness :
  let r := validateAndNormalizeIntent newYork bareReportIntent "p and l" in
  dateSet r "startDate" = true /\ dateSet r "endDate" = true.
Proof.
  exact (normalized_dates_paired newYork bareReportIntent "p and l" eq_refl eq_refl).
Defined.

(** C6, as stated, fails: a report request that gives a start date only
    keeps it and gets no end date. *)
Lemma one_sided_dates_survive :
  let r := validateAndNormalizeIntent newYork fromJanuaryIntent "since january" in
  dateSet r "startDate" = true /\ dateSet r "endDate" = false.
Proof. vm_compute. split; reflexivity. Qed.

(** East of Greenwich the default range is one day early at both ends: it
    runs from the day before the first of the month to the day before its
    last day. *)
Lemma default_dates_east_of_GMT (h : Host) (i : Intent) (q : string) :
  str_is (type i) "fetch" = true ->
  str_is (action i) "report" = true ->
  dateSet i "startDate" = false ->
  dateSet i "endDate" = false ->
  0 < tzOffsetMinutes h <= 1440 ->
  let r := validateAndNormalizeIntent h i q in
  let year := JsDate.getFullYear (tzOffsetMinutes h) (now h) in
  let month := JsDate.getMonth (tzOffsetMinutes h) (now h) in
  filter_of r "startDate" = JStr (JsDate.formatDay (JsDate.MakeDay year month 1 - 1))
  /\ filter_of r "endDate" = JStr (JsDate.formatDay (JsDate.MakeDay year (month + 1) 0 - 1)).
Proof.
  intros Ht Ha Hs He Htz r year month. subst r. unfold dateSet in *.
  rewrite !filter_of_normalized.
  apply str_is_inv in Ht. apply str_is_inv in Ha.
  destruct i as [ty ac en fi pa te qb qm qd sh de ex]. cbn in Ht, Ha. subst ty ac.
  unfold defaultDates, ensureRequired. fields.
  cbn [or_str String.eqb Ascii.eqb Bool.eqb str_is andb].
  rewrite Hs, He. cbn [negb andb]. fields. unfold prop.
  rewrite lookup_insert_eq, lookup_insert_ne, lookup_insert_eq by discriminate.
  cbn [default from_option id]. unfold JsDate.formatDate_GMT.
  rewrite !newDate_day_east by assumption. auto.
Qed.

(** West of Greenwich, and at GMT, the default range starts on the first of
    the month and ends on day 0 of the next, its last day. *)
Lemma default_dates_west_of_GMT (h : Host) (i : Intent) (q : string) :
  str_is (type i) "fetch" = true ->
  str_is (action i) "report" = true ->
  dateSet i "startDate" = false ->
  dateSet i "endDate" = false ->
  -1440 < tzOffsetMinutes h <= 0 ->
  let r := validateAndNormalizeIntent h i q in
  let year := JsDate.getFullYear (tzOffsetMinutes h) (now h) in
  let month := JsDate.getMonth (tzOffsetMinutes h) (now h) in
  filter_of r "startDate" = JStr (JsDate.formatDay (JsDate.MakeDay year month 1))
  /\ filter_of r "endDate" = JStr (JsDate.formatDay (JsDate.MakeDay year (month + 1) 0)).
Proof.
  intros Ht Ha Hs He Htz r year month. subst r. unfold dateSet in *.
  rewrite !filter_of_normalized.
  apply str_is_inv in Ht. apply str_is_inv in Ha.
  destruct i as [ty ac en fi pa te qb qm qd sh de ex]. cbn in Ht, Ha. subst ty ac.
  unfold defaultDates, ensureRequired. fields.
  cbn [or_str String.eqb Ascii.eqb Bool.eqb str_is andb].
  rewrite Hs, He. cbn [negb andb]. fields. unfold prop.
  rewrite lookup_insert_eq, lookup_insert_ne, lookup_insert_eq by discriminate.
  cbn [default from_option id]. unfold JsDate.formatDate_GMT.
  rewrite !newDate_day_west by assumption. auto.
Qed.

(** C5 at work in Tokyo on 15 March 2024: the flag is set, but the range
    runs from 29 February to 30 March. *)
Lemma default_dates_in_tokyo :
  let r := validateAndNormalizeIntent tokyo bareReportIntent "profit and loss" in
  JsDate.getFullYear (tzOffsetMinutes tokyo) (now tokyo) = 2024
  /\ JsDate.getMonth (tzOffsetMinutes tokyo) (now tokyo) = 2
  /\ filter_of r "startDate" = JStr "2024-02-29"
  /\ filter_of r "endDate" = JStr "2024-03-30"
  /\ parameter_of r "usedDefaultDates" = JBool true.
Proof. vm_compute. repeat split; reflexivity. Qed.

(** The same request in New York gets the month it asks for. *)
Lemma default_dates_in_new_york :
  let r := validateAndNormalizeIntent newYork bareReportIntent "profit and loss" in
  filter_of r "startDate" = JStr "2024-03-01"
  /\ filter_of r "endDate" = JStr "2024-03-31"
  /\ parameter_of r "usedDefaultDates" = JBool true.
Proof. vm_compute. repeat split; reflexivity. Qed.

End IntentProperties.

(** ** The proleptic Gregorian calendar *)

(** The day-number conversions repeat every 400 years, that is every
    146097 days; what holds for the months of one cycle, checked by
    evaluation, holds for every month. *)

Section Calendar.
Import JsDate.

Lemma days_from_civil_shift (y m d e : Z) :
  days_from_civil (y + 400 * e) m d = days_from_civil y m d + 146097 * e.
Proof.
  unfold days_from_civil. cbv zeta.
  destruct (m <=? 2).
  - replace (y + 400 * e - 1) with (y - 1 + e * 400) by ring.
    rewrite Z.div_add by lia.
    replace (y - 1 + e * 400 - ((y - 1) / 400 + e) * 400)
      with (y - 1 - (y - 1) / 400 * 400) by ring.
    ring.
  - replace (y + 400 * e) with (y + e * 400) by ring.
    rewrite Z.div_add by lia.
    replace (y + e * 400 - (y / 400 + e) * 400) with (y - y / 400 * 400) by ring.
    ring.
Qed.

Lemma civil_from_days_shift (z e : Z) :
  civil_from_days (z + 146097 * e)
  = let '(y, m, d) := civil_from_days z in (y + 400 * e, m, d).
Proof.
  unfold civil_from_days. cbv zeta.
  replace (z + 146097 * e + 719468) with (z + 719468 + e * 146097) by ring.
  rewrite Z.div_add by lia.
  replace (z + 719468 + e * 146097 - ((z + 719468) / 146097 + e) * 146097)
    with (z + 719468 - (z + 719468) / 146097 * 146097) by ring.
  match goal with |- context [if ?c then _ else _] => destruct c end;
    f_equal; f_equal; ring.
Qed.

(** One full cycle, evaluated. *)
Lemma months_checked :
  forallb (fun y => forallb (fun m => month_ok (Z.of_nat y) (Z.of_nat m)) (seq 1 12))
    (seq 0 400) = true.
Proof. vm_compute. reflexivity. Qed.

Lemma months_ok_true : months_ok = true.
Proof. exact months_checked. Qed.

Lemma month_range (z : Z) :
  let '(_, m, _) := civil_from_days z in 1 <= m <= 12.
Proof.
  unfold civil_from_days. cbv zeta.
  set (doe := z + 719468 - (z + 719468) / 146097 * 146097).
  assert (Hdoe : 0 <= doe < 146097)
    by (subst doe; pose proof (Z.mod_pos_bound (z + 719468) 146097 ltac:(lia));
        rewrite Z.mod_eq in * by lia; lia).
  set (yoe := (doe - doe / 1460 + doe / 36524 - doe / 146096) / 365).
  set (doy := doe - (365 * yoe + yoe / 4 - yoe / 100)).
  assert (Hmp : 0 <= (5 * doy + 2) / 153 <= 21)
    by (subst doy yoe; Z.div_mod_to_equations; lia).
  destruct (Z.ltb_spec ((5 * doy + 2) / 153) 10); lia.
Qed.

Lemma forallb_seq (f : nat -> bool) (a n : nat) :
  forallb f (seq a n) = true ->
  forall k, (a <= k < a + n)%nat -> f k = true.
Proof.
  intros H k Hk. apply (proj1 (List.forallb_forall f (seq a n)) H).
  apply List.in_seq. exact Hk.
Qed.

Lemma month_ok_cycle (y m : Z) :
  0 <= y < 400 -> 1 <= m <= 12 -> month_ok y m = true.
Proof.
  intros Hy Hm.
  pose proof (forallb_seq _ 0 400 months_checked (Z.to_nat y) ltac:(lia)) as H.
  pose proof (forallb_seq _ 1 12 H (Z.to_nat m) ltac:(lia)) as H'.
  cbv beta in H'. rewrite !Z2Nat.id in H' by lia. exact H'.
Qed.

Lemma prevMonth_shift (y m e : Z) :
  prevMonth (y + 400 * e) m
  = let '(py, pm) := prevMonth y m in (py + 400 * e, pm).
Proof. unfold prevMonth. destruct (m =? 1); f_equal; ring. Qed.

(** The days around the first of a month, in any year. *)
Lemma around_first_of_month (y m : Z) :
  1 <= m <= 12 ->
  let first := days_from_civil y m 1 in
  civil_from_days first = (y, m, 1)
  /\ exists d, 28 <= d <= 31
               /\ civil_from_days (first - 1) = (fst (prevMonth y m), snd (prevMonth y m), d)
               /\ civil_from_days (first - 2)
                  = (fst (prevMonth y m), snd (prevMonth y m), d - 1).
Proof.
  intros Hm first. subst first.
  pose (e := y / 400). pose (y0 := y mod 400).
  assert (Hy : y = y0 + 400 * e) by (unfold y0, e; rewrite Z.mod_eq by lia; ring).
  assert (Hy0 : 0 <= y0 < 400) by (apply Z.mod_pos_bound; lia).
  clearbody e y0.
  pose proof (month_ok_cycle y0 m Hy0 Hm) as H. unfold month_ok in H.
  rewrite Hy, days_from_civil_shift, prevMonth_shift.
  replace (days_from_civil y0 m 1 + 146097 * e - 1)
    with (days_from_civil y0 m 1 - 1 + 146097 * e) by ring.
  replace (days_from_civil y0 m 1 + 146097 * e - 2)
    with (days_from_civil y0 m 1 - 2 + 146097 * e) by ring.
  rewrite !civil_from_days_shift.
  destruct (civil_from_days (days_from_civil y0 m 1)) as [[a0 b0] c0].
  destruct (civil_from_days (days_from_civil y0 m 1 - 1)) as [[a1 b1] c1].
  destruct (civil_from_days (days_from_civil y0 m 1 - 2)) as [[a2 b2] c2].
  destruct (prevMonth y0 m) as [py pm]. cbn [fst snd].
  repeat match type of H with
         | _ && _ = true => apply andb_prop in H as [H ?]
         end.
  repeat match goal with
         | E : (_ =? _) = true |- _ => apply Z.eqb_eq in E
         | E : (_ <=? _) = true |- _ => apply Z.leb_le in E
         end.
  subst. split; [reflexivity|]. exists c1. repeat split; lia || reflexivity.
Qed.

Lemma prev_of_next (y m : Z) :
  1 <= m <= 12 ->
  prevMonth (fst (nextMonth y m)) (snd (nextMonth y m)) = (y, m).
Proof.
  intros Hm. unfold nextMonth, prevMonth.
  destruct (Z.eqb_spec m 12) as [->|H12]; cbn [fst snd].
  - cbn. f_equal. ring.
  - destruct (Z.eqb_spec (m + 1) 1); [lia|]. f_equal. ring.
Qed.

Lemma MakeDay_first (y mo : Z) :
  0 <= mo <= 11 -> MakeDay y mo 1 = days_from_civil y (mo + 1) 1.
Proof.
  intros H. unfold MakeDay. cbv zeta.
  rewrite Z.div_small, Z.mod_small by lia.
  replace (y + 0) with y by ring. ring.
Qed.

Lemma MakeDay_zeroth_of_next (y mo : Z) :
  0 <= mo <= 11 ->
  MakeDay y (mo + 1) 0
  = days_from_civil (fst (nextMonth y (mo + 1))) (snd (nextMonth y (mo + 1))) 1 - 1.
Proof.
  intros H. unfold MakeDay, nextMonth. cbv zeta.
  destruct (Z.eqb_spec (mo + 1) 12) as [E|E]; cbn [fst snd].
  - rewrite E. change (12 / 12) with 1. change (12 mod 12) with 0.
    change (0 + 1) with 1. ring.
  - rewrite Z.div_small, Z.mod_small by lia.
    replace (y + 0) with y by ring. ring.
Qed.

End Calendar.

(** ** The default date range in every time zone *)

Section DefaultRange.
Import Js Runtime OpenAI Scenarios.

Lemma getMonth_range (tz t : Z) : 0 <= JsDate.getMonth tz t <= 11.
Proof.
  unfold JsDate.getMonth.
  pose proof (month_range (JsDate.Day (JsDate.LocalTime tz t))) as H.
  destruct (JsDate.civil_from_days _) as [[y m] d]. lia.
Qed.

Lemma nextMonth_range (y m : Z) :
  1 <= m <= 12 -> 1 <= snd (JsDate.nextMonth y m) <= 12.
Proof.
  intros H. unfold JsDate.nextMonth.
  destruct (Z.eqb_spec m 12); cbn [snd]; lia.
Qed.

(** The first of a month and the day before it, formatted. *)
Lemma formatDay_first (y mo : Z) :
  0 <= mo <= 11 ->
  JsDate.formatDay (JsDate.MakeDay y mo 1) = JsDate.formatYMD y (mo + 1) 1.
Proof.
  intros H. rewrite MakeDay_first by assumption. unfold JsDate.formatDay.
  destruct (around_first_of_month y (mo + 1) ltac:(lia)) as [-> _]. reflexivity.
Qed.

Lemma formatDay_before_first (y mo : Z) :
  0 <= mo <= 11 ->
  exists d, 28 <= d <= 31
    /\ JsDate.formatDay (JsDate.MakeDay y mo 1 - 1)
       = JsDate.formatYMD (fst (JsDate.prevMonth y (mo + 1)))
                          (snd (JsDate.prevMonth y (mo + 1))) d.
Proof.
  intros H. rewrite MakeDay_first by assumption. unfold JsDate.formatDay.
  destruct (around_first_of_month y (mo + 1) ltac:(lia)) as [_ (d & Hd & -> & _)].
  exists d. split; [assumption | reflexivity].
Qed.

(** Day 0 of the next month is the last day of this one, and the day
    before that is the last but one. *)
Lemma formatDay_last (y mo : Z) :
  0 <= mo <= 11 ->
  exists d, 28 <= d <= 31
    /\ JsDate.formatDay (JsDate.MakeDay y (mo + 1) 0) = JsDate.formatYMD y (mo + 1) d
    /\ JsDate.formatDay (JsDate.MakeDay y (mo + 1) 0 - 1)
       = JsDate.formatYMD y (mo + 1) (d - 1).
Proof.
  intros H. rewrite MakeDay_zeroth_of_next by assumption. unfold JsDate.formatDay.
  pose proof (nextMonth_range y (mo + 1) ltac:(lia)) as Hn.
  destruct (around_first_of_month (fst (JsDate.nextMonth y (mo + 1))) _ Hn) as [_ (d & Hd & E1 & E2)].
  rewrite prev_of_next in E1, E2 by lia. cbn [fst snd] in E1, E2.
  exists d. split; [assumption|].
  rewrite E1.
  replace (JsDate.days_from_civil (fst (JsDate.nextMonth y (mo + 1)))
             (snd (JsDate.nextMonth y (mo + 1))) 1 - 1 - 1)
    with (JsDate.days_from_civil (fst (JsDate.nextMonth y (mo + 1)))
             (snd (JsDate.nextMonth y (mo + 1))) 1 - 2) by ring.
  rewrite E2. split; reflexivity.
Qed.

(** West of Greenwich, and at GMT, a report request without dates gets
    the current month: its first day and its last. *)
Lemma current_month_west_of_GMT (h : Host) (i : Intent) (q : string) :
  str_is (type i) "fetch" = true ->
  str_is (action i) "report" = true ->
  dateSet i "startDate" = false ->
  dateSet i "endDate" = false ->
  -1440 < tzOffsetMinutes h <= 0 ->
  let r := validateAndNormalizeIntent h i q in
  let year := JsDate.getFullYear (tzOffsetMinutes h) (now h) in
  let month := JsDate.getMonth (tzOffsetMinutes h) (now h) + 1 in
  exists last, 28 <= last <= 31
    /\ filter_of r "startDate" = JStr (JsDate.formatYMD year month 1)
    /\ filter_of r "endDate" = JStr (JsDate.formatYMD year month last).
Proof.
  intros Ht Ha Hs He Htz r year month.
  destruct (default_dates_west_of_GMT h i q Ht Ha Hs He Htz) as [E1 E2].
  pose proof (getMonth_range (tzOffsetMinutes h) (now h)) as Hm.
  destruct (formatDay_last year _ Hm) as (d & Hd & L1 & _).
  exists d. split; [assumption|]. subst r year month.
  rewrite E1, E2, formatDay_first, L1 by assumption. split; reflexivity.
Qed.

(** East of Greenwich the same request gets a range that starts on the
    last day of the previous month and stops one day short of the end of
    the current one. *)
Lemma current_month_east_of_GMT (h : Host) (i : Intent) (q : string) :
  str_is (type i) "fetch" = true ->
  str_is (action i) "report" = true ->
  dateSet i "startDate" = false ->
  dateSet i "endDate" = false ->
  0 < tzOffsetMinutes h <= 1440 ->
  let r := validateAndNormalizeIntent h i q in
  let year := JsDate.getFullYear (tzOffsetMinutes h) (now h) in
  let month := JsDate.getMonth (tzOffsetMinutes h) (now h) + 1 in
  let before := JsDate.prevMonth year month in
  exists last last', 28 <= last <= 31 /\ 28 <= last' <= 31
    /\ filter_of r "startDate" = JStr (JsDate.formatYMD (fst before) (snd before) last')
    /\ filter_of r "endDate" = JStr (JsDate.formatYMD year month (last - 1)).
Proof.
  intros Ht Ha Hs He Htz r year month before.
  destruct (default_dates_east_of_GMT h i q Ht Ha Hs He Htz) as [E1 E2].
  pose proof (getMonth_range (tzOffsetMinutes h) (now h)) as Hm.
  destruct (formatDay_last year _ Hm) as (d & Hd & _ & L2).
  destruct (formatDay_before_first year _ Hm) as (d' & Hd' & B).
  exists d, d'. split; [assumption|]. split; [assumption|].
  subst r year month before. rewrite E1, E2, B, L2. split; reflexivity.
Qed.

End DefaultRange.

(** ** Report and query formatting *)

Section FormattingProperties.
Import Js Runtime Utils Scenarios.

Lemma padTo_length_ge (n : nat) (l : list jsval) : (n <= length (padTo n l))%nat.
Proof. unfold padTo. rewrite length_app, length_replicate. lia. Qed.

Lemma padTo_length (n : nat) (l : list jsval) :
  length (padTo n l) = Nat.max n (length l).
Proof. unfold padTo. rewrite length_app, length_replicate. lia. Qed.

Lemma fitTo_length (n : nat) (data : list Cell) : length (fitTo n data) = n.
Proof. unfold fitTo. rewrite length_map, length_seq. reflexivity. Qed.

(** Every row [processRow] emits is at least as wide as the header. *)
Lemma processRowObj_width (n : nat) :
  forall r : Row, Forall (fun row => (n <= length row)%nat) (processRowObj n r).
Proof.
  fix IH 1. intros [t h rs cd s]. cbn [processRowObj Rows Header ColData Summary].
  destruct rs as [[children|]|].
  - apply Forall_app. split.
    + destruct h; constructor; [apply padTo_length_ge | constructor].
    + induction children as [|[c|] rest IHrest]; cbn [flat_map].
      * constructor.
      * apply Forall_app. split; [apply IH | exact IHrest].
      * exact IHrest.
  - destruct cd; [constructor; [apply padTo_length_ge | constructor]|].
    destruct s; constructor; [apply padTo_length_ge | constructor].
  - destruct cd; [constructor; [apply padTo_length_ge | constructor]|].
    destruct s; constructor; [apply padTo_length_ge | constructor].
Qed.

Lemma processRow_width (n : nat) (row : option Row) :
  Forall (fun row => (n <= length row)%nat) (processRow n row).
Proof. destruct row; [apply processRowObj_width | constructor]. Qed.

Lemma flat_map_processRow_width (n : nat) (rows : list (option Row)) :
  Forall (fun row => (n <= length row)%nat) (flat_map (processRow n) rows).
Proof.
  induction rows as [|r rest IH]; cbn [flat_map]; [constructor|].
  apply Forall_app. split; [apply processRow_width | exact IH].
Qed.

Lemma emptyRow_width (n : nat) : (n <= length (emptyRow n))%nat.
Proof. unfold emptyRow. cbn [length]. rewrite length_replicate. lia. Qed.

Lemma formatDataForSheet_width (stringify : Report -> string) (data : option Report) :
  Forall (fun row => (length (hd [] (formatDataForSheet stringify data)) <= length row)%nat)
    (tl (formatDataForSheet stringify data)).
Proof.
  unfold formatDataForSheet. destruct data as [d|]; [|constructor].
  destruct (ReportRows d) as [rowsObj|];
    [|constructor; [apply Nat.le_refl | constructor]].
  destruct (Columns d) as [colsObj|];
    [|constructor; [apply Nat.le_refl | constructor]].
  cbn [hd tl].
  set (headers := match colsObj with Some cols => _ | None => _ end).
  destruct rowsObj as [[|r rest]|].
  - constructor; [apply emptyRow_width | constructor].
  - pose proof (flat_map_processRow_width (length headers) (r :: rest)) as H.
    destruct (flat_map (processRow (length headers)) (r :: rest)).
    + constructor; [apply emptyRow_width | constructor].
    + exact H.
  - constructor; [apply emptyRow_width | constructor].
Qed.

(** After the normalisation of [writeToSheet] every row has the width of
    the first. *)
Lemma normalizeColumns_width (table : list (list jsval)) :
  hd [] (normalizeColumns table) = hd [] table
  /\ length (normalizeColumns table) = length table
  /\ Forall (fun row => length row = length (hd [] table)) (tl (normalizeColumns table)).
Proof.
  destruct table as [|header rows]; cbn [normalizeColumns hd tl].
  - repeat split. constructor.
  - repeat split.
    + cbn [length]. rewrite length_map. reflexivity.
    + apply Forall_map. apply Forall_forall. intros row _. cbn beta.
      pose proof (padTo_length (length header) row) as Hp.
      destruct (Nat.ltb_spec (length header) (length (padTo (length header) row))).
      * rewrite length_firstn. lia.
      * lia.
Qed.

Lemma formatReportRow_width (isBasic : bool) (n : nat) (row : option Row)
  (out : list (list jsval)) :
  formatReportRow isBasic n row = Ok out ->
  (n <> 0)%nat -> (isBasic = true -> n = 2%nat) ->
  Forall (fun r => length r = n) out.
Proof.
  intros H Hn Hb. unfold formatReportRow in H.
  destruct row as [r|]; [|discriminate].
  destruct (str_is (type r) "Section").
  { destruct isBasic; injection H as <-; repeat constructor.
    - rewrite Hb; reflexivity.
    - cbn [length]. rewrite length_replicate. lia. }
  destruct (str_is (type r) "Data").
  { destruct isBasic.
    - rewrite Hb by reflexivity.
      destruct (default [] (ColData r)) as [|c0 [|c1 rest]];
        injection H as <-; repeat constructor.
    - injection H as <-. repeat constructor. apply fitTo_length. }
  destruct (Summary r) as [s|].
  - destruct isBasic; injection H as <-; repeat constructor.
    + rewrite Hb; reflexivity.
    + apply fitTo_length.
  - injection H as <-. constructor.
Qed.

Lemma forEachRow_width (isBasic : bool) (n : nat) (rows : list (option Row))
  (out : list (list jsval)) :
  forEachRow (formatReportRow isBasic n) rows = Ok out ->
  (n <> 0)%nat -> (isBasic = true -> n = 2%nat) ->
  Forall (fun r => length r = n) out.
Proof.
  intros H Hn Hb. revert out H.
  induction rows as [|r rest IH]; intros out H; cbn [forEachRow] in H.
  - injection H as <-. constructor.
  - destruct (formatReportRow isBasic n r) as [o|e] eqn:E; [|discriminate].
    destruct (forEachRow (formatReportRow isBasic n) rest) as [more|e]; [|discriminate].
    injection H as <-. apply Forall_app. split.
    + eapply formatReportRow_width; eauto.
    + apply IH. reflexivity.
Qed.

Lemma formatReportData_width (reportData : option Report) (table : list (list jsval)) :
  formatReportData reportData = Ok table ->
  hd [] table <> [] ->
  Forall (fun row => length row = length (hd [] table)) (tl table).
Proof.
  unfold formatReportData. intros H Hne.
  destruct reportData as [[header columns [[rows|]|]]|];
    try (injection H as <-; constructor).
  match type of H with
  | context [forEachRow (formatReportRow ?b ?n) rows] =>
      destruct (forEachRow (formatReportRow b n) rows) as [out|e] eqn:E;
      [|discriminate]
  end.
  injection H as <-. cbn [hd tl] in *.
  eapply forEachRow_width; [exact E | |].
  - intros H0. apply Hne. apply length_zero_iff_nil. exact H0.
  - intros Hb. rewrite Hb. reflexivity.
Qed.

(** C3, as the code has it.  [formatDataForSheet] pads and never cuts: every
    row it returns is at least as wide as the header, a row with fewer cells
    than the header is filled up with empty strings and a row with more keeps
    them all.  The cut to the header's width is made by [writeToSheet], after
    which every row has exactly the header's width.  [formatReportData] does
    both itself: its rows have exactly the width of a non-empty header. *)
Theorem flattened_rows_width (stringify : Report -> string) (data : option Report) :
  let table := formatDataForSheet stringify data in
  Forall (fun row => (length (hd [] table) <= length row)%nat) (tl table)
  /\ (forall n t h cd s,
        processRow n (Some (mkRow t h None (Some cd) s)) = [padTo n (map cellOr cd)]
        /\ length (padTo n (map cellOr cd)) = Nat.max n (length cd))
  /\ hd [] (normalizeColumns table) = hd [] table
  /\ length (normalizeColumns table) = length table
  /\ Forall (fun row => length row = length (hd [] table)) (tl (normalizeColumns table))
  /\ (forall table',
        formatReportData data = Ok table' ->
        hd [] table' <> [] ->
        Forall (fun row => length row = length (hd [] table')) (tl table')).
Proof.
  intros table. split; [apply formatDataForSheet_width|].
  split.
  { intros n t h cd s. split; [reflexivity|].
    rewrite padTo_length, length_map. reflexivity. }
  destruct (normalizeColumns_width table) as (H1 & H2 & H3).
  repeat split; try assumption.
  intros table'. apply formatReportData_width.
Qed.

Lemma flattened_rows_width_witness :
  Forall (fun row => length row = 2%nat)
    [[JStr "Income"; JStr ""]].
Proof.
  exact (proj2 (proj2 (proj2 (proj2 (proj2
           (flattened_rows_width (fun _ => "") (Some wideReport))))))
           [[JStr "Account"; JStr "Money"]; [JStr "Income"; JStr ""]]
           eq_refl
           (fun H => eq_ind [JStr "Account"; JStr "Money"]
                       (fun l => match l with [] => False | _ :: _ => True end)
                       I [] H)).
Defined.

(** C3, as stated, fails: a data row of three cells under a header of two
    columns leaves [formatDataForSheet] with its three cells. *)
Lemma wide_row_not_truncated :
  let table := formatDataForSheet (fun _ => "") (Some wideReport) in
  ~ Forall (fun row => length row = length (hd [] table)) (tl table).
Proof.
  intros table H. vm_compute in H.
  inversion H as [|? ? _ H2]. inversion H2 as [|? ? H3 _]. discriminate H3.
Qed.

(** *** The query formatter *)













End FormattingProperties.

(** ** API calls and report retrieval *)

Section ServiceProperties.
Import Js Runtime Qbo Scenarios.

(** *** Composition of observations *)

Lemma preserves_ret {X A : Type} (f : World -> X) (a : A) : preserves f (ret a).
Proof. intros w. reflexivity. Qed.

Lemma preserves_throw {X A : Type} (f : World -> X) (e : JsError) :
  preserves f (@throw A e).
Proof. intros w. reflexivity. Qed.

Lemma preserves_lift {X A : Type} (f : World -> X) (r : result A) :
  preserves f (lift r).
Proof. intros w. reflexivity. Qed.

Lemma preserves_bind {X A B : Type} (f : World -> X) (m : M A) (k : A -> M B) :
  preserves f m -> (forall a, preserves f (k a)) -> preserves f (bind m k).
Proof.
  intros Hm Hk w. unfold bind. specialize (Hm w).
  destruct (m w) as [[a|e] w1]; cbn [snd] in *.
  - rewrite Hk. exact Hm.
  - exact Hm.
Qed.

Lemma preserves_try {X A : Type} (f : World -> X) (m : M A)
  (handler : JsError -> M A) :
  preserves f m -> (forall e, preserves f (handler e)) ->
  preserves f (try_catch m handler).
Proof.
  intros Hm Hk w. unfold try_catch. specialize (Hm w).
  destruct (m w) as [[a|e] w1]; cbn [snd] in *.
  - exact Hm.
  - rewrite Hk. exact Hm.
Qed.

Lemma grows_weaken {A : Type} (f : World -> nat) (lo hi lo' hi' : nat) (m : M A) :
  grows f lo hi m -> (lo' <= lo)%nat -> (hi <= hi')%nat -> grows f lo' hi' m.
Proof. intros H Hl Hh w. specialize (H w). lia. Qed.

Lemma grows_preserves {A : Type} (f : World -> nat) (m : M A) :
  preserves f m -> grows f 0 0 m.
Proof. intros H w. rewrite H. lia. Qed.

Lemma grows_bind {A B : Type} (f : World -> nat) (lo hi hi' : nat) (m : M A)
  (k : A -> M B) :
  grows f lo hi m -> (forall a, grows f 0 hi' (k a)) ->
  grows f lo (hi + hi') (bind m k).
Proof.
  intros Hm Hk w. unfold bind. specialize (Hm w).
  destruct (m w) as [[a|e] w1]; cbn [snd] in *.
  - specialize (Hk a w1). lia.
  - lia.
Qed.

Lemma grows_try {A : Type} (f : World -> nat) (lo hi hi' : nat) (m : M A)
  (handler : JsError -> M A) :
  grows f lo hi m -> (forall e, grows f 0 hi' (handler e)) ->
  grows f lo (hi + hi') (try_catch m handler).
Proof.
  intros Hm Hk w. unfold try_catch. specialize (Hm w).
  destruct (m w) as [[a|e] w1]; cbn [snd] in *.
  - lia.
  - specialize (Hk e w1). lia.
Qed.

(** The primitive effects, counter by counter. *)
Lemma logAction_fetchCount (a q r : string) : preserves fetchCount (logAction a q r).
Proof. intros w. reflexivity. Qed.

Lemma logAction_apiCalls (a q r : string) : preserves apiCalls (logAction a q r).
Proof. intros w. reflexivity. Qed.

Lemma logAction_slept (a q r : string) : preserves slept (logAction a q r).
Proof. intros w. reflexivity. Qed.

Lemma refresh_fetchCount : preserves fetchCount service_refresh.
Proof.
  intros w. unfold service_refresh.
  destruct (refreshScript w (refreshCount w)) as [[|]|e]; reflexivity.
Qed.

Lemma refresh_apiCalls : preserves apiCalls service_refresh.
Proof.
  intros w. unfold service_refresh.
  destruct (refreshScript w (refreshCount w)) as [[|]|e]; reflexivity.
Qed.

Lemma refresh_slept : preserves slept service_refresh.
Proof.
  intros w. unfold service_refresh.
  destruct (refreshScript w (refreshCount w)) as [[|]|e]; reflexivity.
Qed.

Lemma fetch_apiCalls (req : Request) : preserves apiCalls (fetch req).
Proof.
  intros w. unfold fetch. destruct (fetchScript w (fetchCount w) req); reflexivity.
Qed.

Lemma fetch_slept (req : Request) : preserves slept (fetch req).
Proof.
  intros w. unfold fetch. destruct (fetchScript w (fetchCount w) req); reflexivity.
Qed.

Lemma fetch_fetchCount (req : Request) : grows fetchCount 1 1 (fetch req).
Proof.
  intros w. unfold fetch.
  destruct (fetchScript w (fetchCount w) req); cbn [snd fetchCount]; lia.
Qed.

Ltac quiet :=
  repeat first
    [ apply preserves_ret | apply preserves_throw | apply preserves_lift
    | apply logAction_fetchCount | apply logAction_apiCalls | apply logAction_slept
    | apply refresh_fetchCount | apply refresh_apiCalls | apply refresh_slept
    | apply fetch_apiCalls | apply fetch_slept
    | apply preserves_bind; [|intros ?]
    | apply preserves_try; [|intros ?]
    | match goal with
      | |- preserves _ (if ?c then _ else _) => destruct c
      | |- preserves _ (match ?c with Some _ => _ | None => _ end) => destruct c
      | |- preserves _ service_hasAccess => intros ?; reflexivity
      | |- preserves _ service_canRefresh => intros ?; reflexivity
      | |- preserves _ getCompanyId => intros ?; reflexivity
      | |- preserves _ isAuthenticated => intros ?; reflexivity
      end ].

Lemma ensureAccess_fetchCount : preserves fetchCount ensureAccess.
Proof. unfold ensureAccess. quiet. Qed.

Lemma ensureAccess_apiCalls : preserves apiCalls ensureAccess.
Proof. unfold ensureAccess. quiet. Qed.

Lemma ensureAccess_slept : preserves slept ensureAccess.
Proof. unfold ensureAccess. quiet. Qed.

Lemma fetchWithRefresh_apiCalls (req : Request) : preserves apiCalls (fetchWithRefresh req).
Proof. unfold fetchWithRefresh. quiet. Qed.

Lemma fetchWithRefresh_slept (req : Request) : preserves slept (fetchWithRefresh req).
Proof. unfold fetchWithRefresh. quiet. Qed.

(** *** One request, at most one retry *)

Ltac reduce :=
  cbn [fst snd fetchCount refreshCount canRefresh refreshScript fetchScript
       hasAccess companyId apiCalls slept actionLog code andb orb negb] in *.

Ltac finish :=
  repeat split; intros; reduce; try lia; try discriminate; try reflexivity.

Lemma fetchWithRefresh_run (req : Request) (w : World) :
  let first := fetchScript w (fetchCount w) req in
  let run := fetchWithRefresh req w in
  fetchCount (snd run)
  = (fetchCount w + (if is401 first && refreshGranted w then 2 else 1))%nat
  /\ refreshCount (snd run)
     = (refreshCount w + (if is401 first && canRefresh w then 1 else 0))%nat
  /\ (is401 first = false -> fst run = outcome first)
  /\ (is401 first = true -> refreshGranted w = true ->
      fst run = outcome (fetchScript w (S (fetchCount w)) req))
  /\ (is401 first = true -> canRefresh w = false -> fst run = Throw authFailed).
Proof.
  unfold fetchWithRefresh, bind, fetch, logAction, service_canRefresh,
    service_refresh, throw, ret, is401, refreshGranted, outcome.
  cbn zeta.
  destruct (fetchScript w (fetchCount w) req) as [r|e] eqn:E1; reduce.
  2: { finish. }
  destruct (code r =? 401) eqn:E401; reduce.
  2: { finish. }
  destruct (canRefresh w) eqn:Ec; reduce.
  2: { finish. }
  destruct (refreshScript w (refreshCount w)) as [[|]|e'] eqn:Er; reduce.
  - destruct (fetchScript w (S (fetchCount w)) req) as [r2|e2]; reduce; finish.
  - finish.
  - finish.
Qed.

Lemma fetchWithRefresh_fetchCount (req : Request) :
  grows fetchCount 1 2 (fetchWithRefresh req).
Proof.
  intros w. destruct (fetchWithRefresh_run req w) as (H & _). rewrite H.
  destruct (is401 _ && refreshGranted w); lia.
Qed.

Lemma enterApiCall_fetchCount : preserves fetchCount enterApiCall.
Proof. intros w. reflexivity. Qed.

Lemma enterApiCall_slept : preserves slept enterApiCall.
Proof. intros w. reflexivity. Qed.

Lemma enterApiCall_apiCalls : grows apiCalls 1 1 enterApiCall.
Proof. intros w. cbn. lia. Qed.

Lemma makeApiCall_fetchCount (endpoint method : string) (data : option Params) :
  grows fetchCount 0 2 (makeApiCall endpoint method data).
Proof.
  unfold makeApiCall.
  apply (grows_bind fetchCount 0 0 2); [apply grows_preserves, enterApiCall_fetchCount|].
  intros _. apply (grows_try fetchCount 0 2 0).
  - apply (grows_bind fetchCount 0 0 2);
      [apply grows_preserves, ensureAccess_fetchCount|].
    intros _. apply (grows_bind fetchCount 0 0 2);
      [apply grows_preserves; intros ?; reflexivity|].
    intros cid. destruct (negb (truthy_str cid)).
    + apply (grows_weaken fetchCount 0 0); [apply grows_preserves, preserves_throw | lia | lia].
    + apply (grows_bind fetchCount 0 0 2);
        [apply grows_preserves, logAction_fetchCount|].
      intros _. eapply grows_weaken; [apply fetchWithRefresh_fetchCount | lia | lia].
  - intros e. apply grows_preserves. destruct (includes (message e) "network");
      apply preserves_throw.
Qed.

Lemma makeApiCall_apiCalls (endpoint method : string) (data : option Params) :
  grows apiCalls 1 1 (makeApiCall endpoint method data).
Proof.
  unfold makeApiCall.
  apply (grows_bind apiCalls 1 1 0); [apply enterApiCall_apiCalls|].
  intros _. apply grows_preserves.
  apply preserves_try.
  - apply preserves_bind; [apply ensureAccess_apiCalls|]. intros _.
    apply preserves_bind; [intros ?; reflexivity|]. intros cid.
    destruct (negb (truthy_str cid)); [apply preserves_throw|].
    apply preserves_bind; [apply logAction_apiCalls|]. intros _.
    apply fetchWithRefresh_apiCalls.
  - intros e. destruct (includes (message e) "network"); apply preserves_throw.
Qed.

Lemma makeApiCall_slept (endpoint method : string) (data : option Params) :
  preserves slept (makeApiCall endpoint method data).
Proof.
  unfold makeApiCall.
  apply preserves_bind; [apply enterApiCall_slept|]. intros _.
  apply preserves_try.
  - apply preserves_bind; [apply ensureAccess_slept|]. intros _.
    apply preserves_bind; [intros ?; reflexivity|]. intros cid.
    destruct (negb (truthy_str cid)); [apply preserves_throw|].
    apply preserves_bind; [apply logAction_slept|]. intros _.
    apply fetchWithRefresh_slept.
  - intros e. destruct (includes (message e) "network"); apply preserves_throw.
Qed.




(** *** The retry loop of [getReport] *)

Lemma backoff_values :
  backoff 0 = [] /\ backoff 1 = [] /\ backoff 2 = [2000] /\ backoff 3 = [4000; 2000].
Proof. repeat split; reflexivity. Qed.

Lemma sleep_apiCalls (ms : Z) : preserves apiCalls (sleep ms).
Proof. intros w. reflexivity. Qed.

Lemma callWithRetry_run (ep : string) (p : Params) (w : World) :
  let w' := snd (callWithRetry 3 0 ep p w) in
  exists n, (1 <= n <= 3)%nat
            /\ apiCalls w' = (apiCalls w + n)%nat
            /\ slept w' = backoff n ++ slept w.
Proof.
  cbn [callWithRetry]. unfold try_catch, bind, sleep, ret, throw.
  pose proof (makeApiCall_apiCalls ep "GET" (Some p) w) as Ha1.
  pose proof (makeApiCall_slept ep "GET" (Some p) w) as Hs1.
  destruct (makeApiCall ep "GET" (Some p) w) as [[r1|e1] w1]; reduce.
  { exists 1%nat. repeat split; try lia. rewrite Hs1. reflexivity. }
  change (0 + 1 >=? maxRetries) with false. cbn beta iota.
  match goal with |- context [makeApiCall ep "GET" (Some p) ?w0] =>
    pose proof (makeApiCall_apiCalls ep "GET" (Some p) w0) as Ha2;
    pose proof (makeApiCall_slept ep "GET" (Some p) w0) as Hs2;
    destruct (makeApiCall ep "GET" (Some p) w0) as [[r2|e2] w2]
  end; reduce.
  { exists 2%nat. repeat split; try lia. rewrite Hs2, Hs1. reflexivity. }
  change (0 + 1 + 1 >=? maxRetries) with false. cbn beta iota.
  match goal with |- context [makeApiCall ep "GET" (Some p) ?w0] =>
    pose proof (makeApiCall_apiCalls ep "GET" (Some p) w0) as Ha3;
    pose proof (makeApiCall_slept ep "GET" (Some p) w0) as Hs3;
    destruct (makeApiCall ep "GET" (Some p) w0) as [[r3|e3] w3]
  end; reduce.
  { exists 3%nat. repeat split; try lia. rewrite Hs3, Hs2, Hs1. reflexivity. }
  change (0 + 1 + 1 + 1 >=? maxRetries) with true. cbn beta iota. reduce.
  exists 3%nat. repeat split; try lia. rewrite Hs3, Hs2, Hs1. reflexivity.
Qed.



Lemma readResponse_quiet {X : Type} (f : World -> X) (h : Host) (reportType : string)
  (params : Params) (response : option Response) :
  preserves f (readResponse h reportType params response).
Proof.
  unfold readResponse. destruct response as [r|]; [|apply preserves_throw].
  destruct (code r =? 200); [apply preserves_lift|].
  match goal with |- context [if ?c then _ else _] => destruct c end;
    [apply preserves_ret | apply preserves_throw].
Qed.

Lemma fetchReport_run (h : Host) (reportType : string) (params : Params) (w : World) :
  let w' := snd (fetchReport h reportType params w) in
  exists n, (n <= 3)%nat
            /\ apiCalls w' = (apiCalls w + n)%nat
            /\ slept w' = backoff n ++ slept w.
Proof.
  cbv beta iota zeta delta [fetchReport isAuthenticated service_hasAccess bind throw].
  destruct (hasAccess w); cbn [negb snd].
  2: { exists 0%nat. split; [lia|]. split; [lia | reflexivity]. }
  change (Z.to_nat maxRetries) with 3%nat.
  match goal with |- context [callWithRetry 3 0 ?ep ?p w] =>
    destruct (callWithRetry_run ep p w) as (n & Hn & Ha & Hs);
    destruct (callWithRetry 3 0 ep p w) as [[r|e] w1]
  end; cbn [snd] in *.
  - exists n. split; [lia|].
    rewrite (readResponse_quiet apiCalls), (readResponse_quiet slept). auto.
  - exists n. split; [lia|]. auto.
Qed.




(** *** What a run can end in *)


Lemma outcomes_throw {A : Type} (e : JsError) (P : A -> Prop) (Q : JsError -> Prop) :
  Q e -> outcomes (throw e) P Q.
Proof. intros H w. exact H. Qed.

Lemma outcomes_lift {A : Type} (r : result A) (P : A -> Prop) (Q : JsError -> Prop) :
  match r with Ok a => P a | Throw e => Q e end -> outcomes (lift r) P Q.
Proof. intros H w. exact H. Qed.

Lemma outcomes_bind {A B : Type} (m : M A) (k : A -> M B) (P' : A -> Prop)
  (P : B -> Prop) (Q : JsError -> Prop) :
  outcomes m P' Q -> (forall a, P' a -> outcomes (k a) P Q) ->
  outcomes (bind m k) P Q.
Proof.
  intros Hm Hk w. unfold bind. specialize (Hm w).
  destruct (m w) as [[a|e] w1]; cbn [fst] in *.
  - apply Hk. exact Hm.
  - exact Hm.
Qed.

Lemma outcomes_try {A : Type} (m : M A) (handler : JsError -> M A)
  (P : A -> Prop) (Q' Q : JsError -> Prop) :
  outcomes m P Q' -> (forall e, Q' e -> outcomes (handler e) P Q) ->
  outcomes (try_catch m handler) P Q.
Proof.
  intros Hm Hk w. unfold try_catch. specialize (Hm w).
  destruct (m w) as [[a|e] w1]; cbn [fst] in *.
  - exact Hm.
  - apply Hk. exact Hm.
Qed.





(** C10.  [getReport] returns whatever happens: when a step of the fetch
    throws, the caller receives an object of type SystemFault that carries the
    text of the error and a resolution hint. *)
Theorem getReport_never_throws (h : Host) (reportType : string) (params : Params)
  (w : World) :
  (exists v w', getReport h reportType params w = (Ok v, w'))
  /\ (forall e w',
        fetchReport h reportType params w = (Throw e, w') ->
        getReport h reportType params w = (Ok (systemFault reportType e), w')
        /\ getProp (inherited h) (systemFault reportType e) "type" = JStr "SystemFault"
        /\ getProp (inherited h) (systemFault reportType e) "Error"
           = JStr (errToString e)
        /\ truthy (getProp (inherited h) (systemFault reportType e) "message") = true
        /\ truthy (getProp (inherited h) (systemFault reportType e) "resolution")
           = true)
  /\ (forall v w',
        fetchReport h reportType params w = (Ok v, w') ->
        getReport h reportType params w = (Ok v, w')).
Proof.
  unfold getReport, try_catch, ret. split; [|split].
  - destruct (fetchReport h reportType params w) as [[v|e] w1]; eauto.
  - intros e w' H. rewrite H. repeat split; reflexivity.
  - intros v w' H. rewrite H. reflexivity.
Qed.

Lemma getReport_never_throws_witness :
  getReport noon "ProfitAndLoss" reportParams signedOut
  = (Ok (systemFault "ProfitAndLoss"
           (Error "Not authenticated with QuickBooks. Please reconnect.")),
     signedOut).
Proof.
  exact (proj1 (proj1 (proj2
           (getReport_never_throws noon "ProfitAndLoss" reportParams signedOut))
           (Error "Not authenticated with QuickBooks. Please reconnect.")
           signedOut eq_refl)).
Defined.

(** *** The fallback chain *)
















End ServiceProperties.

(* ===================================================================== *)
(** * Further properties                                                  *)
(* ===================================================================== *)

(** ** The intent normaliser, field by field *)

Section NormalisedFields.
Import Js Runtime OpenAI Scenarios MoreScenarios.

Ltac fields :=
  unfold set_filter, set_parameter, filter_of, parameter_of in *;
  cbn [type action entity filters parameters text qboApiCall qboMethod qboData
       sheetsApiCall destination explanation default set_type set_action
       set_entity set_filters set_parameters set_text set_qboApiCall
       set_sheetsApiCall set_explanation from_option id] in *.

(** Each step, on the fields it leaves alone. *)
Ltac untouched step :=
  intros; unfold step;
  repeat match goal with
         | |- context [if ?c then _ else _] => destruct c
         end;
  match goal with i : Intent |- _ => destruct i end; repeat split; reflexivity.

Lemma fillExplanation_keeps (j : Intent) :
  type (fillExplanation j) = type j
  /\ qboApiCall (fillExplanation j) = qboApiCall j
  /\ sheetsApiCall (fillExplanation j) = sheetsApiCall j
  /\ parameters (fillExplanation j) = parameters j
  /\ destination (fillExplanation j) = destination j
  /\ action (fillExplanation j) = action j
  /\ entity (fillExplanation j) = entity j.
Proof. untouched fillExplanation. Qed.

Lemma defaultSheetName_keeps (h : Host) (q : string) (j : Intent) :
  type (defaultSheetName h q j) = type j
  /\ qboApiCall (defaultSheetName h q j) = qboApiCall j
  /\ sheetsApiCall (defaultSheetName h q j) = sheetsApiCall j
  /\ destination (defaultSheetName h q j) = destination j
  /\ action (defaultSheetName h q j) = action j
  /\ entity (defaultSheetName h q j) = entity j
  /\ explanation (defaultSheetName h q j) = explanation j.
Proof. untouched defaultSheetName. Qed.

Lemma inferUpdate_keeps (j : Intent) :
  type (inferUpdate j) = type j
  /\ qboApiCall (inferUpdate j) = qboApiCall j
  /\ destination (inferUpdate j) = destination j
  /\ action (inferUpdate j) = action j
  /\ entity (inferUpdate j) = entity j
  /\ explanation (inferUpdate j) = explanation j.
Proof. untouched inferUpdate. Qed.

Lemma promoteCustom_keeps (j : Intent) :
  qboApiCall (promoteCustom j) = qboApiCall j
  /\ sheetsApiCall (promoteCustom j) = sheetsApiCall j
  /\ parameters (promoteCustom j) = parameters j
  /\ destination (promoteCustom j) = destination j
  /\ action (promoteCustom j) = action j
  /\ entity (promoteCustom j) = entity j
  /\ explanation (promoteCustom j) = explanation j.
Proof. untouched promoteCustom. Qed.

Lemma formatApiCall_keeps (j : Intent) :
  type (formatApiCall j) = type j
  /\ sheetsApiCall (formatApiCall j) = sheetsApiCall j
  /\ parameters (formatApiCall j) = parameters j
  /\ destination (formatApiCall j) = destination j
  /\ action (formatApiCall j) = action j
  /\ entity (formatApiCall j) = entity j
  /\ explanation (formatApiCall j) = explanation j.
Proof. untouched formatApiCall. Qed.

Lemma defaultDates_keeps (h : Host) (j : Intent) :
  type (defaultDates h j) = type j
  /\ qboApiCall (defaultDates h j) = qboApiCall j
  /\ sheetsApiCall (defaultDates h j) = sheetsApiCall j
  /\ destination (defaultDates h j) = destination j
  /\ action (defaultDates h j) = action j
  /\ entity (defaultDates h j) = entity j
  /\ explanation (defaultDates h j) = explanation j.
Proof. untouched defaultDates. Qed.

Lemma ensureRequired_fields (q : string) (i : Intent) :
  type (ensureRequired q i) = Some (or_str (type i) "unknown")
  /\ action (ensureRequired q i) = Some (or_str (action i) "")
  /\ entity (ensureRequired q i) = Some (or_str (entity i) "")
  /\ filters (ensureRequired q i) = Some (default ∅ (filters i))
  /\ parameters (ensureRequired q i) = Some (default ∅ (parameters i))
  /\ qboApiCall (ensureRequired q i) = qboApiCall i
  /\ sheetsApiCall (ensureRequired q i) = sheetsApiCall i
  /\ destination (ensureRequired q i) = destination i
  /\ explanation (ensureRequired q i) = explanation i.
Proof. repeat split; reflexivity. Qed.

Lemma truthy_or_str (o : option string) :
  truthy_str (Some (or_str o "")) = truthy_str o.
Proof.
  destruct o as [s|]; [|reflexivity]. unfold truthy_str, or_str.
  destruct (String.eqb s "") eqn:E; [reflexivity | rewrite E; reflexivity].
Qed.

Lemma truthy_str_slash (s : string) : truthy_str (Some ("/" +:+ s)) = true.
Proof. reflexivity. Qed.

Lemma truthy_qboApiCall_formatted (j : Intent) :
  truthy_str (qboApiCall (formatApiCall j)) = truthy_str (qboApiCall j).
Proof.
  unfold formatApiCall.
  destruct (truthy_str (qboApiCall j)) eqn:E; cbn [andb]; [|exact E].
  destruct (negb (startsWith (tpl (qboApiCall j)) "/")); [|exact E].
  destruct j. reflexivity.
Qed.


(** X2.  The API path of the normalised intent is the model's, with a slash
    put in front when it is non-empty and has none; so a non-empty path
    always starts with a slash, and never with one the normaliser added to a
    path that had it already. *)
Theorem api_path_gets_one_slash (h : Host) (i : Intent) (q : string) :
  let r := validateAndNormalizeIntent h i q in
  qboApiCall r
  = (if truthy_str (qboApiCall i) && negb (startsWith (tpl (qboApiCall i)) "/")
     then Some ("/" +:+ tpl (qboApiCall i)) else qboApiCall i)
  /\ (truthy_str (qboApiCall r) = true -> startsWith (tpl (qboApiCall r)) "/" = true).
Proof.
  intros r.
  assert (E : qboApiCall r = qboApiCall (formatApiCall (ensureRequired q i))).
  { subst r. unfold validateAndNormalizeIntent. cbv zeta.
    rewrite (proj1 (proj2 (fillExplanation_keeps _))).
    rewrite (proj1 (proj2 (defaultSheetName_keeps _ _ _))).
    rewrite (proj1 (proj2 (inferUpdate_keeps _))).
    rewrite (proj1 (promoteCustom_keeps _)).
    unfold formatApiCall.
    rewrite (proj1 (proj2 (defaultDates_keeps _ _))).
    destruct (truthy_str (qboApiCall (ensureRequired q i))
              && negb (startsWith (tpl (qboApiCall (ensureRequired q i))) "/")).
    - destruct (defaultDates h (ensureRequired q i)), i. reflexivity.
    - rewrite (proj1 (proj2 (defaultDates_keeps _ _))). destruct i; reflexivity. }
  split.
  - rewrite E. unfold formatApiCall. destruct i as [ty ac en fi pa te qb qm qd sh de ex].
    cbn [ensureRequired qboApiCall].
    destruct (truthy_str qb && negb (startsWith (tpl qb) "/")); reflexivity.
  - destruct (settled_normalized h i q) as [_ _ Hc _ _ _ _]. fold r in Hc.
    unfold apiCallSettled in Hc. intros Ht. rewrite Ht in Hc. cbn [andb] in Hc.
    apply negb_false_iff in Hc. exact Hc.
Qed.

(** X3.  The type of the normalised intent: custom when the model named an
    API call, of QuickBooks or of Sheets, without giving a type (or giving
    unknown); otherwise the model's type, and unknown when it gave none.  A
    destination alone does not make the intent custom. *)
Theorem normalized_type (h : Host) (i : Intent) (q : string) :
  type (validateAndNormalizeIntent h i q)
  = Some (if (truthy_str (qboApiCall i) || truthy_str (sheetsApiCall i))
             && String.eqb (or_str (type i) "unknown") "unknown"
          then "custom" else or_str (type i) "unknown").
Proof.
  unfold validateAndNormalizeIntent. cbv zeta.
  rewrite (proj1 (fillExplanation_keeps _)).
  rewrite (proj1 (defaultSheetName_keeps _ _ _)).
  rewrite (proj1 (inferUpdate_keeps _)).
  unfold promoteCustom.
  rewrite truthy_qboApiCall_formatted.
  rewrite (proj1 (proj2 (formatApiCall_keeps _))).
  rewrite (proj1 (formatApiCall_keeps _)).
  rewrite (proj1 (defaultDates_keeps _ _)).
  rewrite (proj1 (proj2 (defaultDates_keeps _ _))).
  rewrite (proj1 (proj2 (proj2 (defaultDates_keeps _ _)))).
  destruct i as [ty ac en fi pa te qb qm qd sh de ex].
  cbn [ensureRequired type qboApiCall sheetsApiCall str_is].
  destruct ((truthy_str qb || truthy_str sh) && String.eqb (or_str ty "unknown") "unknown").
  - destruct (formatApiCall _). reflexivity.
  - rewrite (proj1 (formatApiCall_keeps _)), (proj1 (defaultDates_keeps _ _)).
    reflexivity.
Qed.

Lemma parameters_after_dates (h : Host) (j : Intent) (k : string) :
  k <> "usedDefaultDates" ->
  parameter_of (defaultDates h j) k = parameter_of j k.
Proof.
  intros Hk. unfold defaultDates.
  destruct (_ && _); [|reflexivity].
  destruct j. fields. unfold prop. rewrite lookup_insert_ne by congruence. reflexivity.
Qed.

Lemma parameters_after_update (j : Intent) (k : string) :
  k <> "range" -> parameter_of (inferUpdate j) k = parameter_of j k.
Proof.
  intros Hk. unfold inferUpdate.
  destruct (_ && _); [|reflexivity].
  destruct j. fields. unfold prop. rewrite lookup_insert_ne by congruence. reflexivity.
Qed.

Lemma parameters_after_sheetName (h : Host) (q : string) (j : Intent) (k : string) :
  k <> "name" -> parameter_of (defaultSheetName h q j) k = parameter_of j k.
Proof.
  intros Hk. unfold defaultSheetName.
  destruct (_ && _); [|reflexivity].
  destruct j. fields. unfold prop. rewrite lookup_insert_ne by congruence. reflexivity.
Qed.

Lemma parameter_of_eq (a b : Intent) (k : string) :
  parameters a = parameters b -> parameter_of a k = parameter_of b k.
Proof. unfold parameter_of. intros ->. reflexivity. Qed.

Lemma parameter_of_required (q : string) (i : Intent) (k : string) :
  parameter_of (ensureRequired q i) k = parameter_of i k.
Proof. destruct i. reflexivity. Qed.

Lemma filter_of_required (q : string) (i : Intent) (k : string) :
  filter_of (ensureRequired q i) k = filter_of i k.
Proof. destruct i. reflexivity. Qed.

(** X4.  The normaliser adds to the filters and parameters of the model and
    takes nothing away: every filter other than the two dates, and every
    parameter other than the three it may set, reads after normalisation as
    it read before. *)
Theorem normalizer_keeps_other_entries (h : Host) (i : Intent) (q : string) :
  let r := validateAndNormalizeIntent h i q in
  (forall k, k <> "startDate" -> k <> "endDate" -> filter_of r k = filter_of i k)
  /\ (forall k, k <> "usedDefaultDates" -> k <> "range" -> k <> "name" ->
      parameter_of r k = parameter_of i k).
Proof.
  intros r. split.
  - intros k Hs He. subst r. rewrite filter_of_normalized.
    rewrite <- (filter_of_required q i k).
    unfold defaultDates. destruct (_ && _); [|reflexivity].
    destruct (ensureRequired q i). fields. unfold prop.
    rewrite !lookup_insert_ne by congruence. reflexivity.
  - intros k Hd Hr Hn. subst r. unfold validateAndNormalizeIntent. cbv zeta.
    rewrite (parameter_of_eq _ _ k
               (proj1 (proj2 (proj2 (proj2 (fillExplanation_keeps _)))))).
    rewrite parameters_after_sheetName by exact Hn.
    rewrite parameters_after_update by exact Hr.
    rewrite (parameter_of_eq _ _ k (proj1 (proj2 (proj2 (promoteCustom_keeps _))))).
    rewrite (parameter_of_eq _ _ k (proj1 (proj2 (proj2 (formatApiCall_keeps _))))).
    rewrite parameters_after_dates by exact Hd.
    apply parameter_of_required.
Qed.

Lemma normalizer_keeps_other_entries_witness :
  filter_of (validateAndNormalizeIntent tokyo customerReportIntent "p and l") "customer"
  = JStr "Acme"
  /\ parameter_of (validateAndNormalizeIntent tokyo customerReportIntent "p and l")
       "sheetName"
     = JStr "Q1".
Proof.
  split.
  - exact (proj1 (normalizer_keeps_other_entries tokyo customerReportIntent "p and l")
             "customer" ltac:(discriminate) ltac:(discriminate)).
  - exact (proj2 (normalizer_keeps_other_entries tokyo customerReportIntent "p and l")
             "sheetName" ltac:(discriminate) ltac:(discriminate) ltac:(discriminate)).
Defined.

Lemma api_path_gets_one_slash_witness :
  startsWith
    (tpl (qboApiCall (validateAndNormalizeIntent tokyo apiPathIntent "balance sheet")))
    "/" = true.
Proof.
  exact (proj2 (api_path_gets_one_slash tokyo apiPathIntent "balance sheet") eq_refl).
Defined.

(** X5.  A request to create a sheet always leaves the normaliser with a
    non-empty name for it: the one the model gave, else the entity, else the
    name found in the query, else New Sheet. *)
Theorem sheet_name_default (h : Host) (i : Intent) (q : string) :
  str_is (action i) "createSheet" = true ->
  let r := validateAndNormalizeIntent h i q in
  parameter_of r "name"
  = (if truthy (parameter_of i "name") then parameter_of i "name"
     else JStr (or_str (if truthy_str (entity i) then entity i
                        else sheetNameFromQuery h q) "New Sheet"))
  /\ truthy (parameter_of r "name") = true.
Proof.
  intros Ha r.
  assert (E : parameter_of r "name"
              = (if truthy (parameter_of i "name") then parameter_of i "name"
                 else JStr (or_str (if truthy_str (entity i) then entity i
                                    else sheetNameFromQuery h q) "New Sheet"))).
  { subst r. unfold validateAndNormalizeIntent. cbv zeta.
    rewrite (parameter_of_eq _ _ "name"
               (proj1 (proj2 (proj2 (proj2 (fillExplanation_keeps _)))))).
    set (j := inferUpdate _).
    assert (Hp : parameter_of j "name" = parameter_of i "name").
    { subst j. rewrite parameters_after_update by discriminate.
      rewrite (parameter_of_eq _ _ "name" (proj1 (proj2 (proj2 (promoteCustom_keeps _))))).
      rewrite (parameter_of_eq _ _ "name" (proj1 (proj2 (proj2 (formatApiCall_keeps _))))).
      rewrite parameters_after_dates by discriminate.
      apply parameter_of_required. }
    assert (Hact : action j = Some (or_str (action i) "")).
    { subst j.
      rewrite (proj1 (proj2 (proj2 (proj2 (inferUpdate_keeps _))))).
      rewrite (proj1 (proj2 (proj2 (proj2 (proj2 (promoteCustom_keeps _)))))).
      rewrite (proj1 (proj2 (proj2 (proj2 (proj2 (formatApiCall_keeps _)))))).
      rewrite (proj1 (proj2 (proj2 (proj2 (proj2 (defaultDates_keeps _ _)))))).
      reflexivity. }
    assert (Hent : entity j = Some (or_str (entity i) "")).
    { subst j.
      rewrite (proj1 (proj2 (proj2 (proj2 (proj2 (inferUpdate_keeps _)))))).
      rewrite (proj1 (proj2 (proj2 (proj2 (proj2 (proj2 (promoteCustom_keeps _))))))).
      rewrite (proj1 (proj2 (proj2 (proj2 (proj2 (proj2 (formatApiCall_keeps _))))))).
      rewrite (proj1 (proj2 (proj2 (proj2 (proj2 (proj2 (defaultDates_keeps _ _))))))).
      reflexivity. }
    clearbody j. unfold defaultSheetName. rewrite Hact, Hp, Hent.
    apply str_is_inv in Ha. rewrite Ha.
    cbn [or_str String.eqb Ascii.eqb Bool.eqb str_is andb].
    destruct (truthy (parameter_of i "name")) eqn:Et; cbn [negb]; [exact Hp|].
    rewrite truthy_or_str.
    destruct j as [ty ac en fi pa te qb qm qd sh de ex]. fields. unfold prop.
    rewrite lookup_insert_eq. cbn [default from_option id].
    destruct (entity i) as [e|]; cbn [truthy_str or_str]; [|reflexivity].
    destruct (String.eqb e "") eqn:Ee; cbn [negb]; [reflexivity|].
    cbn [or_str]. rewrite Ee. reflexivity. }
  split; [exact E|]. rewrite E.
  destruct (truthy (parameter_of i "name")) eqn:Et; [exact Et|].
  apply truthy_JStr. apply or_str_nonempty. discriminate.
Qed.

Lemma sheet_name_default_witness :
  parameter_of (validateAndNormalizeIntent tokyo newSheetIntent "make a sheet") "name"
  = JStr "New Sheet".
Proof.
  exact (proj1 (sheet_name_default tokyo newSheetIntent "make a sheet" eq_refl)).
Defined.

Lemma sheetsApiCall_normalized (h : Host) (i : Intent) (q : string) :
  sheetsApiCall (validateAndNormalizeIntent h i q)
  = if truthy_str (destination i) && negb (truthy_str (sheetsApiCall i))
    then Some "updateRange" else sheetsApiCall i.
Proof.
  unfold validateAndNormalizeIntent. cbv zeta.
  rewrite (proj1 (proj2 (proj2 (fillExplanation_keeps _)))).
  rewrite (proj1 (proj2 (proj2 (defaultSheetName_keeps _ _ _)))).
  set (j := promoteCustom _).
  assert (Hd : destination j = destination i).
  { subst j.
    rewrite (proj1 (proj2 (proj2 (proj2 (promoteCustom_keeps _))))).
    rewrite (proj1 (proj2 (proj2 (proj2 (formatApiCall_keeps _))))).
    rewrite (proj1 (proj2 (proj2 (proj2 (defaultDates_keeps _ _))))).
    destruct i; reflexivity. }
  assert (Hs : sheetsApiCall j = sheetsApiCall i).
  { subst j.
    rewrite (proj1 (proj2 (promoteCustom_keeps _))).
    rewrite (proj1 (proj2 (formatApiCall_keeps _))).
    rewrite (proj1 (proj2 (proj2 (defaultDates_keeps _ _)))).
    destruct i; reflexivity. }
  clearbody j. unfold inferUpdate. rewrite Hd, Hs.
  destruct (truthy_str (destination i) && negb (truthy_str (sheetsApiCall i)));
    [destruct j; reflexivity | exact Hs].
Qed.

(** X6.  A destination without a sheets call becomes an update of that
    range: the sheets call is set to updateRange and the range parameter to
    the destination, over whatever range the model gave.  A sheets call the
    model did give is kept, and so is its range. *)
Theorem destination_becomes_range_update (h : Host) (i : Intent) (q : string) :
  truthy_str (destination i) = true ->
  let r := validateAndNormalizeIntent h i q in
  (truthy_str (sheetsApiCall i) = false ->
   sheetsApiCall r = Some "updateRange"
   /\ parameter_of r "range" = JStr (tpl (destination i)))
  /\ (truthy_str (sheetsApiCall i) = true ->
      sheetsApiCall r = sheetsApiCall i
      /\ parameter_of r "range" = parameter_of i "range").
Proof.
  intros Hd r.
  assert (Ep : parameter_of r "range"
               = parameter_of
                   (inferUpdate (promoteCustom (formatApiCall
                      (defaultDates h (ensureRequired q i))))) "range").
  { subst r. unfold validateAndNormalizeIntent. cbv zeta.
    rewrite (parameter_of_eq _ _ "range"
               (proj1 (proj2 (proj2 (proj2 (fillExplanation_keeps _)))))).
    apply parameters_after_sheetName. discriminate. }
  set (j := promoteCustom _) in Ep.
  assert (Hdj : destination j = destination i).
  { subst j.
    rewrite (proj1 (proj2 (proj2 (proj2 (promoteCustom_keeps _))))).
    rewrite (proj1 (proj2 (proj2 (proj2 (formatApiCall_keeps _))))).
    rewrite (proj1 (proj2 (proj2 (proj2 (defaultDates_keeps _ _))))).
    destruct i; reflexivity. }
  assert (Hsj : sheetsApiCall j = sheetsApiCall i).
  { subst j.
    rewrite (proj1 (proj2 (promoteCustom_keeps _))).
    rewrite (proj1 (proj2 (formatApiCall_keeps _))).
    rewrite (proj1 (proj2 (proj2 (defaultDates_keeps _ _)))).
    destruct i; reflexivity. }
  assert (Hpj : parameter_of j "range" = parameter_of i "range").
  { subst j.
    rewrite (parameter_of_eq _ _ "range" (proj1 (proj2 (proj2 (promoteCustom_keeps _))))).
    rewrite (parameter_of_eq _ _ "range" (proj1 (proj2 (proj2 (formatApiCall_keeps _))))).
    rewrite parameters_after_dates by discriminate.
    apply parameter_of_required. }
  clearbody j. unfold inferUpdate in Ep. rewrite Hdj, Hsj, Hd in Ep.
  split; intros Hs; (split; [subst r; rewrite sheetsApiCall_normalized, Hd, Hs; reflexivity|]);
    rewrite Ep, Hs; cbn [negb andb].
  - destruct j as [ty ac en fi pa te qb qm qd sh de ex]. fields. unfold prop.
    cbn [destination] in Hdj. rewrite lookup_insert_eq, Hdj. reflexivity.
  - exact Hpj.
Qed.

Lemma destination_becomes_range_update_witness :
  sheetsApiCall (validateAndNormalizeIntent tokyo toRangeIntent "invoices") = Some "updateRange"
  /\ parameter_of (validateAndNormalizeIntent tokyo toRangeIntent "invoices") "range"
     = JStr "Invoices!A1".
Proof.
  exact (proj1 (destination_becomes_range_update tokyo toRangeIntent "invoices" eq_refl)
           eq_refl).
Defined.

Lemma generateExplanation_ignores (x : option string) (j : Intent) :
  generateExplanation (set_explanation x j) = generateExplanation j.
Proof. destruct j. reflexivity. Qed.

(** X7.  An explanation given by the model is kept word for word.  When
    there is none, the explanation is generated from the intent as it stands
    after all other steps, defaults included, not from the model's reply. *)
Theorem explanation_of_normalized (h : Host) (i : Intent) (q : string) :
  let r := validateAndNormalizeIntent h i q in
  (truthy_str (explanation i) = true -> explanation r = explanation i)
  /\ (truthy_str (explanation i) = false -> explanation r = Some (generateExplanation r)).
Proof.
  intros r. subst r. unfold validateAndNormalizeIntent. cbv zeta.
  set (j := defaultSheetName h q _).
  assert (Hx : explanation j = explanation i).
  { subst j.
    rewrite (proj2 (proj2 (proj2 (proj2 (proj2 (proj2 (defaultSheetName_keeps _ _ _))))))).
    rewrite (proj2 (proj2 (proj2 (proj2 (proj2 (inferUpdate_keeps _)))))).
    rewrite (proj2 (proj2 (proj2 (proj2 (proj2 (proj2 (promoteCustom_keeps _))))))).
    rewrite (proj2 (proj2 (proj2 (proj2 (proj2 (proj2 (formatApiCall_keeps _))))))).
    rewrite (proj2 (proj2 (proj2 (proj2 (proj2 (proj2 (defaultDates_keeps _ _))))))).
    destruct i; reflexivity. }
  clearbody j. unfold fillExplanation. rewrite Hx.
  split; intros Ht; rewrite Ht; cbn [negb].
  - exact Hx.
  - rewrite generateExplanation_ignores. destruct j. reflexivity.
Qed.

Lemma explanation_of_normalized_witness :
  explanation (validateAndNormalizeIntent newYork bareReportIntent "profit and loss")
  = Some "Fetch the ProfitAndLoss report from 2024-03-01 to 2024-03-31".
Proof.
  exact (proj2 (explanation_of_normalized newYork bareReportIntent "profit and loss")
           eq_refl).
Defined.

End NormalisedFields.

(** ** Report parameters *)

Section ReportDefaults.
Import Js Runtime Qbo JsDate Scenarios MoreScenarios.

Lemma year_of_era (yoe k : Z) :
  0 <= yoe < 400 -> 0 <= k < 365 ->
  let doe := yoe * 365 + yoe / 4 - yoe / 100 + k in
  (doe - doe / 1460 + doe / 36524 - doe / 146096) / 365 = yoe.
Proof. intros H Hk doe. subst doe. Z.div_mod_to_equations. lia. Qed.

(** The day before 1 January is 31 December of the year before. *)
Lemma day_before_new_year (y : Z) :
  civil_from_days (days_from_civil y 1 1 - 1) = (y - 1, 12, 31).
Proof.
  unfold days_from_civil. cbv zeta.
  change (1 <=? 2) with true. change (1 >? 2) with false. cbv iota.
  change ((153 * (1 + 9) + 2) / 5 + 1 - 1) with 306.
  set (era := (y - 1) / 400). set (yoe := y - 1 - era * 400).
  assert (Hyoe : 0 <= yoe < 400)
    by (subst yoe era; pose proof (Z.mod_pos_bound (y - 1) 400 ltac:(lia));
        rewrite Z.mod_eq in * by lia; lia).
  set (doe := yoe * 365 + yoe / 4 - yoe / 100 + 305).
  assert (Hdoe : 0 <= doe < 146097) by (subst doe; Z.div_mod_to_equations; lia).
  unfold civil_from_days. cbv zeta.
  replace (era * 146097 + (yoe * 365 + yoe / 4 - yoe / 100 + 306) - 719468 - 1 + 719468)
    with (doe + era * 146097) by (subst doe; ring).
  rewrite Z.div_add by lia. rewrite (Z.div_small doe) by lia.
  replace (doe + era * 146097 - (0 + era) * 146097) with doe by ring.
  pose proof (year_of_era yoe 305 Hyoe ltac:(lia)) as Hy. cbv zeta in Hy. fold doe in Hy.
  rewrite Hy.
  replace (doe - (365 * yoe + yoe / 4 - yoe / 100)) with 305 by (subst doe; ring).
  change ((5 * 305 + 2) / 153) with 9. change (9 <? 10) with true. cbv iota.
  change (9 + 3 <=? 2) with false. cbv iota.
  change (305 - (153 * 9 + 2) / 5 + 1) with 31. change (9 + 3) with 12.
  f_equal. f_equal. subst yoe. ring.
Qed.

(** 1 January itself. *)
Lemma new_year (y : Z) :
  civil_from_days (days_from_civil y 1 1) = (y, 1, 1).
Proof. exact (proj1 (around_first_of_month y 1 ltac:(lia))). Qed.

(** X8.  A report requested without a start date starts with the current
    year: on 1 January at and west of Greenwich, and, the first of January
    being taken at local midnight and written as a GMT date, on 31 December
    of the year before east of it.  Without an end date the report ends
    today, by the GMT calendar. *)
Theorem report_year_to_date (h : Host) (reportType : string) (params : Params) :
  let p := withDefaults h reportType params in
  let year := getFullYear (tzOffsetMinutes h) (now h) in
  (truthy_str (start_date params) = false -> -1440 < tzOffsetMinutes h <= 0 ->
   start_date p = Some (formatYMD year 1 1))
  /\ (truthy_str (start_date params) = false -> 0 < tzOffsetMinutes h <= 1440 ->
      start_date p = Some (formatYMD (year - 1) 12 31))
  /\ (truthy_str (end_date params) = false ->
      end_date p = Some (formatDate_GMT (now h)))
  /\ (truthy_str (start_date params) = true -> start_date p = start_date params)
  /\ (truthy_str (end_date params) = true -> end_date p = end_date params).
Proof.
  intros p year. subst p. unfold withDefaults. cbv zeta. cbn [start_date end_date].
  repeat split; intros Hs; try intros Htz; rewrite Hs; cbn [negb]; try reflexivity.
  - unfold formatDate_GMT. rewrite newDate_day_west by exact Htz.
    rewrite MakeDay_first by lia. unfold formatDay.
    change (0 + 1) with 1. rewrite new_year. reflexivity.
  - unfold formatDate_GMT. rewrite newDate_day_east by exact Htz.
    rewrite MakeDay_first by lia. unfold formatDay.
    change (0 + 1) with 1. rewrite day_before_new_year. reflexivity.
Qed.

Lemma report_year_to_date_witness :
  start_date (withDefaults tokyo "BalanceSheet" (mkParams None None None None None))
  = Some "2023-12-31"
  /\ start_date (withDefaults newYork "BalanceSheet" (mkParams None None None None None))
     = Some "2024-01-01".
Proof.
  split.
  - exact (proj1 (proj2 (report_year_to_date tokyo "BalanceSheet"
                           (mkParams None None None None None)))
             eq_refl ltac:(vm_compute; split; [reflexivity | discriminate])).
  - exact (proj1 (report_year_to_date newYork "BalanceSheet"
                    (mkParams None None None None None))
             eq_refl ltac:(vm_compute; split; [reflexivity | discriminate])).
Defined.

End ReportDefaults.
(** ** API calls: before and after the request *)

Section ApiCallEdges.
Import Js Runtime Qbo Scenarios MoreScenarios.

Ltac reduce :=
  cbn [fst snd fetchCount refreshCount canRefresh refreshScript fetchScript
       hasAccess companyId apiCalls slept actionLog code andb orb negb] in *.






(** X11.  An exception that mentions the network never leaves [makeApiCall]
    as it is: it is replaced by the connectivity message, and that message
    does not contain the word as the test spells it.  So no error of
    [makeApiCall] has the word network, in lower case, in its message. *)
Theorem makeApiCall_rewrites_network_errors (endpoint method : string)
  (data : option Params) :
  outcomes (makeApiCall endpoint method data) (fun _ => True)
    (fun e => includes (message e) "network" = false).
Proof.
  unfold makeApiCall.
  apply (outcomes_bind _ _ (fun _ => True)); [intros w; exact I|]. intros _ _.
  apply (outcomes_try _ _ _ (fun _ => True)).
  - intros w. destruct (fst _); exact I.
  - intros e _. destruct (includes (message e) "network") eqn:E.
    + apply outcomes_throw. reflexivity.
    + apply outcomes_throw. exact E.
Qed.

(** X12.  [callQuickBooksApi] goes by the status of the response.  With a
    status from 200 to 299 it returns the parsed body, and a body that is
    not JSON is a syntax error.  With any other status it throws an error
    whose message is the JSON text of an object holding the status code and a
    message, whatever the body: a body that is no JSON, or has no fault, or a
    fault without errors, costs the detail and nothing else. *)
Theorem callQuickBooksApi_by_status (h : Host) (endpoint method : string)
  (data : option Params) (w w' : World) (r : Response) :
  makeApiCall endpoint method data w = (Ok r, w') ->
  let run := callQuickBooksApi h endpoint method data w in
  snd run = w'
  /\ ((200 <=? code r) && (code r <? 300) = true ->
      fst run = match content r with
                | Json v => Ok v
                | NotJson msg => Throw (mkError "SyntaxError" msg)
                end)
  /\ ((200 <=? code r) && (code r <? 300) = false ->
      exists fields detail,
        fst run = Throw (Error (JSON_stringify h (JObj fields)))
        /\ assoc "statusCode" fields = Some (JNum (code r))
        /\ assoc "message" fields = Some detail
        /\ truthy detail = true).
Proof.
  intros H run. subst run. unfold callQuickBooksApi, bind. rewrite H.
  destruct ((200 <=? code r) && (code r <? 300)) eqn:E.
  - repeat split; try discriminate.
    + destruct (content r); reflexivity.
    + intros _. destruct (content r); reflexivity.
  - cbn zeta. unfold throw. cbn [fst snd].
    split; [reflexivity|]. split; [discriminate|]. intros _.
    assert (Hplain : truthy (JStr ("QuickBooks API error: " +:+ Z_to_string (code r))) = true)
      by reflexivity.
    destruct (content r) as [errorResponse|msg].
    2: { eexists _, _. repeat split; reflexivity. }
    destruct (readProp h errorResponse "Fault") as [fault|e].
    2: { eexists _, _. repeat split; reflexivity. }
    destruct (truthy fault).
    2: { eexists _, _. repeat split; reflexivity. }
    destruct (readProp h (getProp (inherited h) fault "Error") "0") as [first|e].
    2: { eexists _, _. repeat split; reflexivity. }
    destruct (readProp h first "Message") as [m|e].
    2: { eexists _, _. repeat split; reflexivity. }
    eexists _, _. repeat split; try reflexivity.
    unfold or_else. destruct (truthy m) eqn:Em; [exact Em | exact Hplain].
Qed.

Lemma callQuickBooksApi_by_status_witness :
  exists fields detail,
    fst (callQuickBooksApi noon "query?query=x" "GET" None forbidden)
    = Throw (Error (JSON_stringify noon (JObj fields)))
    /\ assoc "statusCode" fields = Some (JNum 403)
    /\ assoc "message" fields = Some detail
    /\ truthy detail = true.
Proof.
  exact (proj2 (proj2
           (callQuickBooksApi_by_status noon "query?query=x" "GET" None forbidden
              (snd (makeApiCall "query?query=x" "GET" None forbidden))
              _ eq_refl)) eq_refl).
Defined.

End ApiCallEdges.
(** ** The cost of a report in API calls *)

Section ApiBudget.
Import Js Runtime Qbo QboMore Scenarios MoreScenarios.

Lemma completes_ret {A : Type} (f : World -> nat) (a : A) : completes f 0 0 (ret a).
Proof. intros w. split; [exists a; reflexivity | cbn; lia]. Qed.

Lemma completes_bind {A B : Type} (f : World -> nat) (lo hi lo' hi' : nat) (m : M A)
  (k : A -> M B) :
  completes f lo hi m -> (forall a, completes f lo' hi' (k a)) ->
  completes f (lo + lo') (hi + hi') (bind m k).
Proof.
  intros Hm Hk w. unfold bind. destruct (Hm w) as [[a Ha] Hb].
  destruct (m w) as [[a'|e] w1]; cbn [fst snd] in *; [|discriminate].
  destruct (Hk a' w1) as [Hr Hc]. split; [exact Hr | lia].
Qed.

Lemma completes_try {A : Type} (f : World -> nat) (lo hi hi' : nat) (m : M A)
  (handler : JsError -> M A) :
  grows f lo hi m -> (forall e, completes f 0 hi' (handler e)) ->
  completes f lo (hi + hi') (try_catch m handler).
Proof.
  intros Hm Hk w. unfold try_catch. specialize (Hm w).
  destruct (m w) as [[a|e] w1]; cbn [fst snd] in *.
  - split; [exists a; reflexivity | lia].
  - destruct (Hk e w1) as [Hr Hc]. split; [exact Hr | lia].
Qed.

Lemma completes_grows {A : Type} (f : World -> nat) (lo hi : nat) (m : M A) :
  completes f lo hi m -> grows f lo hi m.
Proof. intros H w. apply H. Qed.

Lemma completes_weaken {A : Type} (f : World -> nat) (lo hi lo' hi' : nat) (m : M A) :
  completes f lo hi m -> (lo' <= lo)%nat -> (hi <= hi')%nat -> completes f lo' hi' m.
Proof. intros H Hl Hh w. destruct (H w) as [Hr Hc]. split; [exact Hr | lia]. Qed.

Lemma completes_log {A : Type} (f : World -> nat) (lo hi : nat) (a q r : string)
  (m : M A) :
  preserves f (logAction a q r) ->
  completes f lo hi m -> completes f lo hi (logAction a q r ;; m).
Proof.
  intros Hl Hm.
  apply (completes_bind f 0 0 lo hi); [|intros _; exact Hm].
  intros w. split; [exists tt; reflexivity | rewrite Hl; lia].
Qed.

Lemma grows_log {A : Type} (f : World -> nat) (lo hi : nat) (a q r : string) (m : M A) :
  preserves f (logAction a q r) ->
  grows f lo hi m -> grows f lo hi (logAction a q r ;; m).
Proof.
  intros Hl Hm w. unfold bind, logAction at 1. cbn [fst snd].
  specialize (Hm (snd (logAction a q r w))). rewrite Hl in Hm. exact Hm.
Qed.

(** One call of [callQuickBooksApi] is one call of [makeApiCall]. *)
Lemma callQuickBooksApi_apiCalls (h : Host) (endpoint method : string)
  (data : option Params) :
  grows apiCalls 1 1 (callQuickBooksApi h endpoint method data).
Proof.
  unfold callQuickBooksApi.
  apply (grows_bind apiCalls 1 1 0); [apply makeApiCall_apiCalls|].
  intros r. apply grows_preserves. cbn zeta.
  destruct ((200 <=? code r) && (code r <? 300)).
  - destruct (content r); [apply preserves_ret | apply preserves_throw].
  - apply preserves_throw.
Qed.

Lemma callQuickBooksApi_fetchCount (h : Host) (endpoint method : string)
  (data : option Params) :
  grows fetchCount 0 2 (callQuickBooksApi h endpoint method data).
Proof.
  unfold callQuickBooksApi.
  apply (grows_bind fetchCount 0 2 0); [apply makeApiCall_fetchCount|].
  intros r. apply grows_preserves. cbn zeta.
  destruct ((200 <=? code r) && (code r <? 300)).
  - destruct (content r); [apply preserves_ret | apply preserves_throw].
  - apply preserves_throw.
Qed.

Lemma callQuickBooksApi_slept (h : Host) (endpoint method : string)
  (data : option Params) :
  preserves slept (callQuickBooksApi h endpoint method data).
Proof.
  unfold callQuickBooksApi.
  apply preserves_bind; [apply makeApiCall_slept|].
  intros r. cbn zeta.
  destruct ((200 <=? code r) && (code r <? 300)).
  - destruct (content r); [apply preserves_ret | apply preserves_throw].
  - apply preserves_throw.
Qed.

Lemma queryQuickBooks_apiCalls (h : Host) (query : string) :
  grows apiCalls 1 1 (queryQuickBooks h query).
Proof. apply callQuickBooksApi_apiCalls. Qed.

Lemma queryQuickBooks_fetchCount (h : Host) (query : string) :
  grows fetchCount 0 2 (queryQuickBooks h query).
Proof. apply callQuickBooksApi_fetchCount. Qed.

Lemma queryQuickBooks_slept (h : Host) (query : string) :
  preserves slept (queryQuickBooks h query).
Proof. apply callQuickBooksApi_slept. Qed.

(** One attempt of the basic report: one query, and it always returns. *)
Lemma tryTransactions_cost (h : Host)
  (entityName rowLabel logCategory logMessage : string) (params : Params)
  (tally : Tally h) :
  completes apiCalls 1 1
    (tryTransactions h entityName rowLabel logCategory logMessage params tally)
  /\ completes fetchCount 0 2
       (tryTransactions h entityName rowLabel logCategory logMessage params tally)
  /\ preserves slept
       (tryTransactions h entityName rowLabel logCategory logMessage params tally).
Proof.
  unfold tryTransactions. split; [|split].
  - apply (completes_try apiCalls 1 1 0).
    + apply (grows_bind apiCalls 1 1 0); [apply queryQuickBooks_apiCalls|].
      intros response. apply grows_preserves.
      apply preserves_bind; [apply preserves_lift|].
      intros [sum|]; apply preserves_ret.
    + intros e. apply completes_log; [intros w; reflexivity | apply completes_ret].
  - apply (completes_try fetchCount 0 2 0).
    + apply (grows_bind fetchCount 0 2 0); [apply queryQuickBooks_fetchCount|].
      intros response. apply grows_preserves.
      apply preserves_bind; [apply preserves_lift|].
      intros [sum|]; apply preserves_ret.
    + intros e. apply completes_log; [intros w; reflexivity | apply completes_ret].
  - apply preserves_try.
    + apply preserves_bind; [apply queryQuickBooks_slept|].
      intros response. apply preserves_bind; [apply preserves_lift|].
      intros [sum|]; apply preserves_ret.
    + intros e. apply preserves_bind; [apply logAction_slept|].
      intros _. apply preserves_ret.
Qed.

Lemma unlessDone_cost (h : Host)
  (entityName rowLabel logCategory logMessage : string) (params : Params)
  (tally : Tally h) :
  completes apiCalls 0 1
    (unlessDone (tryTransactions h entityName rowLabel logCategory logMessage params)
       tally)
  /\ completes fetchCount 0 2
       (unlessDone (tryTransactions h entityName rowLabel logCategory logMessage params)
          tally)
  /\ preserves slept
       (unlessDone (tryTransactions h entityName rowLabel logCategory logMessage params)
          tally).
Proof.
  unfold unlessDone.
  destruct (tryTransactions_cost h entityName rowLabel logCategory logMessage params tally)
    as (Ha & Hf & Hs).
  destruct (negb (success tally)).
  - split; [|split]; [eapply completes_weaken; [exact Ha | lia | lia] | exact Hf | exact Hs].
  - split; [|split];
      [eapply completes_weaken; [apply completes_ret | lia | lia]
      | eapply completes_weaken; [apply completes_ret | lia | lia]
      | apply preserves_ret].
Qed.

Lemma basic_report_completes (h : Host) (params : Params) :
  completes apiCalls 2 6 (getBasicTransactionPLReport h params)
  /\ completes fetchCount 0 12 (getBasicTransactionPLReport h params)
  /\ preserves slept (getBasicTransactionPLReport h params).
Proof.
  split; [|split].
  - unfold getBasicTransactionPLReport.
    apply completes_log; [intros ?; reflexivity|].
    apply (completes_try apiCalls 2 6 0);
      [|intros e; apply completes_log; [intros ?; reflexivity | apply completes_ret]].
    apply completes_grows. cbn zeta.
    apply (completes_bind apiCalls 1 1 1 5); [apply tryTransactions_cost|]. intros i1.
    apply (completes_bind apiCalls 0 1 1 4); [apply unlessDone_cost|]. intros i2.
    apply (completes_bind apiCalls 0 1 1 3); [apply unlessDone_cost|]. intros i3.
    apply (completes_bind apiCalls 1 1 0 2); [apply tryTransactions_cost|]. intros e1.
    apply (completes_bind apiCalls 0 1 0 1); [apply unlessDone_cost|]. intros e2.
    apply (completes_bind apiCalls 0 1 0 0); [apply unlessDone_cost|]. intros e3.
    apply completes_ret.
  - unfold getBasicTransactionPLReport.
    apply completes_log; [intros ?; reflexivity|].
    apply (completes_try fetchCount 0 12 0);
      [|intros e; apply completes_log; [intros ?; reflexivity | apply completes_ret]].
    apply completes_grows. cbn zeta.
    apply (completes_bind fetchCount 0 2 0 10); [apply tryTransactions_cost|]. intros i1.
    apply (completes_bind fetchCount 0 2 0 8); [apply unlessDone_cost|]. intros i2.
    apply (completes_bind fetchCount 0 2 0 6); [apply unlessDone_cost|]. intros i3.
    apply (completes_bind fetchCount 0 2 0 4); [apply tryTransactions_cost|]. intros e1.
    apply (completes_bind fetchCount 0 2 0 2); [apply unlessDone_cost|]. intros e2.
    apply (completes_bind fetchCount 0 2 0 0); [apply unlessDone_cost|]. intros e3.
    apply completes_ret.
  - unfold getBasicTransactionPLReport.
    apply preserves_bind; [apply logAction_slept|]. intros _.
    apply preserves_try;
      [|intros e; apply preserves_bind; [apply logAction_slept|];
        intros _; apply preserves_ret].
    cbn zeta.
    apply preserves_bind; [apply tryTransactions_cost|]. intros i1.
    apply preserves_bind; [apply unlessDone_cost|]. intros i2.
    apply preserves_bind; [apply unlessDone_cost|]. intros i3.
    apply preserves_bind; [apply tryTransactions_cost|]. intros e1.
    apply preserves_bind; [apply unlessDone_cost|]. intros e2.
    apply preserves_bind; [apply unlessDone_cost|]. intros e3.
    apply preserves_ret.
Qed.


(** The account queries of the alternative report: the second is made only
    when the first has returned. *)
Lemma alternative_report_cost (h : Host) (params : Params) :
  grows apiCalls 1 2 (getAlternativeProfitAndLossReport h params)
  /\ grows fetchCount 0 4 (getAlternativeProfitAndLossReport h params)
  /\ preserves slept (getAlternativeProfitAndLossReport h params).
Proof.
  unfold getAlternativeProfitAndLossReport. cbn zeta. split; [|split].
  - apply grows_log; [intros ?; reflexivity|].
    apply (grows_try apiCalls 1 2 0).
    + apply (grows_bind apiCalls 1 1 1); [apply queryQuickBooks_apiCalls|]. intros a.
      apply (grows_bind apiCalls 0 1 0);
        [eapply grows_weaken; [apply queryQuickBooks_apiCalls | lia | lia]|].
      intros b. apply grows_preserves.
      apply preserves_bind; [apply preserves_lift|]. intros c.
      apply preserves_bind; [apply preserves_lift|]. intros d. apply preserves_ret.
    + intros e. apply grows_preserves.
      apply preserves_bind; [intros ?; reflexivity|]. intros _. apply preserves_throw.
  - apply grows_log; [intros ?; reflexivity|].
    apply (grows_try fetchCount 0 4 0).
    + apply (grows_bind fetchCount 0 2 2); [apply queryQuickBooks_fetchCount|]. intros a.
      apply (grows_bind fetchCount 0 2 0); [apply queryQuickBooks_fetchCount|].
      intros b. apply grows_preserves.
      apply preserves_bind; [apply preserves_lift|]. intros c.
      apply preserves_bind; [apply preserves_lift|]. intros d. apply preserves_ret.
    + intros e. apply grows_preserves.
      apply preserves_bind; [intros ?; reflexivity|]. intros _. apply preserves_throw.
  - apply preserves_bind; [apply logAction_slept|]. intros _.
    apply preserves_try.
    + apply preserves_bind; [apply queryQuickBooks_slept|]. intros a.
      apply preserves_bind; [apply queryQuickBooks_slept|]. intros b.
      apply preserves_bind; [apply preserves_lift|]. intros c.
      apply preserves_bind; [apply preserves_lift|]. intros d. apply preserves_ret.
    + intros e. apply preserves_bind; [apply logAction_slept|]. intros _.
      apply preserves_throw.
Qed.

Lemma callWithRetry_fetchCount (remaining : nat) (retries : Z) (ep : string)
  (p : Params) :
  grows fetchCount 0 (2 * remaining) (callWithRetry remaining retries ep p).
Proof.
  revert retries. induction remaining as [|n IH]; intros retries.
  - apply grows_preserves, preserves_ret.
  - cbn [callWithRetry].
    eapply grows_weaken; [apply (grows_try fetchCount 0 2 (2 * n)) | lia | lia].
    + apply (grows_bind fetchCount 0 2 0); [apply makeApiCall_fetchCount|].
      intros r. apply grows_preserves, preserves_ret.
    + intros e. cbn zeta. destruct (retries + 1 >=? maxRetries).
      * eapply grows_weaken; [apply grows_preserves, preserves_throw | lia | lia].
      * apply (grows_bind fetchCount 0 0 (2 * n));
          [apply grows_preserves; intros ?; reflexivity|].
        intros _. apply IH.
Qed.

Lemma getReport_fetchCount (h : Host) (reportType : string) (params : Params) :
  grows fetchCount 0 6 (getReport h reportType params).
Proof.
  unfold getReport.
  apply (grows_try fetchCount 0 6 0); [|intros e; apply grows_preserves, preserves_ret].
  unfold fetchReport.
  apply (grows_bind fetchCount 0 0 6); [apply grows_preserves; intros ?; reflexivity|].
  intros a. destruct (negb a).
  - eapply grows_weaken; [apply grows_preserves, preserves_throw | lia | lia].
  - cbn zeta. apply (grows_bind fetchCount 0 6 0).
    + apply (callWithRetry_fetchCount (Z.to_nat maxRetries)).
    + intros r. apply grows_preserves. apply readResponse_quiet.
Qed.

Lemma getReport_cost (h : Host) (reportType : string) (params : Params) (w : World) :
  let w' := snd (getReport h reportType params w) in
  exists n, (n <= 3)%nat
            /\ apiCalls w' = (apiCalls w + n)%nat
            /\ slept w' = backoff n ++ slept w.
Proof.
  unfold getReport, try_catch.
  pose proof (fetchReport_run h reportType params w) as H. cbn zeta in H.
  destruct (fetchReport h reportType params w) as [[v|e] w1]; exact H.
Qed.

(** What follows the report call in the direct strategy. *)
Lemma afterReport_cost (h : Host) (params : Params) (reportResponse : jsval) :
  let rest :=
    (if isSystemFault h reportResponse then
       let message := getProp (inherited h) reportResponse "message" in
       logAction "P&L Error" "Got SystemFault from getReport" (toStr message) ;;
       throw (ErrorOf message)
     else ret tt) ;;
    header <- lift (readProp h reportResponse "Header") ;;
    rows <- lift (readProp h reportResponse "Rows") ;;
    logAction "P&L Response" "Structure check" (structureCheck header rows) ;;
    if negb (truthy reportResponse) || negb (typeofObject reportResponse)
    then throw (Error "Invalid response format from QuickBooks API")
    else
      if truthy (faultOf h reportResponse) then
        detail <- lift (firstFaultMessage h (faultOf h reportResponse) "Error" "Message") ;;
        throw (Error ("QuickBooks API error: " +:+ detail))
      else if negb (rowsPresent h reportResponse) then
        logAction "P&L Fallback" "Missing expected structure"
          "Falling back to alternative" ;;
        getAlternativeProfitAndLossReport h params
      else ret reportResponse in
  grows apiCalls 0 2 rest /\ grows fetchCount 0 4 rest /\ preserves slept rest.
Proof.
  destruct (alternative_report_cost h params) as (Ha & Hf & Hs).
  cbn zeta. split; [|split].
  - apply (grows_bind apiCalls 0 0 2).
    { apply grows_preserves. destruct (isSystemFault h reportResponse);
        [apply preserves_bind; [intros ?; reflexivity | intros _; apply preserves_throw]
        | apply preserves_ret]. }
    intros _. apply (grows_bind apiCalls 0 0 2); [apply grows_preserves, preserves_lift|].
    intros header. apply (grows_bind apiCalls 0 0 2); [apply grows_preserves, preserves_lift|].
    intros rows. apply grows_log; [intros ?; reflexivity|].
    destruct (_ || _);
      [eapply grows_weaken; [apply grows_preserves, preserves_throw | lia | lia]|].
    destruct (truthy (faultOf h reportResponse)).
    { eapply grows_weaken;
        [apply grows_preserves, preserves_bind;
           [apply preserves_lift | intros ?; apply preserves_throw] | lia | lia]. }
    destruct (negb (rowsPresent h reportResponse)).
    + apply grows_log; [intros ?; reflexivity|].
      eapply grows_weaken; [exact Ha | lia | lia].
    + eapply grows_weaken; [apply grows_preserves, preserves_ret | lia | lia].
  - apply (grows_bind fetchCount 0 0 4).
    { apply grows_preserves. destruct (isSystemFault h reportResponse);
        [apply preserves_bind; [intros ?; reflexivity | intros _; apply preserves_throw]
        | apply preserves_ret]. }
    intros _. apply (grows_bind fetchCount 0 0 4); [apply grows_preserves, preserves_lift|].
    intros header. apply (grows_bind fetchCount 0 0 4); [apply grows_preserves, preserves_lift|].
    intros rows. apply grows_log; [intros ?; reflexivity|].
    destruct (_ || _);
      [eapply grows_weaken; [apply grows_preserves, preserves_throw | lia | lia]|].
    destruct (truthy (faultOf h reportResponse)).
    { eapply grows_weaken;
        [apply grows_preserves, preserves_bind;
           [apply preserves_lift | intros ?; apply preserves_throw] | lia | lia]. }
    destruct (negb (rowsPresent h reportResponse)).
    + apply grows_log; [intros ?; reflexivity|]. exact Hf.
    + eapply grows_weaken; [apply grows_preserves, preserves_ret | lia | lia].
  - apply preserves_bind.
    { destruct (isSystemFault h reportResponse);
        [apply preserves_bind; [apply logAction_slept | intros _; apply preserves_throw]
        | apply preserves_ret]. }
    intros _. apply preserves_bind; [apply preserves_lift|].
    intros header. apply preserves_bind; [apply preserves_lift|].
    intros rows. apply preserves_bind; [apply logAction_slept|]. intros _.
    destruct (_ || _); [apply preserves_throw|].
    destruct (truthy (faultOf h reportResponse)).
    { apply preserves_bind; [apply preserves_lift | intros ?; apply preserves_throw]. }
    destruct (negb (rowsPresent h reportResponse)).
    + apply preserves_bind; [apply logAction_slept|]. intros _. exact Hs.
    + apply preserves_ret.
Qed.

Lemma fallbackReport_cost (h : Host) (params : Params) (error : JsError) :
  grows apiCalls 0 8 (fallbackReport h params error)
  /\ grows fetchCount 0 16 (fallbackReport h params error)
  /\ preserves slept (fallbackReport h params error).
Proof.
  destruct (alternative_report_cost h params) as (Ha & Hf & Hs).
  unfold fallbackReport. split; [|split].
  - apply (grows_try apiCalls 0 2 6).
    + apply grows_log; [intros ?; reflexivity|].
      eapply grows_weaken; [exact Ha | lia | lia].
    + intros e. apply grows_log; [intros ?; reflexivity|].
      apply (grows_try apiCalls 0 6 0).
      * apply completes_grows. eapply completes_weaken; [apply basic_report_completes | lia | lia].
      * intros e'. apply grows_preserves.
        apply preserves_bind; [intros ?; reflexivity | intros _; apply preserves_throw].
  - apply (grows_try fetchCount 0 4 12).
    + apply grows_log; [intros ?; reflexivity|]. exact Hf.
    + intros e. apply grows_log; [intros ?; reflexivity|].
      apply (grows_try fetchCount 0 12 0).
      * apply completes_grows. apply basic_report_completes.
      * intros e'. apply grows_preserves.
        apply preserves_bind; [intros ?; reflexivity | intros _; apply preserves_throw].
  - apply preserves_try.
    + apply preserves_bind; [apply logAction_slept | intros _; exact Hs].
    + intros e. apply preserves_bind; [apply logAction_slept|]. intros _.
      apply preserves_try.
      * apply basic_report_completes.
      * intros e'. apply preserves_bind; [apply logAction_slept|].
        intros _. apply preserves_throw.
Qed.

Lemma onDirectFailure_cost (h : Host) (params : Params) (error : JsError) :
  grows apiCalls 0 8 (onDirectFailure h params error)
  /\ grows fetchCount 0 16 (onDirectFailure h params error)
  /\ preserves slept (onDirectFailure h params error).
Proof.
  destruct (fallbackReport_cost h params error) as (Ha & Hf & Hs).
  unfold onDirectFailure. split; [|split].
  - apply grows_log; [intros ?; reflexivity|].
    destruct (isAuthenticationError error);
      [eapply grows_weaken; [apply grows_preserves, preserves_throw | lia | lia]|].
    destruct (isPermissionError error);
      [eapply grows_weaken; [apply grows_preserves, preserves_throw | lia | lia]|].
    exact Ha.
  - apply grows_log; [intros ?; reflexivity|].
    destruct (isAuthenticationError error);
      [eapply grows_weaken; [apply grows_preserves, preserves_throw | lia | lia]|].
    destruct (isPermissionError error);
      [eapply grows_weaken; [apply grows_preserves, preserves_throw | lia | lia]|].
    exact Hf.
  - apply preserves_bind; [apply logAction_slept|]. intros _.
    destruct (isAuthenticationError error); [apply preserves_throw|].
    destruct (isPermissionError error); [apply preserves_throw|].
    exact Hs.
Qed.

Lemma getReport_apiCalls (h : Host) (reportType : string) (params : Params) :
  grows apiCalls 0 3 (getReport h reportType params).
Proof.
  intros w. destruct (getReport_cost h reportType params w) as (n & Hn & Ha & _).
  cbn zeta in Ha. lia.
Qed.

(** Waiting at most twice, as the retry loop does, followed or preceded by
    steps that do not wait. *)
Lemma waits_then {A B : Type} (m : M A) (k : A -> M B) :
  (forall w, exists n, (n <= 3)%nat /\ slept (snd (m w)) = backoff n ++ slept w) ->
  (forall a, preserves slept (k a)) ->
  forall w, exists n, (n <= 3)%nat /\ slept (snd (bind m k w)) = backoff n ++ slept w.
Proof.
  intros Hm Hk w. unfold bind. destruct (Hm w) as (n & Hn & Hs).
  exists n. split; [exact Hn|].
  destruct (m w) as [[a|e] w1]; cbn [snd] in *; [rewrite Hk|]; exact Hs.
Qed.

Lemma waits_caught {A : Type} (m : M A) (handler : JsError -> M A) :
  (forall w, exists n, (n <= 3)%nat /\ slept (snd (m w)) = backoff n ++ slept w) ->
  (forall e, preserves slept (handler e)) ->
  forall w, exists n, (n <= 3)%nat
                      /\ slept (snd (try_catch m handler w)) = backoff n ++ slept w.
Proof.
  intros Hm Hk w. unfold try_catch. destruct (Hm w) as (n & Hn & Hs).
  exists n. split; [exact Hn|].
  destruct (m w) as [[a|e] w1]; cbn [snd] in *; [|rewrite Hk]; exact Hs.
Qed.

Lemma waits_logged {A : Type} (a q r : string) (m : M A) :
  (forall w, exists n, (n <= 3)%nat /\ slept (snd (m w)) = backoff n ++ slept w) ->
  forall w, exists n, (n <= 3)%nat
                      /\ slept (snd ((logAction a q r ;; m) w)) = backoff n ++ slept w.
Proof.
  intros Hm w. unfold bind, logAction at 1. cbn [fst snd].
  match goal with |- context [m ?w0] => destruct (Hm w0) as (n & Hn & Hs) end.
  exists n. split; [exact Hn | exact Hs].
Qed.

(** X14.  A profit and loss request costs at most thirteen API calls, that
    is at most twenty-six requests: three for the report itself, two for the
    account queries when the report has no rows, and, when that fails, two
    more for the account queries and six for the basic report.  It waits at
    most twice, two and four seconds, and only between the attempts at the
    report. *)
Theorem profit_and_loss_cost (h : Host) (params : Params) (w : World) :
  let w' := snd (getProfitAndLossReport h params w) in
  (apiCalls w <= apiCalls w' <= apiCalls w + 13)%nat
  /\ (fetchCount w <= fetchCount w' <= fetchCount w + 26)%nat
  /\ exists n, (n <= 3)%nat /\ slept w' = backoff n ++ slept w.
Proof.
  assert (Ha : grows apiCalls 0 13 (getProfitAndLossReport h params)).
  { unfold getProfitAndLossReport. cbn zeta.
    apply (grows_try apiCalls 0 5 8); [|intros e; apply onDirectFailure_cost].
    apply grows_log; [intros ?; reflexivity|]. unfold directReport.
    apply (grows_bind apiCalls 0 3 2); [apply getReport_apiCalls|].
    intros reportResponse. apply afterReport_cost. }
  assert (Hf : grows fetchCount 0 26 (getProfitAndLossReport h params)).
  { unfold getProfitAndLossReport. cbn zeta.
    apply (grows_try fetchCount 0 10 16); [|intros e; apply onDirectFailure_cost].
    apply grows_log; [intros ?; reflexivity|]. unfold directReport.
    apply (grows_bind fetchCount 0 6 4); [apply getReport_fetchCount|].
    intros reportResponse. apply afterReport_cost. }
  assert (Hs : forall w, exists n,
               (n <= 3)%nat
               /\ slept (snd (getProfitAndLossReport h params w)) = backoff n ++ slept w).
  { unfold getProfitAndLossReport. cbn zeta.
    apply waits_caught; [|intros e; apply onDirectFailure_cost].
    apply waits_logged. unfold directReport.
    apply waits_then; [|intros reportResponse; apply afterReport_cost].
    intros w0. destruct (getReport_cost h "ProfitAndLoss"
                           (formattedParams (normalizeDates h params)) w0)
      as (n & Hn & _ & Hsl).
    exists n. split; [exact Hn | exact Hsl]. }
  intros w'. subst w'. specialize (Ha w). specialize (Hf w).
  split; [lia|]. split; [lia|]. apply Hs.
Qed.

(** The bound is reached. *)
Lemma profit_and_loss_worst_case :
  let w' := snd (getProfitAndLossReport noon reportParams grudging) in
  apiCalls w' = 13%nat /\ slept w' = [4000; 2000].
Proof. vm_compute. split; reflexivity. Qed.

End ApiBudget.
(** ** The direct report *)

Section DirectReport.
Import Js Runtime Qbo QboMore Scenarios MoreScenarios.








End DirectReport.
(** ** The connection diagnostic *)

Section DiagnosticProperties.
Import Js Runtime Qbo QboMore Diagnostics Scenarios MoreScenarios.

(** What a test leaves behind: its entry or its error, at the cost of
    one API call. *)
Lemma companyInfoTest_run (h : Host) (cid : string) (d : Diagnostic) (w : World) :
  let run := companyInfoTest h cid d w in
  apiCalls (snd run) = S (apiCalls w)
  /\ exists o, succeeded o
               /\ fst run = Ok (record "companyInfo" "Company info query failed: " o d).
Proof.
  unfold companyInfoTest, try_catch, bind, ret.
  pose proof (callQuickBooksApi_apiCalls h ("companyinfo/" +:+ cid) "GET" None w) as Hc.
  destruct (callQuickBooksApi h ("companyinfo/" +:+ cid) "GET" None w) as [[v|e] w1];
    cbn [fst snd] in *.
  - unfold lift. destruct (readProp h v "CompanyInfo") as [info|e]; cbn [fst snd].
    + split; [lia|]. eexists (Passed _). split; [eexists; reflexivity | reflexivity].
    + split; [lia|]. exists (Failed e). split; [exact I | reflexivity].
  - split; [lia|]. exists (Failed e). split; [exact I | reflexivity].
Qed.

Lemma customerQueryTest_run (h : Host) (d : Diagnostic) (w : World) :
  let run := customerQueryTest h d w in
  apiCalls (snd run) = S (apiCalls w)
  /\ exists o, succeeded o
               /\ fst run = Ok (record "customerQuery" "Customer query failed: " o d).
Proof.
  unfold customerQueryTest, try_catch, bind, ret.
  match goal with |- context [callQuickBooksApi h ?ep "GET" None w] =>
    pose proof (callQuickBooksApi_apiCalls h ep "GET" None w) as Hc;
    destruct (callQuickBooksApi h ep "GET" None w) as [[v|e] w1]
  end; cbn [fst snd] in *.
  - unfold lift. destruct (readProp h v "QueryResponse") as [response|e]; cbn [fst snd].
    + split; [lia|]. eexists (Passed _). split; [eexists; reflexivity | reflexivity].
    + split; [lia|]. exists (Failed e). split; [exact I | reflexivity].
  - split; [lia|]. exists (Failed e). split; [exact I | reflexivity].
Qed.

Lemma reportTest_run (h : Host) (endpoint k logCategory logQuery label : string)
  (d : Diagnostic) (w : World) :
  let run := reportTest h endpoint k logCategory logQuery label d w in
  apiCalls (snd run) = S (apiCalls w)
  /\ exists o, reportsSuccess o /\ fst run = Ok (record k label o d).
Proof.
  unfold reportTest, try_catch, bind, ret.
  pose proof (callQuickBooksApi_apiCalls h endpoint "GET" None w) as Hc.
  destruct (callQuickBooksApi h endpoint "GET" None w) as [[v|e] w1];
    cbn [fst snd] in *.
  - unfold logAction. cbn [fst snd apiCalls].
    split; [lia|]. eexists (Passed _). split; [eexists _, _; reflexivity | reflexivity].
  - split; [lia|]. exists (Failed e). split; [exact I | reflexivity].
Qed.

(** A full run: four tests, four API calls, and the conclusion drawn from
    what the tests left. *)
Lemma runQBDiagnostic_full (h : Host) (w : World) (cid : string) :
  hasAccess w = true -> companyId w = Some cid -> cid <> "" ->
  exists o1 o2 o3 o4 w',
    succeeded o1 /\ succeeded o2 /\ reportsSuccess o3 /\ reportsSuccess o4
    /\ apiCalls w' = (apiCalls w + 4)%nat
    /\ runQBDiagnostic h w
       = (Ok (conclude
                (record "plTest" "P&L query failed: " o4
                   (record "reportTest" "Report query failed: " o3
                      (record "customerQuery" "Customer query failed: " o2
                         (record "companyInfo" "Company info query failed: " o1
                            (with_detail "companyId" (JStr cid)
                               (with_detail "oauth" (JObj [("hasAccess", JBool true)])
                                  diagnosticResults))))))), w').
Proof.
  intros Ha Hc Hne.
  unfold runQBDiagnostic, guarded. cbn zeta.
  unfold try_catch at 1. unfold bind at 1. unfold service_hasAccess at 1.
  rewrite Ha. cbn [negb].
  unfold try_catch at 1. unfold bind at 1. unfold getCompanyId at 1. rewrite Hc.
  rewrite (truthy_str_Some cid Hne). cbn [negb optStr tpl].
  unfold bind at 1.
  match goal with |- context [companyInfoTest h cid ?d w] =>
    destruct (companyInfoTest_run h cid d w) as (A1 & o1 & S1 & E1);
    destruct (companyInfoTest h cid d w) as [r1 w1]
  end.
  cbn [fst snd] in A1, E1. subst r1.
  unfold bind at 1.
  match goal with |- context [customerQueryTest h ?d w1] =>
    destruct (customerQueryTest_run h d w1) as (A2 & o2 & S2 & E2);
    destruct (customerQueryTest h d w1) as [r2 w2]
  end.
  cbn [fst snd] in A2, E2. subst r2.
  unfold bind at 1.
  match goal with |- context [reportTest h ?ep ?k ?lc ?lq ?lb ?d w2] =>
    destruct (reportTest_run h ep k lc lq lb d w2) as (A3 & o3 & S3 & E3);
    destruct (reportTest h ep k lc lq lb d w2) as [r3 w3]
  end.
  cbn [fst snd] in A3, E3. subst r3.
  unfold bind at 1.
  match goal with |- context [reportTest h ?ep ?k ?lc ?lq ?lb ?d w3] =>
    destruct (reportTest_run h ep k lc lq lb d w3) as (A4 & o4 & S4 & E4);
    destruct (reportTest h ep k lc lq lb d w3) as [r4 w4]
  end.
  cbn [fst snd] in A4, E4. subst r4.
  unfold ret.
  exists o1, o2, o3, o4, w4. repeat split; try assumption; try reflexivity. lia.
Qed.

(** X16.  The diagnostic always comes back with its object.  Without a
    token it stops at once, and so it does without a company id, in both
    cases before any API call; otherwise it runs its four tests, one API call
    each, whatever becomes of them. *)
Theorem diagnostic_always_reports (h : Host) (w : World) :
  let run := runQBDiagnostic h w in
  (exists d, fst run = Ok d)
  /\ (hasAccess w = false ->
      run = (Ok (with_message
                   "QuickBooks OAuth connection failed. Please reconnect by clicking the settings icon and using the Connect button."
                   (with_detail "oauth" (JObj [("hasAccess", JBool false)])
                      diagnosticResults)), w))
  /\ (hasAccess w = true -> truthy_str (companyId w) = false ->
      run = (Ok (with_message "Company ID not set. Please configure in settings."
                   (with_detail "oauth" (JObj [("hasAccess", JBool true)])
                      diagnosticResults)), w))
  /\ (hasAccess w = true -> truthy_str (companyId w) = true ->
      apiCalls (snd run) = (apiCalls w + 4)%nat).
Proof.
  intros run.
  assert (Hno : hasAccess w = false ->
                run = (Ok (with_message
                   "QuickBooks OAuth connection failed. Please reconnect by clicking the settings icon and using the Connect button."
                   (with_detail "oauth" (JObj [("hasAccess", JBool false)])
                      diagnosticResults)), w)).
  { intros Ha. subst run.
    unfold runQBDiagnostic, guarded, try_catch, bind, service_hasAccess.
    cbn zeta. rewrite Ha. reflexivity. }
  assert (Hid : hasAccess w = true -> truthy_str (companyId w) = false ->
                run = (Ok (with_message "Company ID not set. Please configure in settings."
                   (with_detail "oauth" (JObj [("hasAccess", JBool true)])
                      diagnosticResults)), w)).
  { intros Ha Hc. subst run.
    unfold runQBDiagnostic, guarded, try_catch, bind, service_hasAccess, getCompanyId.
    cbn zeta. rewrite Ha. cbn [negb]. rewrite Hc. reflexivity. }
  assert (Hfull : hasAccess w = true -> truthy_str (companyId w) = true ->
                  (exists d, fst run = Ok d)
                  /\ apiCalls (snd run) = (apiCalls w + 4)%nat).
  { intros Ha Hc. destruct (companyId w) as [cid|] eqn:Ec; [|discriminate].
    assert (Hne : cid <> "") by (intros ->; discriminate).
    destruct (runQBDiagnostic_full h w cid Ha Ec Hne)
      as (o1 & o2 & o3 & o4 & w' & _ & _ & _ & _ & Hn & E).
    subst run. rewrite E. split; [eexists; reflexivity | exact Hn]. }
  split; [|split; [exact Hno | split; [exact Hid | intros Ha Hc; apply Hfull; assumption]]].
  destruct (hasAccess w) eqn:Ha.
  - destruct (truthy_str (companyId w)) eqn:Hc.
    + apply Hfull; reflexivity.
    + rewrite (Hid eq_refl eq_refl). eexists; reflexivity.
  - rewrite (Hno eq_refl). eexists; reflexivity.
Qed.

Lemma diagnostic_always_reports_witness :
  apiCalls (snd (runQBDiagnostic noon healthy)) = 4%nat
  /\ apiCalls (snd (runQBDiagnostic noon signedOut)) = 0%nat.
Proof.
  split.
  - exact (proj2 (proj2 (proj2 (diagnostic_always_reports noon healthy))) eq_refl eq_refl).
  - exact (f_equal (fun run => apiCalls (snd run))
             (proj1 (proj2 (diagnostic_always_reports noon signedOut)) eq_refl)).
Defined.




End DiagnosticProperties.
(** ** The URL of a request *)

Section RequestUrl.
Import Js Runtime Qbo QboMore Scenarios MoreScenarios.

Lemma split_lacks (c : ascii) (s : string) : lacks c s = true -> split c s = [s].
Proof.
  induction s as [|a r IH]; [reflexivity|]. cbn [lacks split]. intros H.
  apply andb_prop in H as [Ha Hr]. apply negb_true_iff in Ha.
  rewrite Ha, (IH Hr). reflexivity.
Qed.

Lemma split_at (c : ascii) (p q : string) :
  lacks c p = true -> split c (p +:+ String c q) = p :: split c q.
Proof.
  induction p as [|a r IH]; intros H.
  - change ("" +:+ String c q) with (String c q). cbn [split].
    rewrite Ascii.eqb_refl. reflexivity.
  - cbn [lacks] in H. apply andb_prop in H as [Ha Hr]. apply negb_true_iff in Ha.
    change (String a r +:+ String c q) with (String a (r +:+ String c q)).
    cbn [split]. rewrite Ha, (IH Hr). reflexivity.
Qed.

(** X18.  The parameters of a GET request are appended to the URL as a
    query string.  A query string the endpoint has already is kept, in front
    of the parameters.  Of an endpoint with two question marks only the part
    before the second survives. *)
Theorem request_url_query (h : Host) (path query tail : string)
  (data : list (string * jsval)) :
  lacks "?" path = true -> lacks "?" query = true ->
  addQuery h path data = path +:+ "?" +:+ join "&" (map (queryParam h) data)
  /\ (query <> "" ->
      addQuery h (path +:+ "?" +:+ query) data
      = path +:+ "?" +:+ join "&" (query :: map (queryParam h) data))
  /\ addQuery h (path +:+ "?" +:+ query +:+ "?" +:+ tail) data
     = addQuery h (path +:+ "?" +:+ query) data.
Proof.
  intros Hp Hq. unfold addQuery. cbv zeta.
  change (path +:+ "?" +:+ query) with (path +:+ String "?" query).
  change (path +:+ "?" +:+ query +:+ "?" +:+ tail)
    with (path +:+ String "?" (query +:+ String "?" tail)).
  rewrite (split_lacks _ _ Hp), !(split_at _ _ _ Hp), (split_at _ _ _ Hq),
    (split_lacks _ _ Hq).
  cbn [hd nth_error]. repeat split.
  intros Hne. rewrite (truthy_str_Some _ Hne). reflexivity.
Qed.

Lemma request_url_query_witness :
  requestUrl noon "123145" "reports/ProfitAndLoss?minorversion=65" "GET"
    (Some [("start_date", JStr "2024-01-01"); ("end_date", JStr "2024-03-31")])
  = "https://quickbooks.api.intuit.com/v3/company/123145/reports/ProfitAndLoss?minorversion=65&start_date=2024-01-01&end_date=2024-03-31".
Proof.
  exact (proj1 (proj2
           (request_url_query noon
              "https://quickbooks.api.intuit.com/v3/company/123145/reports/ProfitAndLoss"
              "minorversion=65" ""
              [("start_date", JStr "2024-01-01"); ("end_date", JStr "2024-03-31")]
              eq_refl eq_refl))
           ltac:(discriminate)).
Defined.

End RequestUrl.
(** ** Settings *)

Section SettingsProperties.
Import Js Runtime Settings MoreScenarios.

(** One call after the other: each fails, and the function reports it, or
    takes effect. *)
Ltac run :=
  cbv beta iota zeta delta
    [saveCredentials getCredentials saveOpenAIApiKey saveOpenAISettings
     getOpenAISettings getOpenAIApiKey resetAllAuth logoutQuickBooks restore
     try_catch bind ret hostCall getScriptProperties getUserProperties getProperty
     setProperty deleteAllProperties deleteUserProperty getOAuthService
     service_reset logAction onScript onUser scriptProps userProps faults calls
     resetToken actionLog fst snd succeeded failed success].

Ltac next_call :=
  match goal with
  | |- context [match ?f ?n with Some _ => _ | None => _ end] =>
      destruct (f n) eqn:?
  end.






(** X20.  Settings without an API key are refused before any store is
    touched.  On stores that work a key that is saved is found again: the
    settings then report that a key is there, and the key read is the key
    saved. *)
Theorem openai_key_settings (s : Store) :
  (forall settings,
      match settings with Some apiKey => truthy_str apiKey | None => false end = false ->
      saveOpenAISettings settings s = (Ok (failed "API key is required"), s))
  /\ (forall settings, exists r, fst (saveOpenAISettings settings s) = Ok r)
  /\ (forall apiKey, reliable s -> apiKey <> "" ->
      fst ((saveOpenAISettings (Some (Some apiKey)) ;; getOpenAISettings) s)
      = Ok (true, None)
      /\ fst ((saveOpenAISettings (Some (Some apiKey)) ;; getOpenAIApiKey) s)
         = Ok apiKey).
Proof.
  destruct s as [sp up fa ca rt lg]. unfold reliable. cbn [faults].
  split; [|split].
  - intros [[k|]|] H; run; try rewrite H; reflexivity.
  - intros [[k|]|]; run; try (eexists; reflexivity).
    destruct (negb (truthy_str (Some k))); [eexists; reflexivity|].
    next_call; [eexists; reflexivity|]. next_call; eexists; reflexivity.
  - intros k Hr Hk. run. rewrite (truthy_str_Some k Hk). cbn [negb tpl].
    rewrite !Hr. rewrite lookup_insert_eq. cbn [or_str].
    destruct (String.eqb_spec k "") as [|_]; [contradiction|].
    destruct (String.eqb_spec k ""); [contradiction|]. split; reflexivity.
Qed.

Lemma openai_key_settings_witness :
  saveOpenAISettings (Some None) configured
  = (Ok (failed "API key is required"), configured)
  /\ fst ((saveOpenAISettings (Some (Some "sk-live")) ;; getOpenAIApiKey) configured)
     = Ok "sk-live".
Proof.
  split.
  - exact (proj1 (openai_key_settings configured) (Some None) eq_refl).
  - exact (proj2 (proj2 (proj2 (openai_key_settings configured)) "sk-live"
                    (fun n => eq_refl) ltac:(discriminate))).
Defined.

(** The script properties after the three values are restored. *)
Lemma restored_lookup (a b c : option string) (k : string) :
  ((if truthy_str c then insert "QBO_COMPANY_ID" (tpl c) else id)
     ((if truthy_str b then insert "QBO_CLIENT_SECRET" (tpl b) else id)
        ((if truthy_str a then insert "QBO_CLIENT_ID" (tpl a) else id)
           (∅ : gmap string string)))) !! k
  = if String.eqb k "QBO_CLIENT_ID" then nonEmpty a
    else if String.eqb k "QBO_CLIENT_SECRET" then nonEmpty b
    else if String.eqb k "QBO_COMPANY_ID" then nonEmpty c
    else None.
Proof.
  unfold nonEmpty.
  destruct (String.eqb_spec k "QBO_CLIENT_ID") as [->|H1];
    [|destruct (String.eqb_spec k "QBO_CLIENT_SECRET") as [->|H2];
      [|destruct (String.eqb_spec k "QBO_COMPANY_ID") as [->|H3]]];
    destruct a as [a|], b as [b|], c as [c|]; cbn [truthy_str tpl];
    repeat match goal with
           | |- context [negb (String.eqb ?x "")] => destruct (negb (String.eqb x ""))
           end;
    unfold id;
    repeat first [ rewrite lookup_insert_eq
                 | rewrite lookup_insert_ne by congruence
                 | rewrite lookup_empty ];
    reflexivity.
Qed.

Lemma or_str_nonEmpty (v : option string) : or_str (nonEmpty v) "" = or_str v "".
Proof.
  destruct v as [x|]; [|reflexivity]. unfold nonEmpty, truthy_str, or_str.
  destruct (String.eqb x "") eqn:E; cbn [negb]; [reflexivity | rewrite E; reflexivity].
Qed.

Lemma resetAllAuth_run (s : Store) :
  let run := resetAllAuth s in
  (exists r, fst run = Ok r
             /\ (success r = true ->
                 scriptProps (snd run)
                 = (if truthy_str (scriptProps s !! "QBO_COMPANY_ID")
                    then insert "QBO_COMPANY_ID" (tpl (scriptProps s !! "QBO_COMPANY_ID"))
                    else id)
                     ((if truthy_str (scriptProps s !! "QBO_CLIENT_SECRET")
                       then insert "QBO_CLIENT_SECRET"
                              (tpl (scriptProps s !! "QBO_CLIENT_SECRET"))
                       else id)
                        ((if truthy_str (scriptProps s !! "QBO_CLIENT_ID")
                          then insert "QBO_CLIENT_ID"
                                 (tpl (scriptProps s !! "QBO_CLIENT_ID"))
                          else id) ∅))))
  /\ (reliable s -> exists r, fst run = Ok r /\ success r = true).
Proof.
  destruct s as [sp up fa ca rt lg]. cbn zeta. unfold reliable. cbn [faults].
  split.
  - run.
    do 14 (next_call; [eexists; split; [reflexivity | discriminate]|]).
    next_call; [eexists; split; [reflexivity | discriminate]|].
    destruct (truthy_str (sp !! "QBO_CLIENT_ID"));
      destruct (truthy_str (sp !! "QBO_CLIENT_SECRET"));
      destruct (truthy_str (sp !! "QBO_COMPANY_ID"));
      repeat (next_call; [eexists; split; [reflexivity | discriminate]|]);
      eexists; split; reflexivity.
  - intros Hr. run. rewrite !Hr.
    destruct (truthy_str (sp !! "QBO_CLIENT_ID")); rewrite ?Hr;
      destruct (truthy_str (sp !! "QBO_CLIENT_SECRET")); rewrite ?Hr;
      destruct (truthy_str (sp !! "QBO_COMPANY_ID")); rewrite ?Hr;
      eexists; split; reflexivity.
Qed.

(** X21.  A complete reset never throws.  When it reports success, the
    script properties hold the client id, the client secret and the company
    id as far as they were set and not empty, and nothing else: the
    credentials read afterwards are the credentials of before, and the OpenAI
    API key is gone. *)
Theorem reset_keeps_credentials_only (s : Store) :
  let run := resetAllAuth s in
  exists r, fst run = Ok r
            /\ (reliable s -> success r = true)
            /\ (success r = true ->
                (forall k, scriptProps (snd run) !! k
                           = if kept k then nonEmpty (scriptProps s !! k) else None)
                /\ credentialsOf (scriptProps (snd run)) = credentialsOf (scriptProps s)
                /\ scriptProps (snd run) !! "OPENAI_API_KEY" = None).
Proof.
  intros run. destruct (resetAllAuth_run s) as [(r & Er & Hs) Hrel]. cbn zeta in *.
  fold run in Er, Hs, Hrel. exists r. split; [exact Er|]. split.
  - intros Hr. destruct (Hrel Hr) as (r' & Er' & Hok). congruence.
  - intros Hok. specialize (Hs Hok).
    assert (Hk : forall k, scriptProps (snd run) !! k
                           = if kept k then nonEmpty (scriptProps s !! k) else None).
    { intros k. rewrite Hs, restored_lookup. unfold kept.
      destruct (String.eqb_spec k "QBO_CLIENT_ID") as [->|H1]; [reflexivity|].
      destruct (String.eqb_spec k "QBO_CLIENT_SECRET") as [->|H2]; [reflexivity|].
      destruct (String.eqb_spec k "QBO_COMPANY_ID") as [->|H3]; reflexivity. }
    split; [exact Hk|]. split.
    + unfold credentialsOf. rewrite !Hk. cbn [kept String.eqb Ascii.eqb Bool.eqb orb].
      rewrite !or_str_nonEmpty. reflexivity.
    + rewrite Hk. reflexivity.
Qed.

Lemma reset_keeps_credentials_only_witness :
  exists r, fst (resetAllAuth configured) = Ok r
            /\ success r = true
            /\ scriptProps (snd (resetAllAuth configured)) !! "OPENAI_API_KEY" = None.
Proof.
  destruct (reset_keeps_credentials_only configured) as (r & Er & Hrel & Hs).
  exists r. split; [exact Er|].
  pose proof (Hrel (fun n => eq_refl)) as Hok. split; [exact Hok|].
  exact (proj2 (proj2 (Hs Hok))).
Defined.

End SettingsProperties.
(** ** Values for a range *)

Section SheetDataProperties.
Import Js Runtime SheetData Scenarios MoreScenarios.

(** A value that has properties to read. *)
Lemma itemProp_ok (h : Host) (item : jsval) (header : string) :
  item <> JNull -> item <> JUndefined ->
  itemProp h item header = Ok (getProp (inherited h) item header).
Proof. intros H1 H2. destruct item; try reflexivity; contradiction. Qed.

Lemma itemRow_ok (h : Host) (headers : list string) (item : jsval) :
  item <> JNull -> item <> JUndefined ->
  itemRow h headers item
  = Ok (JArr (map (fun header => or_else (getProp (inherited h) item header) (JStr ""))
                headers)).
Proof.
  intros H1 H2. unfold itemRow.
  assert (E : mapM (fun header =>
                      match itemProp h item header with
                      | Ok v => Ok (or_else v (JStr ""))
                      | Throw e => Throw e
                      end) headers
              = Ok (map (fun header =>
                           or_else (getProp (inherited h) item header) (JStr ""))
                      headers)).
  { induction headers as [|k ks IH]; [reflexivity|].
    cbn [mapM map]. rewrite (itemProp_ok h item k H1 H2), IH. reflexivity. }
  rewrite E. reflexivity.
Qed.

Lemma mapM_itemRow (h : Host) (headers : list string) (items : list jsval) :
  Forall (fun item => item <> JNull /\ item <> JUndefined) items ->
  mapM (itemRow h headers) items
  = Ok (map (fun item =>
               JArr (map (fun header =>
                            or_else (getProp (inherited h) item header) (JStr ""))
                       headers)) items).
Proof.
  induction 1 as [|item rest [H1 H2] _ IH]; [reflexivity|].
  cbn [mapM map]. rewrite (itemRow_ok h headers item H1 H2), IH. reflexivity.
Qed.

Lemma mapM_itemRow_null (h : Host) (headers : list string) (items : list jsval) :
  headers <> [] -> In JNull items ->
  exists e, mapM (itemRow h headers) items = Throw e.
Proof.
  intros Hh. induction items as [|item rest IH]; [intros []|].
  intros [->|Hin].
  - destruct headers as [|k ks]; [contradiction|].
    cbn [mapM itemRow itemProp]. eexists. reflexivity.
  - cbn [mapM]. destruct (itemRow h headers item) as [row|e]; [|eexists; reflexivity].
    destruct (IH Hin) as (e & ->). eexists. reflexivity.
Qed.

(** X22.  A list of objects becomes a table with the keys of the first
    object as its header and one row per object, each as wide as the header.
    A cell holds the value of the object under that key, and the empty string
    when that value is missing or falsy: a zero, a false and a null are
    written as empty cells.  A null among the objects makes the function
    throw. *)
Theorem object_list_table (h : Host) (fields : list (string * jsval))
  (rest : list jsval) :
  let headers := map fst fields in
  let row item :=
    JArr (map (fun header => or_else (getProp (inherited h) item header) (JStr ""))
            headers) in
  (Forall (fun item => item <> JNull /\ item <> JUndefined) rest ->
   objectToSheetData h (JArr (JObj fields :: rest))
   = Ok (JArr (map JStr headers) :: map row (JObj fields :: rest))
   /\ Forall (rowOfWidth (length headers)) (map row (JObj fields :: rest)))
  /\ (fields <> [] -> In JNull rest ->
      exists e, objectToSheetData h (JArr (JObj fields :: rest)) = Throw e).
Proof.
  intros headers row. split.
  - intros Hrest. split.
    + unfold objectToSheetData. cbn [truthy negb typeofObject isArray andb objectKeys
                                     ownEntries].
      rewrite mapM_itemRow; [reflexivity|].
      constructor; [split; discriminate | exact Hrest].
    + apply Forall_map. apply Forall_forall. intros item _.
      eexists. split; [reflexivity|]. rewrite length_map. reflexivity.
  - intros Hf Hin. unfold objectToSheetData.
    cbn [truthy negb typeofObject isArray andb objectKeys ownEntries].
    destruct (mapM_itemRow_null h (map fst fields) (JObj fields :: rest)) as (e & ->).
    + destruct fields; [contradiction | discriminate].
    + right. exact Hin.
    + eexists. reflexivity.
Qed.

Lemma object_list_table_witness :
  objectToSheetData noon
    (JArr [JObj [("Name", JStr "Sales"); ("Balance", JNum 0)];
           JObj [("Name", JStr "Rent")]])
  = Ok [JArr [JStr "Name"; JStr "Balance"];
        JArr [JStr "Sales"; JStr ""];
        JArr [JStr "Rent"; JStr ""]].
Proof.
  refine (eq_trans
            (proj1 (proj1 (object_list_table noon
                             [("Name", JStr "Sales"); ("Balance", JNum 0)]
                             [JObj [("Name", JStr "Rent")]])
                      (@List.Forall_cons _ _ _ _ (conj _ _) (@List.Forall_nil _ _)))) _).
  - discriminate.
  - discriminate.
  - vm_compute. reflexivity.
Defined.

Lemma numeral_not_length (z : Z) : "length" <> Z_to_string z.
Proof.
  unfold Z_to_string. destruct (Z.to_int z) as [d|d]; destruct d; discriminate.
Qed.

(** X23.  Whatever the data, the values [updateSheetRange] prepares are a
    table of at least one row, and the first row is an array: the number of
    rows and of columns can always be read.  The number of columns may be
    zero. *)
Theorem sheet_values_have_dimensions (h : Host) (data : jsval) :
  exists cells more,
    sheetValues h data = Ok (JArr cells :: more)
    /\ numCols h (JArr cells :: more) = Ok (JNum (Z.of_nat (length cells))).
Proof.
  assert (Hn : forall cells more,
             numCols h (JArr cells :: more) = Ok (JNum (Z.of_nat (length cells)))).
  { intros cells more. cbn [numCols itemProp]. unfold getProp. cbn [ownEntries].
    destruct (assoc "length" (indexed 0 cells)) eqn:E; [|reflexivity].
    exfalso. revert E. generalize 0%nat.
    induction cells as [|c cs IH]; intros n; cbn [indexed assoc]; [discriminate|].
    destruct (String.eqb_spec "length" (Z_to_string (Z.of_nat n))) as [E|_];
      [|apply IH].
    exfalso. revert E. apply numeral_not_length. }
  destruct data as [| |b|z|s|elems|fields|f];
    try (eexists _, _; split; [reflexivity | apply Hn]).
  destruct elems as [|[| |b|z|s|inner|fields|f] rest];
    eexists _, _; (split; [reflexivity | apply Hn]).
Qed.

End SheetDataProperties.
(** ** The two report formatters *)

Section ReportShapeProperties.
Import Js Runtime Utils ReportShape Scenarios MoreScenarios.

Lemma formatReportRow_pruned (isBasic : bool) (n : nat) (row : option Row) :
  formatReportRow isBasic n (option_map prune row) = formatReportRow isBasic n row.
Proof. destruct row as [[t hd rs cd sm]|]; reflexivity. Qed.

Lemma forEachRow_pruned (isBasic : bool) (n : nat) (rows : list (option Row)) :
  forEachRow (formatReportRow isBasic n) (map (option_map prune) rows)
  = forEachRow (formatReportRow isBasic n) rows.
Proof.
  induction rows as [|r rest IH]; [reflexivity|].
  cbn [map forEachRow]. rewrite formatReportRow_pruned, IH. reflexivity.
Qed.

Lemma formatReportRow_lines (isBasic : bool) (n : nat) (row : option Row)
  (out : list (list jsval)) :
  formatReportRow isBasic n row = Ok out -> (length out <= 1)%nat.
Proof.
  unfold formatReportRow. destruct row as [r|]; [|discriminate].
  repeat match goal with
         | |- context [if ?c then _ else _] => destruct c
         | |- context [match ?x with _ => _ end] => destruct x
         end; intros E; injection E as <-; cbn; lia.
Qed.

Lemma forEachRow_lines (isBasic : bool) (n : nat) (rows : list (option Row))
  (out : list (list jsval)) :
  forEachRow (formatReportRow isBasic n) rows = Ok out ->
  (length out <= length rows)%nat.
Proof.
  revert out. induction rows as [|r rest IH]; intros out.
  - intros E. injection E as <-. reflexivity.
  - cbn [forEachRow].
    destruct (formatReportRow isBasic n r) as [o|e] eqn:Er; [|discriminate].
    destruct (forEachRow (formatReportRow isBasic n) rest) as [more|e]; [|discriminate].
    intros E. injection E as <-. rewrite length_app. cbn [length].
    pose proof (formatReportRow_lines _ _ _ _ Er). specialize (IH more eq_refl). lia.
Qed.

Lemma forEachRow_null (isBasic : bool) (n : nat) (rows : list (option Row)) :
  In None rows ->
  forEachRow (formatReportRow isBasic n) rows
  = Throw (TypeError "Cannot read properties of null (reading 'type')").
Proof.
  induction rows as [|r rest IH]; [intros []|].
  intros [->|Hin]; [reflexivity|]. cbn [forEachRow].
  destruct (formatReportRow isBasic n r) as [o|e] eqn:Er.
  - rewrite (IH Hin). reflexivity.
  - destruct r as [r|]; [|injection Er as <-; reflexivity].
    exfalso. revert Er. unfold formatReportRow.
    repeat match goal with
           | |- context [if ?c then _ else _] => destruct c
           | |- context [match ?x with _ => _ end] => destruct x
           end; discriminate.
Qed.

(** X24.  [formatReportData] reads the top level of a report only: the
    rows nested in a section leave no trace in its table, which is the
    table of the report without them and has at most one line per top-level
    row under the header.  A null among the top-level rows makes it
    throw. *)
Theorem report_data_reads_top_level (report : Report) :
  formatReportData (Some (pruned report)) = formatReportData (Some report)
  /\ (forall rows table,
        ReportRows report = Some (Some rows) ->
        formatReportData (Some report) = Ok table ->
        (length table <= S (length rows))%nat)
  /\ (forall rows,
        ReportRows report = Some (Some rows) -> In None rows ->
        formatReportData (Some report)
        = Throw (TypeError "Cannot read properties of null (reading 'type')")).
Proof.
  destruct report as [name cols [[rows|]|]]; unfold pruned; cbn [ReportName Columns ReportRows].
  2, 3: repeat split; try reflexivity; intros; discriminate.
  split; [|split].
  - unfold formatReportData; cbv zeta. rewrite forEachRow_pruned. reflexivity.
  - intros rows' table E. injection E as <-. unfold formatReportData; cbv zeta.
    match goal with
    | |- context [forEachRow ?f rows] =>
        destruct (forEachRow f rows) as [out|e] eqn:Eo; [|discriminate]
    end.
    intros E. injection E as <-. cbn [length].
    apply forEachRow_lines in Eo. lia.
  - intros rows' E Hin. injection E as <-. unfold formatReportData; cbv zeta.
    rewrite (forEachRow_null _ _ rows Hin). reflexivity.
Qed.

Lemma report_data_reads_top_level_witness :
  (length [[JStr "Account"; JStr "Money"]; [JStr "Income"; JStr ""]] <= 2)%nat
  /\ formatReportData (Some (pruned wideReport)) = formatReportData (Some wideReport).
Proof.
  split.
  - exact (proj1 (proj2 (report_data_reads_top_level wideReport)) _
             [[JStr "Account"; JStr "Money"]; [JStr "Income"; JStr ""]]
             eq_refl eq_refl).
  - exact (proj1 (report_data_reads_top_level wideReport)).
Defined.

End ReportShapeProperties.
(** ** The column normalisation of [writeToSheet] *)

Section ColumnNormalisation.
Import Js Runtime Utils Scenarios MoreScenarios.

Lemma normalizeRow_closed (n : nat) (row : list jsval) :
  (let row' := padTo n row in
   if (n <? length row')%nat then firstn n row' else row')
  = firstn n row ++ replicate (n - length row) (JStr "").
Proof.
  cbv zeta. unfold padTo. rewrite length_app, length_replicate.
  destruct (Nat.ltb_spec n (length row + (n - length row))) as [Hlt | Hge].
  - assert (Hn : (n - length row = 0)%nat) by lia.
    rewrite Hn. cbn [replicate]. rewrite !app_nil_r. reflexivity.
  - rewrite (firstn_all2 row) by lia. reflexivity.
Qed.

Lemma normalizeColumns_fixed (header : list jsval) (rows : list (list jsval)) :
  Forall (fun row => length row = length header) rows ->
  normalizeColumns (header :: rows) = header :: rows.
Proof.
  intros Hw. cbn [normalizeColumns]. f_equal.
  induction Hw as [|row rows Hrow _ IH]; [reflexivity|].
  cbn [map]. rewrite IH. f_equal.
  rewrite normalizeRow_closed, <- Hrow, Nat.sub_diag.
  cbn [replicate]. rewrite app_nil_r. apply firstn_all.
Qed.

(** X25.  The column normalisation of [writeToSheet] keeps the first
    [n] cells of every row after the first, [n] being the width of the first
    row, and fills a shorter row up with empty strings.  A table whose rows
    have that width already is left as it is, so normalising twice is
    normalising once. *)
Theorem column_normalisation_settles (table : list (list jsval)) :
  normalizeColumns (normalizeColumns table) = normalizeColumns table
  /\ (forall header rows,
        table = header :: rows ->
        normalizeColumns table
        = header :: map (fun row => firstn (length header) row
                                    ++ replicate (length header - length row) (JStr ""))
                      rows)
  /\ (forall header rows,
        table = header :: rows ->
        Forall (fun row => length row = length header) rows ->
        normalizeColumns table = table).
Proof.
  split; [|split].
  - destruct table as [|header rows]; [reflexivity|].
    destruct (normalizeColumns_width (header :: rows)) as (_ & _ & Hw).
    cbn [hd] in Hw. cbn [normalizeColumns] in *. cbn [tl] in Hw.
    apply (normalizeColumns_fixed header _ Hw).
  - intros header rows ->. cbn [normalizeColumns]. f_equal.
    apply map_ext. intros row. apply normalizeRow_closed.
  - intros header rows -> Hw. apply normalizeColumns_fixed, Hw.
Qed.

Lemma column_normalisation_settles_witness :
  normalizeColumns raggedTable
  = [[JStr "Account"; JStr "Amount"]; [JStr "Sales"; JStr ""]]
  /\ normalizeColumns [[JStr "Account"; JStr "Amount"]; [JStr "Sales"; JStr ""]]
     = [[JStr "Account"; JStr "Amount"]; [JStr "Sales"; JStr ""]].
Proof.
  split.
  - exact (proj1 (proj2 (column_normalisation_settles raggedTable))
             [JStr "Account"; JStr "Amount"] [[JStr "Sales"]] eq_refl).
  - exact (proj2 (proj2 (column_normalisation_settles
                           [[JStr "Account"; JStr "Amount"]; [JStr "Sales"; JStr ""]]))
             [JStr "Account"; JStr "Amount"] [[JStr "Sales"; JStr ""]] eq_refl
             (@List.Forall_cons _ _ [JStr "Sales"; JStr ""] [] eq_refl (@List.Forall_nil _ _))).
Defined.

End ColumnNormalisation.
(** ** Getting a sheet and writing a table to it *)

Section SheetsProperties.
Import Js Runtime Utils Sheets Scenarios MoreScenarios.

Lemma makes_weaken {A : Type} (m : H A) (P Q : result A -> list Call -> Prop) :
  makes m P -> (forall r new, P r new -> Q r new) -> makes m Q.
Proof.
  intros Hm HPQ b. destruct (Hm b) as (new & E & HP).
  exists new. split; [exact E | apply HPQ, HP].
Qed.

Lemma makes_ret {A : Type} (a : A) (P : result A -> list Call -> Prop) :
  P (Ok a) [] -> makes (ret a) P.
Proof.
  intros HP b. exists []. cbn. rewrite app_nil_r. split; [destruct b; reflexivity | exact HP].
Qed.

Lemma makes_throw {A : Type} (e : JsError) (P : result A -> list Call -> Prop) :
  P (Throw e) [] -> makes (throw e) P.
Proof.
  intros HP b. exists []. cbn. rewrite app_nil_r. split; [destruct b; reflexivity | exact HP].
Qed.

Lemma makes_hostCall {A : Type} (c : Call) (read : Reply -> A)
  (P : result A -> list Call -> Prop) :
  (forall e, P (Throw e) [c]) -> (forall r, P (Ok (read r)) [c]) ->
  makes (hostCall c read) P.
Proof.
  intros He Hr b. exists [c]. unfold hostCall.
  destruct (failure (replies b (length (asked b)))); cbn; split;
    [reflexivity | apply He | reflexivity | apply Hr].
Qed.

Lemma makes_bind {A B : Type} (m : H A) (k : A -> H B)
  (P : result A -> list Call -> Prop) (R : result B -> list Call -> Prop) :
  makes m P ->
  (forall e new, P (Throw e) new -> R (Throw e) new) ->
  (forall a new1, P (Ok a) new1 -> makes (k a) (fun r new2 => R r (new1 ++ new2))) ->
  makes (bind m k) R.
Proof.
  intros Hm He Hk b. unfold bind.
  destruct (Hm b) as (new1 & E1 & HP).
  destruct (m b) as [[a|e] b1]; cbn [fst snd] in *; subst b1.
  - destruct (Hk a new1 HP (mkBook (replies b) (asked b ++ new1))) as (new2 & E2 & HR).
    cbn [replies asked] in E2. exists (new1 ++ new2).
    rewrite app_assoc. split; assumption.
  - exists new1. split; [reflexivity | apply He, HP].
Qed.

Lemma makes_try_catch {A : Type} (m : H A) (handler : JsError -> H A)
  (P R : result A -> list Call -> Prop) :
  makes m P ->
  (forall a new, P (Ok a) new -> R (Ok a) new) ->
  (forall e new1, P (Throw e) new1 ->
     makes (handler e) (fun r new2 => R r (new1 ++ new2))) ->
  makes (try_catch m handler) R.
Proof.
  intros Hm Ha Hh b. unfold try_catch.
  destruct (Hm b) as (new1 & E1 & HP).
  destruct (m b) as [[a|e] b1]; cbn [fst snd] in *; subst b1.
  - exists new1. split; [reflexivity | apply Ha, HP].
  - destruct (Hh e new1 HP (mkBook (replies b) (asked b ++ new1))) as (new2 & E2 & HR).
    cbn [replies asked] in E2. exists (new1 ++ new2).
    rewrite app_assoc. split; assumption.
Qed.

Lemma makes_attempt {A : Type} (m : H A) (P : result A -> list Call -> Prop) :
  makes m P -> makes (attempt m) (fun r new => exists r', r = Ok r' /\ P r' new).
Proof.
  intros Hm b. unfold attempt. destruct (Hm b) as (new & E & HP).
  destruct (m b) as [r b1]; cbn [fst snd] in *.
  exists new. split; [exact E | exists r; split; [reflexivity | exact HP]].
Qed.

Ltac run_sheet :=
  cbv beta iota zeta delta
    [getOrCreateSheet checkName writeRows bind try_catch attempt hostCall ret throw
     replies asked fst snd done negb].

Ltac fork :=
  match goal with
  | |- context [match failure ?r with _ => _ end] =>
      let E := fresh "E" in destruct (failure r) eqn:E
  | |- context [if spreadsheet ?r then _ else _] =>
      let E := fresh "E" in destruct (spreadsheet r) eqn:E
  | |- context [match found ?r with _ => _ end] =>
      let E := fresh "E" in destruct (found r) eqn:E
  | |- context [if String.eqb ?a ?b then _ else _] =>
      let E := fresh "E" in destruct (String.eqb a b) eqn:E
  end; cbv beta iota.

Ltac grown :=
  rewrite <- ?app_assoc; cbn [app]; reflexivity.

Lemma getOrCreateSheet_makes (sheetName : string) (createIfMissing : bool) :
  makes (getOrCreateSheet sheetName createIfMissing) (lookedUp sheetName).
Proof.
  intros b. destruct b as [rs past]. run_sheet.
  destruct createIfMissing; repeat fork;
    (eexists; split; [grown |]);
    (split; [repeat constructor | split; [cbn; lia | first [exact I | eexists; reflexivity]]]).
Qed.


Lemma checkName_makes (sheetName : string) (sheet : Sheet) :
  makes (checkName sheetName sheet)
    (fun _ new => Forall (fun c => isStructural c = true) new /\ (length new <= 3)%nat).
Proof.
  intros b. destruct b as [rs past]. run_sheet.
  repeat fork; (eexists; split; [grown |]); (split; [repeat constructor | cbn; lia]).
Qed.

Lemma structural_settles (new : list Call) :
  Forall (fun c => isStructural c = true) new -> Forall settles new.
Proof. apply List.Forall_impl. intros c Hc. left. exact Hc. Qed.

Lemma structural_no_pause (new : list Call) :
  Forall (fun c => isStructural c = true) new -> List.filter isSleep new = [].
Proof.
  induction 1 as [|c l Hc _ IH]; [reflexivity|].
  cbn [List.filter]. destruct c; try discriminate Hc; cbn; exact IH.
Qed.

Lemma pauses_app (k1 k2 k : nat) (l1 l2 : list Call) :
  pauses k1 l1 -> pauses k2 l2 -> (k1 + k2 <= k)%nat -> pauses k (l1 ++ l2).
Proof.
  intros (j1 & H1 & E1) (j2 & H2 & E2) Hk. exists (j1 + j2)%nat.
  split; [lia|]. rewrite List.filter_app, E1, E2, repeat_app. reflexivity.
Qed.

Lemma pauses_structural (k : nat) (new : list Call) :
  Forall (fun c => isStructural c = true) new -> pauses k new.
Proof.
  intros Hs. exists 0%nat. split; [lia|]. rewrite (structural_no_pause _ Hs). reflexivity.
Qed.

Lemma pauses_one (k : nat) : (1 <= k)%nat -> pauses k [Sleep 500].
Proof. intros Hk. exists 1%nat. split; [exact Hk | reflexivity]. Qed.

Lemma settles_quiet (new : list Call) :
  Forall settles new ->
  Forall (fun c => isSetValues c = false) new /\ Forall (fun c => isClear c = false) new.
Proof.
  intros Hs. split; (eapply List.Forall_impl; [|exact Hs]);
    intros c [Hc | ->]; try reflexivity; destruct c; try discriminate Hc; reflexivity.
Qed.

Lemma settles_then_pause (new : list Call) :
  Forall (fun c => isStructural c = true) new -> Forall settles (new ++ [Sleep 500]).
Proof.
  intros Hs. apply Forall_app. split; [apply structural_settles, Hs|].
  constructor; [right; reflexivity | constructor].
Qed.

Lemma pauses_then_pause (k : nat) (new : list Call) :
  Forall (fun c => isStructural c = true) new -> (1 <= k)%nat ->
  pauses k (new ++ [Sleep 500]).
Proof.
  intros Hs Hk.
  apply (pauses_app 0 1); [apply pauses_structural, Hs | apply pauses_one; lia | cbn; lia].
Qed.

Ltac not_returned :=
  intros w E; first [discriminate E | injection E as <-; reflexivity].

(** The loop that gets the sheet, entered with [remaining] attempts left. *)
Lemma getSheetLoop_makes (sheetName : string) (remaining : nat) :
  makes (getSheetLoop remaining sheetName)
    (fun r new =>
       Forall settles new /\ pauses (pred remaining) new
       /\ (length new <= 7 * remaining + 2)%nat
       /\ (forall w, r = Ok (Return w) -> success w = false)).
Proof.
  induction remaining as [|n IH].
  - apply makes_ret.
    repeat split; [constructor | exists 0%nat; split; [lia | reflexivity] | cbn; lia
                  | not_returned].
  - cbn [getSheetLoop].
    eapply makes_bind; [apply makes_attempt, getOrCreateSheet_makes | |].
    { intros e new (r' & E & _). discriminate E. }
    intros got new1 (r' & E & Hs1 & Hl1 & _). injection E as ->.
    destruct r' as [sheet | sheetError].
    + eapply makes_bind; [apply makes_attempt, checkName_makes | |].
      { intros e new (r' & E & _). discriminate E. }
      intros checked new2 (r' & E & Hs2 & Hl2). injection E as ->.
      assert (Hs : Forall (fun c => isStructural c = true) (new1 ++ new2))
        by (apply Forall_app; split; assumption).
      assert (Hl : (length (new1 ++ new2) <= 9)%nat) by (rewrite length_app; lia).
      destruct r' as [[]|sheetError]; [|destruct n].
      * apply makes_ret. rewrite !app_nil_r.
        repeat split; [apply structural_settles, Hs | apply pauses_structural, Hs | lia
                      | not_returned].
      * apply makes_ret. rewrite !app_nil_r.
        repeat split; [apply structural_settles, Hs | apply pauses_structural, Hs | lia
                      | not_returned].
      * eapply makes_bind; [apply (makes_hostCall _ _ (fun _ new => new = [Sleep 500]));
                            reflexivity | |].
        { intros e new ->. rewrite app_assoc.
          repeat split; [apply settles_then_pause, Hs
                        | apply pauses_then_pause; [exact Hs | cbn; lia]
                        | rewrite length_app; cbn [length]; lia
                        | not_returned]. }
        intros [] new3 ->. apply makes_ret. rewrite app_nil_r, app_assoc.
        repeat split; [apply settles_then_pause, Hs
                      | apply pauses_then_pause; [exact Hs | cbn; lia]
                      | rewrite length_app; cbn [length]; lia
                      | not_returned].
    + destruct n.
      * apply makes_ret. rewrite !app_nil_r.
        repeat split; [apply structural_settles, Hs1 | apply pauses_structural, Hs1 | lia
                      | not_returned].
      * eapply makes_bind; [apply (makes_hostCall _ _ (fun _ new => new = [Sleep 500]));
                            reflexivity | |].
        { intros e new ->.
          repeat split; [apply settles_then_pause, Hs1
                        | apply pauses_then_pause; [exact Hs1 | cbn; lia]
                        | rewrite length_app; cbn [length]; lia
                        | not_returned]. }
        intros [] new3 ->.
        eapply makes_weaken; [exact IH|].
        intros r new (Hs & Hp & Hl & Hr). rewrite app_assoc.
        repeat split.
        -- apply Forall_app. split; [apply settles_then_pause, Hs1 | exact Hs].
        -- apply (pauses_app 1 (pred (S n))); [|exact Hp | cbn; lia].
           apply pauses_then_pause; [exact Hs1 | lia].
        -- rewrite !length_app. cbn [length]. lia.
        -- exact Hr.
Qed.

Ltac pick_prefix :=
  match goal with
  | |- exists sheet pre, ?l = _ /\ _ =>
      match l with
      | context [GetLastRow ?s] => exists s, (firstn (length l - 4) l)
      end
  end.

(** Lines 367-435: what is done with the sheet. *)
Lemma writeRows_makes (sheetName : string) (header : list jsval)
  (data : list (list jsval)) (clearFirst : bool) (sheet : Sheet) :
  makes (writeRows sheetName header data clearFirst sheet)
    (fun r new =>
       List.filter isSleep new = []
       /\ (length new <= 8)%nat
       /\ (clearFirst = false -> Forall (fun c => isClear c = false) new)
       /\ (forall w, r = Ok w -> success w = true ->
           exists sheet' pre,
             new = pre ++ writing sheet' (Z.of_nat (length data))
                            (Z.of_nat (length header)) data
             /\ Forall (fun c => isSetValues c = false) pre
             /\ rowCount w = Some (Z.of_nat (length data))
             /\ columnCount w = Some (Z.of_nat (length header)))).
Proof.
  intros b. destruct b as [rs past]. run_sheet.
  destruct clearFirst; repeat fork;
    (eexists; split; [grown |]);
    (split; [reflexivity |]);
    (split; [cbn; lia |]).
  all: split; [first [discriminate | intros _; repeat constructor] |].
  all: intros w Ew; try discriminate Ew; injection Ew as <-.
  all: intros Hs; try discriminate Hs.
  all: pick_prefix; cbn; repeat split; repeat constructor.
Qed.

(** [writeToSheet] on a table with at least one row. *)
Lemma writeToSheet_makes (sheetName : string) (header : list jsval)
  (rows : list (list jsval)) (clearFirst : bool) :
  let data := normalizeColumns (header :: rows) in
  makes (writeToSheet sheetName (Some (header :: rows)) clearFirst)
    (fun r new =>
       pauses 2 new
       /\ (length new <= 31)%nat
       /\ (clearFirst = false -> Forall (fun c => isClear c = false) new)
       /\ exists w, r = Ok w /\
          (success w = true ->
           exists sheet pre,
             new = pre ++ writing sheet (Z.of_nat (length data))
                            (Z.of_nat (length header)) data
             /\ Forall (fun c => isSetValues c = false) pre
             /\ rowCount w = Some (Z.of_nat (length data))
             /\ columnCount w = Some (Z.of_nat (length header)))).
Proof.
  intros data. unfold writeToSheet. fold data.
  eapply (makes_try_catch _ _
            (fun r new =>
               pauses 2 new /\ (length new <= 31)%nat
               /\ (clearFirst = false -> Forall (fun c => isClear c = false) new)
               /\ forall w, r = Ok w -> success w = true ->
                  exists sheet pre,
                    new = pre ++ writing sheet (Z.of_nat (length data))
                                   (Z.of_nat (length header)) data
                    /\ Forall (fun c => isSetValues c = false) pre
                    /\ rowCount w = Some (Z.of_nat (length data))
                    /\ columnCount w = Some (Z.of_nat (length header)))).
  - eapply makes_bind; [apply (getSheetLoop_makes sheetName maxCreationAttempts) | |].
    + intros e new (Hs & Hp & Hl & _).
      repeat split; [exact Hp | cbn in Hl; lia | intros _; apply settles_quiet, Hs
                    | intros w E; discriminate E].
    + intros left new1 (Hs & Hp & Hl & Hr). cbn in Hl, Hp.
      destruct (settles_quiet _ Hs) as [Hv Hc].
      destruct left as [[sheet|]|r].
      * eapply makes_weaken; [apply writeRows_makes|].
        intros r new2 (Hn & Hl2 & Hc2 & Hw).
        repeat split.
        -- destruct Hp as (j & Hj & Ej). exists j. split; [exact Hj|].
           rewrite List.filter_app, Hn, app_nil_r. exact Ej.
        -- rewrite length_app. lia.
        -- intros Hf. apply Forall_app. split; [exact Hc | apply Hc2, Hf].
        -- intros w E Hok. destruct (Hw w E Hok) as (sheet' & pre & -> & Hpre & Hrc & Hcc).
           exists sheet', (new1 ++ pre). rewrite app_assoc.
           repeat split; [apply Forall_app; split; assumption | exact Hrc | exact Hcc].
      * apply makes_ret. rewrite app_nil_r.
        repeat split; [exact Hp | lia | intros _; exact Hc
                      | intros w E; injection E as <-; discriminate].
      * apply makes_ret. rewrite app_nil_r.
        repeat split; [exact Hp | lia | intros _; exact Hc |].
        intros w E. injection E as <-. rewrite (Hr r eq_refl). discriminate.
  - intros w new (Hp & Hl & Hc & Hw).
    repeat split; [exact Hp | exact Hl | exact Hc |].
    exists w. split; [reflexivity | apply Hw; reflexivity].
  - intros e new1 (Hp & Hl & Hc & _). apply makes_ret. rewrite app_nil_r.
    repeat split; [exact Hp | exact Hl | exact Hc |].
    eexists. split; [reflexivity | discriminate].
Qed.


(** X26.  [getOrCreateSheet] returns only a sheet that the spreadsheet has
    just answered to a lookup by that name, the last call it makes; whatever
    goes wrong, it throws an Error whose message begins with its own words
    and the name; without [createIfMissing] it asks for the spreadsheet and
    looks the sheet up, and does nothing else; it makes at most six calls. *)
Theorem sheet_comes_from_the_spreadsheet (sheetName : string)
  (createIfMissing : bool) (b : Book) :
  (forall sheet b',
     getOrCreateSheet sheetName createIfMissing b = (Ok sheet, b') ->
     exists pre,
       asked b' = pre ++ [GetSheetByName sheetName]
       /\ failure (replies b (length pre)) = None
       /\ found (replies b (length pre)) = Some sheet)
  /\ (forall e b',
        getOrCreateSheet sheetName createIfMissing b = (Throw e, b') ->
        exists msg,
          e = Error ("Failed to get or create sheet " +:+ dquote +:+ sheetName
                     +:+ dquote +:+ ": " +:+ msg))
  /\ (createIfMissing = false ->
      let after := asked (snd (getOrCreateSheet sheetName createIfMissing b)) in
      after = asked b ++ [GetActiveSpreadsheet]
      \/ after = asked b ++ [GetActiveSpreadsheet; GetSheetByName sheetName])
  /\ (length (asked (snd (getOrCreateSheet sheetName createIfMissing b)))
      <= length (asked b) + 6)%nat.
Proof.
  destruct b as [rs past]. run_sheet.
  destruct createIfMissing; repeat fork.
  all: split; [intros sheet b' Eb; try discriminate Eb; injection Eb as <- <-;
               (eexists; split; [reflexivity | split; assumption]) |].
  all: split; [intros e b' Eb; try discriminate Eb; injection Eb as <- <-;
               eexists; reflexivity |].
  all: split; [first [discriminate | intros _; cbn; rewrite <- ?app_assoc; cbn;
                      first [left; reflexivity | right; reflexivity]] |].
  all: cbn; rewrite ?length_app; cbn; lia.
Qed.

Lemma sheet_comes_from_the_spreadsheet_witness :
  (exists pre,
     asked (snd (getOrCreateSheet "Report" false tidyBook))
     = pre ++ [GetSheetByName "Report"]
     /\ failure (replies tidyBook (length pre)) = None
     /\ found (replies tidyBook (length pre)) = Some 7%nat)
  /\ (exists msg,
        fst (getOrCreateSheet "Report" false deadBook)
        = Throw (Error ("Failed to get or create sheet " +:+ dquote +:+ "Report"
                        +:+ dquote +:+ ": " +:+ msg))).
Proof.
  split.
  - exact (proj1 (sheet_comes_from_the_spreadsheet "Report" false tidyBook)
             7%nat _ eq_refl).
  - destruct (proj1 (proj2 (sheet_comes_from_the_spreadsheet "Report" false deadBook))
                _ _ eq_refl) as (msg & E).
    exists msg. cbn [fst]. rewrite <- E. reflexivity.
Defined.

(** X27.  [writeToSheet] never throws: whatever the spreadsheet service
    does, it returns its status object.  On the way it pauses at most twice,
    half a second each time, and makes at most 31 calls; it never clears a
    sheet when [clearFirst] is false; and for data that is null or has no
    rows it makes no call at all. *)
Theorem writeToSheet_always_answers (sheetName : string)
  (data : option (list (list jsval))) (clearFirst : bool) (b : Book) :
  exists w new,
    writeToSheet sheetName data clearFirst b
    = (Ok w, mkBook (replies b) (asked b ++ new))
    /\ pauses 2 new
    /\ (length new <= 31)%nat
    /\ (clearFirst = false -> Forall (fun c => isClear c = false) new)
    /\ (data = None \/ data = Some [] ->
        new = [] /\ w = failed "No data to write").
Proof.
  destruct data as [[|header rows]|].
  - exists (failed "No data to write"), []. rewrite app_nil_r. destruct b.
    split; [reflexivity|]. split; [exists 0%nat; split; [lia | reflexivity]|].
    split; [cbn; lia|]. split; [constructor|]. intros _. split; reflexivity.
  - destruct (writeToSheet_makes sheetName header rows clearFirst b)
      as (new & Eb & Hp & Hl & Hc & w & Er & _).
    exists w, new.
    destruct (writeToSheet sheetName (Some (header :: rows)) clearFirst b) as [r b'].
    cbn [fst snd] in Eb, Er. subst r b'.
    split; [reflexivity|]. split; [exact Hp|]. split; [exact Hl|]. split; [exact Hc|].
    intros [E | E]; discriminate E.
  - exists (failed "No data to write"), []. rewrite app_nil_r. destruct b.
    split; [reflexivity|]. split; [exists 0%nat; split; [lia | reflexivity]|].
    split; [cbn; lia|]. split; [constructor|]. intros _. split; reflexivity.
Qed.

Lemma writeToSheet_always_answers_witness :
  exists w new,
    writeToSheet "Report" (Some []) false deadBook
    = (Ok w, mkBook (replies deadBook) (asked deadBook ++ new))
    /\ Forall (fun c => isClear c = false) new
    /\ new = [] /\ w = failed "No data to write".
Proof.
  destruct (writeToSheet_always_answers "Report" (Some []) false deadBook)
    as (w & new & E & _ & _ & Hc & Hn).
  exists w, new.
  exact (conj E (conj (Hc eq_refl) (Hn (or_intror eq_refl)))).
Defined.

(** X28.  When [writeToSheet] reports success, the last four calls it made
    were: the range at row 1, column 1 with as many rows as the data and as
    many columns as its first row; the values set in it, which are the data
    with every row padded or cut to the width of the first; the columns
    resized; the last row read.  No other values were set, and the status
    carries those two counts. *)
Theorem writeToSheet_success (sheetName : string)
  (data : option (list (list jsval))) (clearFirst : bool) (b b' : Book)
  (w : Written) :
  writeToSheet sheetName data clearFirst b = (Ok w, b') ->
  success w = true ->
  exists header rows sheet pre,
    let numRows := Z.of_nat (S (length rows)) in
    let numCols := Z.of_nat (length header) in
    data = Some (header :: rows)
    /\ asked b' = asked b ++ pre
                  ++ writing sheet numRows numCols (normalizeColumns (header :: rows))
    /\ Forall (fun c => isSetValues c = false) pre
    /\ rowCount w = Some numRows
    /\ columnCount w = Some numCols
    /\ Forall (fun row => length row = length header)
         (normalizeColumns (header :: rows)).
Proof.
  intros Eb Hok.
  destruct data as [[|header rows]|].
  - destruct b. injection Eb as <- <-. discriminate Hok.
  - destruct (writeToSheet_makes sheetName header rows clearFirst b)
      as (new & Enew & _ & _ & _ & w' & Er & Hw).
    rewrite Eb in Enew, Er. cbn [fst snd] in Enew, Er. injection Er as <-.
    destruct (Hw Hok) as (sheet & pre & -> & Hpre & Hrc & Hcc).
    destruct (normalizeColumns_width (header :: rows)) as (_ & Hlen & Hwidth).
    cbn [hd] in Hwidth. rewrite Hlen in *. cbn [length] in *.
    exists header, rows, sheet, pre. cbv zeta.
    repeat split; [subst b'; reflexivity | exact Hpre | exact Hrc | exact Hcc |].
    cbn [normalizeColumns] in *. constructor; [reflexivity | exact Hwidth].
  - destruct b. injection Eb as <- <-. discriminate Hok.
Qed.

Lemma writeToSheet_success_witness :
  exists header rows sheet pre,
    Some raggedTable = Some (header :: rows)
    /\ asked (snd (writeToSheet "Report" (Some raggedTable) true tidyBook))
       = asked tidyBook ++ pre
         ++ writing sheet (Z.of_nat (S (length rows))) (Z.of_nat (length header))
              (normalizeColumns (header :: rows))
    /\ Forall (fun c => isSetValues c = false) pre
    /\ Forall (fun row => length row = length header)
         (normalizeColumns (header :: rows)).
Proof.
  destruct (writeToSheet_success "Report" (Some raggedTable) true tidyBook
              (snd (writeToSheet "Report" (Some raggedTable) true tidyBook))
              (mkWritten true ("Data written to sheet " +:+ dquote +:+ "Report" +:+ dquote)
                 (Some 2) (Some 2))
              eq_refl eq_refl)
    as (header & rows & sheet & pre & E & Ea & Hp & _ & _ & Hw).
  exists header, rows, sheet, pre.
  exact (conj E (conj Ea (conj Hp Hw))).
Defined.

End SheetsProperties.
(** ** Writing values to a range *)

Section RangesProperties.
Import Js Runtime Sheets Ranges Scenarios MoreScenarios.

Ltac run_range :=
  cbv beta iota zeta delta
    [updateSheetRange bind try_catch hostCall ret throw lift replies asked fst snd
     done].

Ltac branch :=
  match goal with
  | |- context [match failure ?r with _ => _ end] =>
      let E := fresh "E" in destruct (failure r) eqn:E
  | |- context [if spreadsheet ?r then _ else _] =>
      let E := fresh "E" in destruct (spreadsheet r) eqn:E
  | |- context [match found ?r with _ => _ end] =>
      let E := fresh "E" in destruct (found r) eqn:E
  | |- context [match SheetData.sheetValues ?h ?d with _ => _ end] =>
      let E := fresh "E" in destruct (SheetData.sheetValues h d) eqn:E
  | |- context [match SheetData.numCols ?h ?v with _ => _ end] =>
      let E := fresh "E" in destruct (SheetData.numCols h v) eqn:E
  | |- context [if truthy_str ?s then _ else _] =>
      let E := fresh "E" in destruct (truthy_str s) eqn:E
  | |- context [if isCellRef ?s then _ else _] =>
      let E := fresh "E" in destruct (isCellRef s) eqn:E
  end; cbv beta iota.

Ltac grown' := rewrite <- ?app_assoc; cbn [app]; reflexivity.

Ltac pick_write :=
  match goal with
  | |- exists sheet values cols pre target, _ /\ _ /\ ?l = _ /\ _ =>
      match l with
      | context [[SetValues ?t ?v; GetName ?s; GetA1Notation _]] =>
          match goal with
          | Hc : SheetData.numCols _ _ = Ok ?c |- _ =>
              exists s, v, c, (firstn (length l - 4) l), t
          end
      end
  end.

(** What [updateSheetRange] does, whatever the service answers. *)
Lemma updateSheetRange_run (h : Host) (range : string) (data : jsval)
  (sheetName : option string) (b : Book) :
  exists u new,
    updateSheetRange h range data sheetName b
    = (Ok u, mkBook (replies b) (asked b ++ new))
    /\ (length (List.filter isSetValues new) <= 1)%nat
    /\ (success u = false ->
        exists msg, message u = "Failed to update range: " +:+ msg)
    /\ (success u = true ->
        exists sheet values cols pre target,
          SheetData.sheetValues h data = Ok values
          /\ SheetData.numCols h values = Ok cols
          /\ new = pre ++ [GetRange target; SetValues target values;
                           GetName sheet; GetA1Notation target]
          /\ Forall (fun c => isSetValues c = false) pre
          /\ (isCellRef range = true ->
              exists r c,
                target = Block sheet (JNum r) (JNum c)
                           (JNum (Z.of_nat (length values))) cols)
          /\ (isCellRef range = false -> target = Named sheet range)).
Proof.
  destruct b as [rs past]. run_range.
  repeat branch.
  all: eexists; eexists; split; [grown' |].
  all: split; [cbn; lia |].
  all: split; [intros Hs; try discriminate Hs; eexists; reflexivity |].
  all: intros Hs; try discriminate Hs.
  all: pick_write; cbn [length Nat.sub firstn].
  all: split; [reflexivity |]; split; [assumption |]; split; [reflexivity |].
  all: split; [repeat constructor |].
  all: split; [intros Hc; try discriminate Hc; eexists; eexists; reflexivity
              | intros Hc; try discriminate Hc; reflexivity].
Qed.


Lemma updateSheetRange_missing (h : Host) (range : string) (data : jsval)
  (name : string) (b : Book) :
  name <> "" ->
  failure (replies b (length (asked b))) = None ->
  spreadsheet (replies b (length (asked b))) = true ->
  failure (replies b (S (length (asked b)))) = None ->
  found (replies b (S (length (asked b)))) = None ->
  updateSheetRange h range data (Some name) b
  = (Ok (notUpdated ("Failed to update range: Sheet " +:+ dquote +:+ name +:+ dquote
                     +:+ " not found.")),
     mkBook (replies b) (asked b ++ [GetActiveSpreadsheet; GetSheetByName name])).
Proof.
  destruct b as [rs past]. cbn [replies asked].
  intros Hname F1 S1 F2 N2. run_range.
  assert (Ht : truthy_str (Some name) = true).
  { cbn. destruct (String.eqb_spec name ""); [contradiction | reflexivity]. }
  rewrite Ht, F1, S1. cbv beta iota.
  rewrite length_app, Nat.add_1_r. cbn [length]. rewrite F2, N2. cbv beta iota.
  rewrite <- app_assoc. reflexivity.
Qed.

(** X29.  [updateSheetRange] never throws and sets values at most once.
    When it reports success, its last four calls were: the target range
    taken, the values set in it, the name of the sheet and the notation of
    the range read; the values are those of the data; for a single cell the
    target is the block that starts at the cell and has the size of the
    values, otherwise it is the range as given.  A failure is reported as
    such; when the spreadsheet has no sheet of the name given, nothing but
    the two lookups is done. *)
Theorem range_update_outcome (h : Host) (range : string) (data : jsval)
  (sheetName : option string) (b : Book) :
  exists u new,
    updateSheetRange h range data sheetName b
    = (Ok u, mkBook (replies b) (asked b ++ new))
    /\ (length (List.filter isSetValues new) <= 1)%nat
    /\ (success u = false ->
        exists msg, message u = "Failed to update range: " +:+ msg)
    /\ (success u = true ->
        exists sheet values cols pre target,
          SheetData.sheetValues h data = Ok values
          /\ SheetData.numCols h values = Ok cols
          /\ new = pre ++ [GetRange target; SetValues target values;
                           GetName sheet; GetA1Notation target]
          /\ Forall (fun c => isSetValues c = false) pre
          /\ (isCellRef range = true ->
              exists r c,
                target = Block sheet (JNum r) (JNum c)
                           (JNum (Z.of_nat (length values))) cols)
          /\ (isCellRef range = false -> target = Named sheet range))
    /\ (forall name,
          sheetName = Some name -> name <> "" ->
          failure (replies b (length (asked b))) = None ->
          spreadsheet (replies b (length (asked b))) = true ->
          failure (replies b (S (length (asked b)))) = None ->
          found (replies b (S (length (asked b)))) = None ->
          u = notUpdated ("Failed to update range: Sheet " +:+ dquote +:+ name
                          +:+ dquote +:+ " not found.")
          /\ new = [GetActiveSpreadsheet; GetSheetByName name]).
Proof.
  destruct (updateSheetRange_run h range data sheetName b)
    as (u & new & E & Hone & Hfail & Hok).
  exists u, new.
  split; [exact E|]. split; [exact Hone|]. split; [exact Hfail|]. split; [exact Hok|].
  intros name -> Hname F1 S1 F2 N2.
  rewrite (updateSheetRange_missing h range data name b Hname F1 S1 F2 N2) in E.
  injection E as <- Enew. apply app_inv_head in Enew. split; [reflexivity | symmetry; exact Enew].
Qed.

Lemma range_update_outcome_witness :
  (exists sheet values cols pre target,
     SheetData.sheetValues noon (JStr "hello") = Ok values
     /\ SheetData.numCols noon values = Ok cols
     /\ asked (snd (updateSheetRange noon "B3" (JStr "hello") (Some "Report") tidyBook))
        = pre ++ [GetRange target; SetValues target values;
                  GetName sheet; GetA1Notation target]
     /\ exists r c,
         target = Block sheet (JNum r) (JNum c) (JNum (Z.of_nat (length values))) cols)
  /\ snd (updateSheetRange noon "B3" (JStr "hello") (Some "Report") bareBook)
     = mkBook (replies bareBook) [GetActiveSpreadsheet; GetSheetByName "Report"].
Proof.
  split.
  - destruct (range_update_outcome noon "B3" (JStr "hello") (Some "Report") tidyBook)
      as (u & new & E & _ & _ & Hok & _).
    assert (Hu : success u = true).
    { vm_compute in E. injection E as <- _. reflexivity. }
    destruct (Hok Hu) as (sheet & values & cols & pre & target & Ev & Ec & En & _ & Hcell & _).
    exists sheet, values, cols, pre, target.
    split; [exact Ev|]. split; [exact Ec|]. split; [|exact (Hcell eq_refl)].
    rewrite E. cbn [snd asked]. rewrite En. reflexivity.
  - destruct (range_update_outcome noon "B3" (JStr "hello") (Some "Report") bareBook)
      as (u & new & E & _ & _ & _ & Hmiss).
    destruct (Hmiss "Report" eq_refl ltac:(discriminate) eq_refl eq_refl eq_refl eq_refl)
      as [_ ->].
    rewrite E. reflexivity.
Defined.

Lemma span_splits (stop : ascii) (s : string) :
  s = fst (span stop s) +:+ snd (span stop s).
Proof.
  induction s as [|c rest IH]; [reflexivity|].
  cbn [span]. destruct (Ascii.eqb c stop); [reflexivity|].
  destruct (span stop rest) as [run after]. cbn [fst snd] in *.
  change (String c run +:+ after) with (String c (run +:+ after)).
  f_equal. exact IH.
Qed.

Lemma span_stops (stop : ascii) (run rest : string) :
  lacksChar stop run = true ->
  span stop (run +:+ String stop rest) = (run, String stop rest).
Proof.
  induction run as [|c run IH]; simpl.
  - intros _. rewrite Ascii.eqb_refl. reflexivity.
  - intros Hl. apply andb_prop in Hl as [Hc Hl].
    apply negb_true_iff in Hc. rewrite Hc, (IH Hl). reflexivity.
Qed.

Lemma lacksChar_append (c : ascii) (s t : string) :
  lacksChar c (s +:+ t) = lacksChar c s && lacksChar c t.
Proof.
  induction s as [|c' s IH]; [reflexivity|].
  simpl. rewrite IH, andb_assoc. reflexivity.
Qed.

Lemma matchRange_qualified (name cells : string) :
  name <> "" -> lacksChar bang name = true ->
  lacksChar apostrophe (substring 0 1 name) = true ->
  restOfLine cells = true ->
  matchRange (qualified name cells) = Some (name, cells).
Proof.
  intros Hname Hbang Hfirst Hrest. unfold matchRange, qualified.
  destruct name as [|c name]; [contradiction|].
  assert (Hq : Ascii.eqb c apostrophe = false).
  { destruct name; cbn in Hfirst; destruct (Ascii.eqb c apostrophe);
      first [discriminate Hfirst | reflexivity]. }
  rewrite (span_stops bang _ cells Hbang).
  change (String c name +:+ String bang cells) with (String c (name +:+ String bang cells)).
  cbv beta iota. rewrite Hq. cbn [String.eqb negb andb].
  rewrite Hrest. reflexivity.
Qed.

Lemma matchRange_quoted (name cells : string) :
  name <> "" -> lacksChar apostrophe name = true ->
  restOfLine cells = true ->
  matchRange (quoted name cells) = Some (name, cells).
Proof.
  intros Hname Hq Hrest. unfold matchRange, quoted.
  replace (Ascii.eqb apostrophe apostrophe) with true by reflexivity.
  rewrite (span_stops apostrophe name (String bang cells) Hq).
  replace (Ascii.eqb bang bang) with true by reflexivity.
  destruct (String.eqb_spec name ""); [contradiction|].
  cbn [negb andb]. rewrite Hrest. reflexivity.
Qed.

Lemma matchRange_plain (rangeA1 : string) :
  lacksChar bang rangeA1 = true -> matchRange rangeA1 = None.
Proof.
  intros Hl. unfold matchRange.
  assert (Hq : match rangeA1 with
               | String c inner =>
                   if Ascii.eqb c apostrophe then
                     let (name, tail) := span apostrophe inner in
                     match tail with
                     | String _ (String c' rest) =>
                         if Ascii.eqb c' bang
                         then (if negb (String.eqb name "") && restOfLine rest
                               then Some (name, rest) else None)
                         else None
                     | _ => None
                     end
                   else None
               | EmptyString => None
               end = None).
  { destruct rangeA1 as [|c inner]; [reflexivity|].
    destruct (Ascii.eqb c apostrophe); [|reflexivity].
    cbn [lacksChar] in Hl. apply andb_prop in Hl as [_ Hl].
    pose proof (span_splits apostrophe inner) as Hs.
    destruct (span apostrophe inner) as [name tail]. cbn [fst snd] in Hs.
    rewrite Hs, lacksChar_append in Hl. apply andb_prop in Hl as [_ Hl].
    destruct tail as [|c1 [|c' rest]]; try reflexivity.
    cbn [lacksChar] in Hl. apply andb_prop in Hl as [_ Hl].
    apply andb_prop in Hl as [Hc _]. apply negb_true_iff in Hc. rewrite Hc. reflexivity. }
  rewrite Hq.
  pose proof (span_splits bang rangeA1) as Hs.
  destruct (span bang rangeA1) as [name tail] eqn:Esp. cbn [fst snd] in Hs.
  destruct tail as [|c rest]; [reflexivity|].
  exfalso.
  assert (Hc : c = bang).
  { clear Hs Hl Hq. revert name Esp.
    induction rangeA1 as [|c0 s IH]; intros name Esp; cbn [span] in Esp.
    - discriminate Esp.
    - destruct (Ascii.eqb_spec c0 bang) as [->|Hne].
      + inversion Esp. reflexivity.
      + destruct (span bang s) as [run after]. inversion Esp; subst.
        apply (IH run). reflexivity. }
  subst c. rewrite Hs, lacksChar_append in Hl. apply andb_prop in Hl as [_ Hl].
  cbn [lacksChar] in Hl. rewrite Ascii.eqb_refl in Hl. discriminate Hl.
Qed.

Lemma writeDataToRange_passes_on (h : Host) (rangeA1 : string) (data : jsval) (b : Book) :
  writeDataToRange h rangeA1 data b
  = match matchRange rangeA1 with
    | Some (sheetName, range) => updateSheetRange h range data (Some sheetName) b
    | None => updateSheetRange h rangeA1 data None b
    end.
Proof.
  unfold writeDataToRange, try_catch at 1.
  destruct (matchRange rangeA1) as [[sheetName range]|].
  - destruct (updateSheetRange_run h range data (Some sheetName) b) as (u & new & -> & _).
    reflexivity.
  - destruct (updateSheetRange_run h rangeA1 data None b) as (u & new & -> & _).
    reflexivity.
Qed.

(** X30.  [writeDataToRange] takes the sheet from the range it is given: a
    name before the first exclamation mark, or a name between apostrophes
    before it, written without them; what follows the mark is the range
    updated in that sheet.  A range with no exclamation mark is updated in
    the active sheet. *)
Theorem range_names_its_sheet (h : Host) (data : jsval) (b : Book) :
  (forall name cells,
     name <> "" -> lacksChar bang name = true ->
     lacksChar apostrophe (substring 0 1 name) = true ->
     restOfLine cells = true ->
     writeDataToRange h (qualified name cells) data b
     = updateSheetRange h cells data (Some name) b)
  /\ (forall name cells,
        name <> "" -> lacksChar apostrophe name = true ->
        restOfLine cells = true ->
        writeDataToRange h (quoted name cells) data b
        = updateSheetRange h cells data (Some name) b)
  /\ (forall rangeA1,
        lacksChar bang rangeA1 = true ->
        writeDataToRange h rangeA1 data b = updateSheetRange h rangeA1 data None b).
Proof.
  split; [|split].
  - intros name cells H1 H2 H3 H4.
    rewrite writeDataToRange_passes_on, (matchRange_qualified name cells H1 H2 H3 H4).
    reflexivity.
  - intros name cells H1 H2 H3.
    rewrite writeDataToRange_passes_on, (matchRange_quoted name cells H1 H2 H3).
    reflexivity.
  - intros rangeA1 H1.
    rewrite writeDataToRange_passes_on, (matchRange_plain rangeA1 H1). reflexivity.
Qed.

Lemma range_names_its_sheet_witness :
  writeDataToRange noon "Report!B3" (JStr "hello") tidyBook
  = updateSheetRange noon "B3" (JStr "hello") (Some "Report") tidyBook
  /\ writeDataToRange noon "'My Sheet'!A1:B2" (JStr "hello") tidyBook
     = updateSheetRange noon "A1:B2" (JStr "hello") (Some "My Sheet") tidyBook
  /\ writeDataToRange noon "A1:B2" (JStr "hello") tidyBook
     = updateSheetRange noon "A1:B2" (JStr "hello") None tidyBook.
Proof.
  split; [|split].
  - exact (proj1 (range_names_its_sheet noon (JStr "hello") tidyBook)
             "Report" "B3" ltac:(discriminate) eq_refl eq_refl eq_refl).
  - exact (proj1 (proj2 (range_names_its_sheet noon (JStr "hello") tidyBook))
             "My Sheet" "A1:B2" ltac:(discriminate) eq_refl eq_refl).
  - exact (proj2 (proj2 (range_names_its_sheet noon (JStr "hello") tidyBook))
             "A1:B2" eq_refl).
Defined.

End RangesProperties.
